(** * SKU manager: code generator, sequence allocator and table operations

    A shallow embedding of the deterministic core of [app.py]: the
    EAN-13 / SKU builders, the per-(brand, size) sequence allocator and
    the handlers that load, change and rewrite the two product tables.

    Conventions.
    - A Python [str] is a [string]; a character is read as a Unicode code
      point below 256 (Latin-1), which is what [ascii] can hold.
    - A Python [int] is a [Z].
    - A raised exception is [None] in an [option] result.
    - A spreadsheet cell read with [dtype=str] is a [cell]: text, or the
      missing value pandas calls NaN.
    - A Python [float] is a binary64 [float]. *)

From Stdlib Require Import ZArith List Bool Ascii String Lia.
From Stdlib Require Import Decimal DecimalString DecimalZ DecimalPos DecimalN.
From Stdlib Require Import Floats.
Import ListNotations.

#[local] Open Scope string_scope.
#[local] Open Scope Z_scope.

(** ** Python built-ins used by the program *)

Module Py.

(** [c.isspace()] on code points below 256. *)
Definition isspace (c : ascii) : bool :=
  let n := nat_of_ascii c in
  ((9 <=? n) && (n <=? 13) || (28 <=? n) && (n <=? 32)
   || (n =? 133) || (n =? 160))%nat.

(** Decimal digits, the only characters [int] reads as digits. *)
Definition isdecimal (c : ascii) : bool :=
  let n := nat_of_ascii c in ((48 <=? n) && (n <=? 57))%nat.

(** [c.isdigit()]: the decimal digits and the superscripts two, three
    and one (code points 178, 179, 185). *)
Definition isdigit_char (c : ascii) : bool :=
  let n := nat_of_ascii c in
  (isdecimal c || (n =? 178) || (n =? 179) || (n =? 185))%nat.

Fixpoint all_chars (p : ascii -> bool) (s : string) : bool :=
  match s with
  | EmptyString => true
  | String c r => p c && all_chars p r
  end.

(** [s.isdigit()]: non-empty and every character a digit. *)
Definition isdigit (s : string) : bool :=
  match s with
  | EmptyString => false
  | _ => all_chars isdigit_char s
  end.

Fixpoint filter (p : ascii -> bool) (s : string) : string :=
  match s with
  | EmptyString => EmptyString
  | String c r => if p c then String c (filter p r) else filter p r
  end.

Fixpoint lstrip (s : string) : string :=
  match s with
  | String c r => if isspace c then lstrip r else s
  | EmptyString => EmptyString
  end.

(** Drops trailing white space. *)
Fixpoint rstrip (s : string) : string :=
  match s with
  | EmptyString => EmptyString
  | String c r =>
      match rstrip r with
      | EmptyString => if isspace c then EmptyString else String c EmptyString
      | r' => String c r'
      end
  end.

(** [s.strip()] *)
Definition strip (s : string) : string := rstrip (lstrip s).

Fixpoint replicate (n : nat) (c : ascii) : string :=
  match n with
  | O => EmptyString
  | S k => String c (replicate k c)
  end.

(** [s.rjust(width, fill)] *)
Definition rjust (width : nat) (fill : ascii) (s : string) : string :=
  replicate (width - String.length s) fill ++ s.

(** [s.zfill(width)]: zeros go after a leading sign. *)
Definition zfill (width : nat) (s : string) : string :=
  let pad := replicate (width - String.length s) "0"%char in
  match s with
  | String c r =>
      if (Ascii.eqb c "+" || Ascii.eqb c "-")%char
      then String c (pad ++ r)
      else pad ++ s
  | EmptyString => pad
  end.

(** [s[-n:]] for [n > 0]: the last [n] characters, all of [s] when it is
    shorter. *)
Definition last_chars (n : nat) (s : string) : string :=
  substring (String.length s - n) n s.

(** The digits of an integer literal after the sign: decimal digits,
    single underscores allowed between two digits.  Returns the digits
    without the underscores. *)
Fixpoint literal_digits (after_digit : bool) (s : string) : option string :=
  match s with
  | EmptyString => if after_digit then Some EmptyString else None
  | String c r =>
      if Ascii.eqb c "_"%char then
        if after_digit then literal_digits false r else None
      else if isdecimal c then
        option_map (String c) (literal_digits true r)
      else None
  end.

Definition parse_unsigned (s : string) : option Z :=
  match literal_digits false s with
  | Some ds => option_map Z.of_uint (NilEmpty.uint_of_string ds)
  | None => None
  end.

(** The white space [int] skips around a literal: the ASCII white space
    and the spaces above 127. Unlike [strip] it keeps the separators
    28 to 31, on which [int] raises. *)
Definition int_space (c : ascii) : bool :=
  let n := nat_of_ascii c in
  ((9 <=? n) && (n <=? 13) || (n =? 32) || (n =? 133) || (n =? 160))%nat.

Fixpoint int_lstrip (s : string) : string :=
  match s with
  | String c r => if int_space c then int_lstrip r else s
  | EmptyString => EmptyString
  end.

Fixpoint int_rstrip (s : string) : string :=
  match s with
  | EmptyString => EmptyString
  | String c r =>
      match int_rstrip r with
      | EmptyString => if int_space c then EmptyString else String c EmptyString
      | r' => String c r'
      end
  end.

Definition int_strip (s : string) : string := int_rstrip (int_lstrip s).

(** [int(s)] for a string [s]; [None] is ValueError. *)
Definition int (s : string) : option Z :=
  match int_strip s with
  | String "+" r => parse_unsigned r
  | String "-" r => option_map Z.opp (parse_unsigned r)
  | t => parse_unsigned t
  end.

(** [str(n)] for an integer [n]. *)
Definition str (n : Z) : string := NilZero.string_of_int (Z.to_int n).

Fixpoint sum (l : list Z) : Z :=
  match l with
  | [] => 0
  | x :: r => x + sum r
  end.

(** [l[0::2]] *)
Fixpoint every_other {A} (l : list A) : list A :=
  match l with
  | [] => []
  | x :: r => x :: match r with [] => [] | _ :: r' => every_other r' end
  end.

(** [sep.join(l)] *)
Fixpoint join (sep : string) (l : list string) : string :=
  match l with
  | [] => EmptyString
  | [x] => x
  | x :: r => x ++ sep ++ join sep r
  end.

End Py.

(** ** EAN-13 utilities *)

Fixpoint chars (s : string) : list string :=
  match s with
  | EmptyString => []
  | String c r => String c EmptyString :: chars r
  end.

Fixpoint map_opt {A B} (f : A -> option B) (l : list A) : option (list B) :=
  match l with
  | [] => Some []
  | x :: r =>
      match f x, map_opt f r with
      | Some y, Some ys => Some (y :: ys)
      | _, _ => None
      end
  end.

Definition ean13_checkdigit (base12 : string) : option string :=
  match map_opt Py.int (chars base12) with
  | None => None
  | Some digits =>
      let odd_sum := Py.sum (Py.every_other digits) in
      let even_sum := Py.sum (Py.every_other (tl digits)) * 3 in
      let total := odd_sum + even_sum in
      let check := (10 - (total mod 10)) mod 10 in
      Some (Py.str check)
  end.

Definition build_ean13 (country_prefix company_prefix brand_id spcode : string)
  : option string :=
  match Py.int spcode with
  | None => None
  | Some n =>
      let base :=
        Py.filter Py.isdigit_char
          (country_prefix ++ company_prefix ++ brand_id
           ++ Py.zfill 3 (Py.str n)) in
      let base12 :=
        if (String.length base <? 12)%nat
        then Py.rjust 12 "0" base
        else Py.last_chars 12 base in
      option_map (fun c => base12 ++ c) (ean13_checkdigit base12)
  end.

(** SKU builder (Brand + Size + Matt/Polished + SPCode) *)
Definition build_sku (brand_code size_code matt_polished spcode : string)
  : option string :=
  option_map
    (fun n => brand_code ++ size_code ++ matt_polished ++ Py.zfill 3 (Py.str n))
    (Py.int spcode).

(** Build full SPCode for display *)
Definition build_full_spcode (brand_code size_code matt_polished spcode : string)
  : option string :=
  option_map
    (fun n => brand_code ++ size_code ++ matt_polished ++ Py.zfill 3 (Py.str n))
    (Py.int spcode).

(** ** Data model: the two spreadsheets *)

(** A cell of a table read with [dtype=str]. *)
Inductive cell : Type :=
| Str (s : string)
| NaN.

(** One row of the fixed 19-column schema ([COLUMNS]). *)
Record row : Type := mkRow {
  Timestamp : cell; BrandCode : cell; BrandName : cell; BrandID : cell;
  SizeLabel : cell; SizeCode : cell;
  SurfaceLabel : cell; SurfaceCode : cell;
  MattPolished : cell; SPCode : cell; SKU : cell; CommercialName : cell;
  Faces : cell; Batch : cell;
  CountryPrefix : cell; CompanyPrefix : cell; EAN13 : cell;
  ImagePaths : cell; Notes : cell
}.

Definition table : Type := list row.

(** [products.xlsx] and [deleted_products.xlsx]; [None] when the file does
    not exist. A file holds the table that was last written to it, and a
    read gives that table back. The model does not follow pandas where it
    reads an empty text, or a text such as NA, back as NaN: a statement
    about the table after a write is about the table written. *)
Record storage : Type := mkStorage {
  data_file : option table;
  deleted_data_file : option table
}.

Definition set_SPCode (c : cell) (r : row) : row :=
  mkRow (Timestamp r) (BrandCode r) (BrandName r) (BrandID r)
        (SizeLabel r) (SizeCode r) (SurfaceLabel r) (SurfaceCode r)
        (MattPolished r) c (SKU r) (CommercialName r)
        (Faces r) (Batch r) (CountryPrefix r) (CompanyPrefix r) (EAN13 r)
        (ImagePaths r) (Notes r).

Definition set_ImagePaths (c : cell) (r : row) : row :=
  mkRow (Timestamp r) (BrandCode r) (BrandName r) (BrandID r)
        (SizeLabel r) (SizeCode r) (SurfaceLabel r) (SurfaceCode r)
        (MattPolished r) (SPCode r) (SKU r) (CommercialName r)
        (Faces r) (Batch r) (CountryPrefix r) (CompanyPrefix r) (EAN13 r)
        c (Notes r).

(** *** pandas cell operations *)

Module Pd.

(** [str(x)] / [.astype(str)] *)
Definition astype_str (c : cell) : string :=
  match c with Str s => s | NaN => "nan" end.

(** [.fillna(v)] *)
Definition fillna (v : string) (c : cell) : cell :=
  match c with Str s => Str s | NaN => Str v end.

(** [column == s], element-wise: a missing cell equals nothing. *)
Definition eq (c : cell) (s : string) : bool :=
  match c with Str t => String.eqb t s | NaN => false end.

(** [column != s] *)
Definition ne (c : cell) (s : string) : bool := negb (eq c s).

(** Truth value of a cell in an [if]: only the empty string is false. *)
Definition truthy (c : cell) : bool :=
  match c with Str EmptyString => false | _ => true end.

End Pd.

(** *** A state and exception monad over the storage *)

Definition M (A : Type) : Type := storage -> option A * storage.

Definition ret {A} (a : A) : M A := fun st => (Some a, st).

Definition bind {A B} (m : M A) (k : A -> M B) : M B :=
  fun st =>
    match m st with
    | (Some a, st') => k a st'
    | (None, st') => (None, st')
    end.

(** An uncaught exception. *)
Definition raise {A} : M A := fun st => (None, st).

Definition lift {A} (o : option A) : M A := fun st => (o, st).

Notation "x <- m ;; k" := (bind m (fun x => k))
  (at level 61, m at next level, right associativity).
Notation "m ;;; k" := (bind m (fun _ => k))
  (at level 61, right associativity).

Definition ensure_storage : M unit :=
  fun st =>
    (Some tt,
     mkStorage
       (match data_file st with None => Some [] | f => f end)
       (match deleted_data_file st with None => Some [] | f => f end)).

(** The rows a file holds; none when it does not exist. *)
Definition active (st : storage) : table :=
  match data_file st with Some t => t | None => [] end.

Definition deleted (st : storage) : table :=
  match deleted_data_file st with Some t => t | None => [] end.

Definition read_data_file : M table := fun st => (Some (active st), st).

Definition read_deleted_data_file : M table :=
  fun st => (Some (deleted st), st).

(** The [SPCode] column as [load_df] rewrites it. *)
Definition load_spcode (c : cell) : cell :=
  match Pd.fillna "" c with
  | Str x =>
      if Py.isdigit (Py.strip x) then Str (Py.zfill 3 x) else Str x
  | NaN => NaN
  end.

Definition load_row (r : row) : row := set_SPCode (load_spcode (SPCode r)) r.

Definition load_df : M table :=
  ensure_storage ;;;
  df <- read_data_file ;;
  ret (map load_row df).

Definition load_deleted_df : M table :=
  ensure_storage ;;;
  read_deleted_data_file.

(** The storage once both files are sure to exist. *)
Definition ensured (st : storage) : storage := snd (ensure_storage st).

(** The snapshot [load_df] returns. *)
Definition loaded (st : storage) : table := map load_row (active st).

Definition save_df (df : table) : M unit :=
  fun st => (Some tt, mkStorage (Some df) (deleted_data_file st)).

Definition save_deleted_df (df : table) : M unit :=
  fun st => (Some tt, mkStorage (data_file st) (Some df)).

(** ** Sequence allocator *)

(** [int(nums.max())] of a non-empty column. *)
Definition max_list (x : Z) (l : list Z) : Z := fold_left Z.max l x.

(** The lambda applied to each [SPCode] of the selection. *)
Definition spcode_num (x : cell) : option Z :=
  let s := Py.strip (Pd.astype_str x) in
  if Py.isdigit s then Py.int s else Some 0.

(** Rows selected by
    [df[(df["BrandCode"] == brand_code) & (df["SizeCode"] == size_code)]]. *)
Definition rows_of_pair (brand_code size_code : string) (df : table) : table :=
  List.filter
    (fun r => Pd.eq (BrandCode r) brand_code && Pd.eq (SizeCode r) size_code)
    df.

(** [next_spcode_for] after [df = load_df()]. *)
Definition next_spcode_in (df : table) (brand_code size_code : string) : string :=
  match df with
  | [] => "001"
  | _ =>
      let sel := rows_of_pair brand_code size_code df in
      match sel with
      | [] => "001"
      | _ =>
          match map_opt spcode_num (map SPCode sel) with
          | Some (n :: nums) =>
              let nxt := max_list n nums + 1 in
              let nxt := if nxt <? 1 then 1 else nxt in
              Py.zfill 3 (Py.str nxt)
          | _ => "001"
          end
      end
  end.

Definition next_spcode_for (brand_code size_code : string) : M string :=
  df <- load_df ;;
  ret (next_spcode_in df brand_code size_code).

(** ** Image list of a product *)

(** [s.split(sep)] for a one-character separator. *)
Fixpoint split (sep : ascii) (s : string) : list string :=
  match s with
  | EmptyString => [EmptyString]
  | String c r =>
      if Ascii.eqb c sep then EmptyString :: split sep r
      else match split sep r with
           | x :: xs => String c x :: xs
           | [] => [String c EmptyString]
           end
  end.

Definition mem (x : string) (l : list string) : bool :=
  existsb (String.eqb x) l.

(** [l.remove(x)]: drops the first occurrence. *)
Fixpoint remove_first (x : string) (l : list string) : list string :=
  match l with
  | [] => []
  | y :: r => if String.eqb y x then r else y :: remove_first x r
  end.

(** The image list of a row, as every reader of [ImagePaths] computes it. *)
Definition images_of (r : row) : list string :=
  if Pd.truthy (ImagePaths r)
  then split ";" (Pd.astype_str (ImagePaths r))
  else [].

(** Rows selected by [df[df["SKU"].astype(str) == sku]]. *)
Definition rows_with_sku (sku : string) (df : table) : table :=
  List.filter (fun r => String.eqb (Pd.astype_str (SKU r)) sku) df.

(** [df.loc[df["SKU"] == sku, "ImagePaths"] = v] *)
Definition assign_ImagePaths (sku v : string) (df : table) : table :=
  map (fun r => if Pd.eq (SKU r) sku then set_ImagePaths (Str v) r else r) df.

(** The image file itself is removed with [os.remove], outside the
    storage modelled here. *)
Definition delete_image_from_product (sku img_path : string) : M bool :=
  df <- load_df ;;
  match rows_with_sku sku df with
  | [] => ret false
  | r :: _ =>
      let images := images_of r in
      if mem img_path images then
        let images := remove_first img_path images in
        let df := assign_ImagePaths sku (Py.join ";" images) df in
        save_df df ;;;
        ret true
      else ret false
  end.

(** ** Deleting a product *)

Inductive delete_result : Type :=
| NotFound
| Deleted.

(** [ViewerTab.delete_product] once the selection [sku] is confirmed. *)
Definition delete_product (sku : string) : M delete_result :=
  df <- load_df ;;
  match rows_with_sku sku df with
  | [] => ret NotFound
  | r :: _ =>
      deleted_df <- load_deleted_df ;;
      let deleted_df := (deleted_df ++ [r])%list in
      save_deleted_df deleted_df ;;;
      let df := List.filter (fun r => Pd.ne (SKU r) sku) df in
      save_df df ;;;
      ret Deleted
  end.

(** ** Entry form *)

Definition BRAND_LIST : list (string * (string * string)) :=
  [("VE", ("Vesta", "0")); ("OM", ("One Max", "1"));
   ("GA", ("Granca", "2")); ("SA", ("STA", "3"))].

Definition SIZES : list (string * string) :=
  [("60x60", "6060"); ("80x80", "8080"); ("40x80", "4080");
   ("60x120", "6120"); ("100x100", "1010"); ("120x120", "1212");
   ("80x160", "8160"); ("100x200", "1020"); ("120x240", "1224")].

Definition SURFACE_OPTIONS : list (string * string) :=
  [("White Body", "W"); ("Microcid Glaze", "M");
   ("Scratch-Resistant Glaze", "S"); ("Crystal Glaze", "C");
   ("Deep Color", "D")].

Fixpoint lookup {A} (k : string) (l : list (string * A)) : option A :=
  match l with
  | [] => None
  | (k', v) :: r => if String.eqb k' k then Some v else lookup k r
  end.

(** The variables of the entry form. *)
Record form : Type := mkForm {
  brand_var : string;
  size_var : string;
  surface_vars : string -> bool;
  matt_polished_var : string;
  spcode_var : string;
  faces_var : string;
  batch_var : string;
  country_var : string;
  company_var : string;
  commercial_name_var : string;
  notes_var : string
}.

Record data : Type := mkData {
  brand_code : string; brand_name : string; brand_id : string;
  size_label : string; size_code : string;
  surface_label : string; surface_code : string;
  matt_polished : string; spcode : string;
  commercial_name : string; faces : Z; batch : string;
  country : string; company : string; notes : string
}.

Definition startswith (p s : string) : bool := String.prefix p s.

Definition batch_ok (b : string) : bool :=
  startswith "LOT" b
  && (String.length b =? 8)%nat
  && Py.isdigit (substring 3 2 b)
  && Py.isdigit (substring 5 3 b).

(** [validate_inputs]: the data, or the message shown to the user; [None]
    when a conversion raises. The batch message is kept to its ASCII part. *)
Definition validate_inputs (f : form) : option (data + string) :=
  let brand := brand_var f in
  match lookup brand BRAND_LIST with
  | None => Some (inr "Invalid Brand")
  | Some (bname, bid) =>
  match lookup (size_var f) SIZES with
  | None => Some (inr "Invalid Size")
  | Some scode =>
  let chosen := List.filter (fun o => surface_vars f (fst o)) SURFACE_OPTIONS in
  let surface_codes := Py.join "" (map snd chosen) in
  let surface_labels := Py.join ", " (map fst chosen) in
  let mp := matt_polished_var f in
  if negb (mem mp ["0"; "1"]) then Some (inr "Must select Matt or Polished") else
  let sp := Py.strip (spcode_var f) in
  if negb (Py.isdigit sp) then Some (inr "SPCode must be 001-999") else
  match Py.int sp with
  | None => None
  | Some spn =>
  if negb ((1 <=? spn) && (spn <=? 999)) then Some (inr "SPCode must be 001-999") else
  let fc := Py.strip (faces_var f) in
  if negb (Py.isdigit fc) then Some (inr "Faces must be positive integer") else
  match Py.int fc with
  | None => None
  | Some fcn =>
  if fcn <? 1 then Some (inr "Faces must be positive integer") else
  let country := Py.strip (country_var f) in
  let company := Py.strip (company_var f) in
  if negb (Py.isdigit country)
     || negb ((String.length country =? 2) || (String.length country =? 3))%nat
  then Some (inr "CountryPrefix should be 2-3 digits") else
  if negb (Py.isdigit company)
     || negb ((4 <=? String.length company) && (String.length company <=? 9))%nat
  then Some (inr "CompanyPrefix should be 4-9 digits") else
  let batch := Py.strip (batch_var f) in
  if negb (String.eqb batch "") && negb (batch_ok batch)
  then Some (inr "Batch must be empty or LOT[Year][No] (e.g., LOT2026001)") else
  let cname := Py.strip (commercial_name_var f) in
  if String.eqb cname "" then Some (inr "Commercial Name is required") else
  Some (inl (mkData brand bname bid (size_var f) scode
               surface_labels surface_codes mp (Py.zfill 3 (Py.str spn))
               cname fcn batch country company (Py.strip (notes_var f))))
  end end end end.

(** What [save_product] takes from outside the tables: the clock and the
    paths returned by the image, barcode and QR writers. *)
Record env : Type := mkEnv {
  now : string;
  saved_paths : list string
}.

Inductive save_result : Type :=
| Invalid (err : string)
| Duplicate (sku : string)
| Saved (sku ean13 : string).

Definition new_row (e : env) (d : data) (sku ean13 : string) : row :=
  mkRow (Str (now e)) (Str (brand_code d)) (Str (brand_name d))
        (Str (brand_id d)) (Str (size_label d)) (Str (size_code d))
        (Str (surface_label d)) (Str (surface_code d))
        (Str (matt_polished d)) (Str (spcode d)) (Str sku)
        (Str (commercial_name d)) (Str (Py.str (faces d))) (Str (batch d))
        (Str (country d)) (Str (company d)) (Str ean13)
        (Str (Py.join ";" (saved_paths e))) (Str (notes d)).

Definition save_product (e : env) (f : form) : M save_result :=
  v <- lift (validate_inputs f) ;;
  match v with
  | inr err => ret (Invalid err)
  | inl d =>
      df <- load_df ;;
      sku <- lift (build_sku (brand_code d) (size_code d)
                             (matt_polished d) (spcode d)) ;;
      ean13 <- lift (build_ean13 (country d) (company d)
                                 (brand_id d) (spcode d)) ;;
      if mem sku (map (fun r => Pd.astype_str (SKU r)) df)
      then ret (Duplicate sku)
      else
        let df := (df ++ [new_row e d sku ean13])%list in
        save_df df ;;;
        ret (Saved sku ean13)
  end.

(** ** The check digit as the EAN-13 standard words it *)

Module Standard.

Definition digit_value (c : ascii) : Z := Z.of_nat (nat_of_ascii c) - 48.

(** The digit at 0-based index [i]; position [i + 1] in the standard's
    counting. *)
Definition digit_at (s : string) (i : nat) : Z :=
  match String.get i s with
  | Some c => digit_value c
  | None => 0
  end.

Definition odd_position_sum (s : string) : Z :=
  Py.sum (map (digit_at s) [0; 2; 4; 6; 8; 10]%nat).

Definition even_position_sum (s : string) : Z :=
  Py.sum (map (digit_at s) [1; 3; 5; 7; 9; 11]%nat).

Definition check_digit (s : string) : Z :=
  (10 - (odd_position_sum s + 3 * even_position_sum s) mod 10) mod 10.

(** The character that writes the digit [d]. *)
Definition digit_char (d : Z) : ascii := ascii_of_nat (48 + Z.to_nat d).

End Standard.

(** ** The wording of the specification, where it departs from the code *)

Module Claimed.

(** The 12-digit base when a longer digit string is cut on its right. *)
Definition base12_right_truncated (base : string) : string :=
  if (String.length base <? 12)%nat
  then Py.rjust 12 "0" base
  else substring 0 12 base.

Definition build_ean13 (country_prefix company_prefix brand_id spcode : string)
  : option string :=
  match Py.int spcode with
  | None => None
  | Some n =>
      let base :=
        Py.filter Py.isdigit_char
          (country_prefix ++ company_prefix ++ brand_id
           ++ Py.zfill 3 (Py.str n)) in
      let base12 := base12_right_truncated base in
      option_map (fun c => base12 ++ c) (ean13_checkdigit base12)
  end.

(** A sequence field read as an integer, zero when it is not a number. *)
Definition spcode_value (x : cell) : Z :=
  let s := Py.strip (Pd.astype_str x) in
  if Py.isdigit s
  then match Py.int s with Some n => n | None => 0 end
  else 0.

(** Maximum of the matching sequence numbers plus one, at least one,
    zero-padded to three digits; "001" when nothing matches. *)
Definition next_spcode (df : table) (brand_code size_code : string) : string :=
  match map spcode_value (map SPCode (rows_of_pair brand_code size_code df)) with
  | [] => "001"
  | n :: nums => Py.zfill 3 (Py.str (Z.max 1 (max_list n nums + 1)))
  end.

(** C4 as worded: once the product [sku] is deleted, the allocator for
    its pair does not hand out its sequence number again. *)
Definition slot_not_reused (st : storage) (sku : string) : Prop :=
  forall r rest st',
    rows_with_sku sku (loaded st) = r :: rest ->
    delete_product sku st = (Some Deleted, st') ->
    fst (next_spcode_for (Pd.astype_str (BrandCode r))
                         (Pd.astype_str (SizeCode r)) st')
    <> Some (Pd.astype_str (SPCode r)).

(** C7 as worded: deleting the product [sku] takes its row, and only its
    row, out of the active table and appends that row to the deleted
    table. *)
Definition delete_moves_one_row (st : storage) (sku : string) : Prop :=
  forall r,
    In r (loaded st) -> Pd.astype_str (SKU r) = sku ->
    exists st' before after,
      delete_product sku st = (Some Deleted, st')
      /\ loaded st = (before ++ r :: after)%list
      /\ active st' = (before ++ after)%list
      /\ deleted st' = (deleted st ++ [r])%list.

End Claimed.

(** Every character of [s] that [isdigit] accepts is a decimal digit. *)
Definition plain_digits (s : string) : bool :=
  Py.all_chars (fun c => Bool.eqb (Py.isdigit_char c) (Py.isdecimal c)) s.

(** The SKU cell of a row is the SKU its own brand, size, finish and
    sequence cells build. *)
Definition row_sku_consistent (r : row) : Prop :=
  build_sku (Pd.astype_str (BrandCode r)) (Pd.astype_str (SizeCode r))
            (Pd.astype_str (MattPolished r)) (Pd.astype_str (SPCode r))
  = Some (Pd.astype_str (SKU r)).

(** A form that passes validation. *)
Definition sample_form : form :=
  mkForm "VE" "60x60" (fun l => String.eqb l "White Body") "0" "1" "1" ""
         "893" "12345" "Lux White Marble" "".

(** The data [validate_inputs] returns on [sample_form]. *)
Definition sample_data : data :=
  mkData "VE" "Vesta" "0" "60x60" "6060" "White Body" "W" "0" "001"
         "Lux White Marble" 1 "" "893" "12345" "".

Definition sample_env : env := mkEnv "2026-01-06 10:00:00" [].

(** ** Sample rows and tables *)

(** A row as the entry form writes it, without images. *)
Definition sample_row (brand size finish seq notes : string) : row :=
  mkRow (Str "2026-01-05 09:30:00") (Str brand) (Str "Vesta") (Str "0")
        (Str "60x60") (Str size) (Str "White Body") (Str "W")
        (Str finish) (Str seq) (Str (brand ++ size ++ finish ++ seq))
        (Str "Lux White Marble") (Str "1") NaN
        (Str "893") (Str "12345") (Str "8931234500016") NaN (Str notes).

(** A row whose SKU cell is empty in the spreadsheet. *)
Definition orphan_row : row :=
  mkRow (Str "2026-01-05 09:30:00") (Str "VE") (Str "Vesta") (Str "0")
        (Str "60x60") (Str "6060") (Str "White Body") (Str "W")
        (Str "0") (Str "001") NaN
        (Str "Lux White Marble") (Str "1") NaN
        (Str "893") (Str "12345") (Str "8931234500016")
        (Str "images/x/001_face01_01.png") NaN.

Definition storage_of (t : table) : storage := mkStorage (Some t) (Some []).

(** ** Image ingestion *)

(** [float(n)] for an integer: the nearest binary64 number. *)
Definition py_float (n : Z) : float :=
  SF2Prim (binary_normalize prec emax n 0 false).

(** [n / d] rounded to the nearest integer, halves to the even one. *)
Definition round_half_even (n d : Z) : Z :=
  let q := n / d in
  let r := n mod d in
  if 2 * r <? d then q
  else if d <? 2 * r then q + 1
  else if Z.even q then q else q + 1.

(** [round(x)] for a float, an integer; [None] raises (infinity, NaN). *)
Definition py_round (x : float) : option Z :=
  match Prim2SF x with
  | S754_zero _ => Some 0
  | S754_finite sign m e =>
      let v := if 0 <=? e then Z.pos m * 2 ^ e
               else round_half_even (Z.pos m) (2 ^ (- e)) in
      Some (if sign then - v else v)
  | S754_infinity _ | S754_nan => None
  end.

Definition MAX_DIM : Z := 2000.

(** [int(round(side * scale))] with
    [scale = MAX_DIM / float(max(w, h))]. *)
Definition side_target (side longest : Z) : option Z :=
  let scale := PrimFloat.div (py_float MAX_DIM) (py_float longest) in
  py_round (PrimFloat.mul (py_float side) scale).

(** [(nw, nh)] *)
Definition target_size (w h : Z) : option (Z * Z) :=
  match side_target w (Z.max w h), side_target h (Z.max w h) with
  | Some nw, Some nh => Some (nw, nh)
  | _, _ => None
  end.

(** The files of the image folders: path to content. *)
Definition files : Type := string -> option (list Byte.byte).

Definition write_file (path : string) (content : list Byte.byte) (fs : files)
  : files :=
  fun q => if String.eqb q path then Some content else fs q.

(** [shutil.copy2(src, dst)]; [None] raises: no such file, or the same
    file twice. *)
Definition copy2 (src dst : string) (fs : files) : option files :=
  if String.eqb src dst then None
  else match fs src with
       | Some content => Some (write_file dst content fs)
       | None => None
       end.

(** [p] holds for the [n] integers from [lo] on. *)
Fixpoint all_from (n : nat) (lo : Z) (p : Z -> bool) : bool :=
  match n with
  | O => true
  | S k => p lo && all_from k (lo + 1) p
  end.

Section Images.

(** What the imaging library does with the bytes of a file: the size of
    the picture, [None] when it cannot be opened; the bytes of the PNG it
    writes for the picture resized to a given size, [None] when resampling
    or encoding raises. *)
Variable image_size : list Byte.byte -> option (Z * Z).
Variable resized_png : list Byte.byte -> Z -> Z -> option (list Byte.byte).

(** [os.path.splitext(src)[1].lower()] *)
Variable ext_of : string -> string.

(** The body of the [try]: the path written and the files after it;
    [None] when an exception leaves it. [resize] raises on a width or
    height below one. *)
Definition resize_or_copy (src dst_base : string) (fs : files)
  : option (string * files) :=
  match fs src with
  | None => None
  | Some content =>
      match image_size content with
      | None => None
      | Some (w, h) =>
          if MAX_DIM <? Z.max w h then
            match target_size w h with
            | None => None
            | Some (nw, nh) =>
                if (1 <=? nw) && (1 <=? nh) then
                  match resized_png content nw nh with
                  | Some png =>
                      let dst := dst_base ++ ".png" in
                      Some (dst, write_file dst png fs)
                  | None => None
                  end
                else None
            end
          else
            let dst := dst_base ++ ext_of src in
            match copy2 src dst fs with
            | Some fs' => Some (dst, fs')
            | None => None
            end
      end
  end.

(** [resize_and_save]: the path returned, [None] for Python's [None],
    and the files after the call. *)
Definition resize_and_save (src dst_base : string) (fs : files)
  : option string * files :=
  match resize_or_copy src dst_base fs with
  | Some (dst, fs') => (Some dst, fs')
  | None =>
      let dst := dst_base ++ ext_of src in
      match copy2 src dst fs with
      | Some fs' => (Some dst, fs')
      | None => (None, fs)
      end
  end.

End Images.

(** ** Notes of a product *)

Definition set_Notes (c : cell) (r : row) : row :=
  mkRow (Timestamp r) (BrandCode r) (BrandName r) (BrandID r)
        (SizeLabel r) (SizeCode r) (SurfaceLabel r) (SurfaceCode r)
        (MattPolished r) (SPCode r) (SKU r) (CommercialName r)
        (Faces r) (Batch r) (CountryPrefix r) (CompanyPrefix r) (EAN13 r)
        (ImagePaths r) c.

(** [df.loc[df["SKU"] == sku, "Notes"] = v] *)
Definition assign_Notes (sku v : string) (df : table) : table :=
  map (fun r => if Pd.eq (SKU r) sku then set_Notes (Str v) r else r) df.

(** [AddNotesDialog.on_ok]: the result the dialog is left with; [None]
    when the note is blank and the dialog shows its error instead. *)
Definition notes_on_ok (current_notes : cell) (typed : string) : option string :=
  let new_note := Py.strip typed in
  if String.eqb new_note "" then None
  else if Pd.truthy current_notes
       then Some (Pd.astype_str current_notes ++ "; " ++ new_note)
       else Some new_note.

Inductive add_notes_result : Type :=
| NotesNotFound
| NotesUnchanged
| NotesAdded.

(** [ViewerTab.add_notes] on the selection [sku]; [typed] is the text the
    user confirms in the dialog, [None] when the dialog is cancelled. *)
Definition add_notes (sku : string) (typed : option string)
  : M add_notes_result :=
  df <- load_df ;;
  match rows_with_sku sku df with
  | [] => ret NotesNotFound
  | r :: _ =>
      let result :=
        match typed with
        | Some t => notes_on_ok (Notes r) t
        | None => None
        end in
      match result with
      | None => ret NotesUnchanged
      | Some v =>
          save_df (assign_Notes sku v df) ;;;
          ret NotesAdded
      end
  end.

(** ** Barcode drawing *)

(** The test [generate_barcode_qr] makes before it hands the number to
    the barcode writer. *)
Definition barcode_accepts (ean13_str : string) : bool :=
  (String.length ean13_str =? 13)%nat && Py.isdigit ean13_str.

(** ** Well-formed codes and tables *)

(** A valid EAN-13 number: thirteen decimal digits whose sum, with
    weight three on the even positions, is a multiple of ten. *)
Definition valid_ean13 (code : string) : Prop :=
  String.length code = 13%nat
  /\ Py.all_chars Py.isdecimal code = true
  /\ (Py.sum (map (Standard.digit_at code) [0; 2; 4; 6; 8; 10; 12]%nat)
      + 3 * Py.sum (map (Standard.digit_at code) [1; 3; 5; 7; 9; 11]%nat))
     mod 10 = 0.

(** The SKU column, as text, holds no value twice. *)
Definition sku_unique (t : table) : Prop :=
  NoDup (map (fun r => Pd.astype_str (SKU r)) t).

(** A row with the fixed-width codes of the entry form: two characters
    of brand, four of size, one of finish, a zero-padded sequence number
    and the SKU they build. *)
Definition row_well_formed (r : row) : Prop :=
  exists (b s m : string) (n : Z),
    BrandCode r = Str b /\ SizeCode r = Str s /\ MattPolished r = Str m
    /\ String.length b = 2%nat /\ String.length s = 4%nat
    /\ String.length m = 1%nat
    /\ 0 <= n
    /\ SPCode r = Str (Py.zfill 3 (Py.str n))
    /\ SKU r = Str (b ++ s ++ m ++ Py.zfill 3 (Py.str n)).

(** Two rows that differ at most in the given column. *)
Definition same_but_ImagePaths (r r' : row) : Prop :=
  set_ImagePaths (ImagePaths r) r' = r.

Definition same_but_Notes (r r' : row) : Prop :=
  set_Notes (Notes r) r' = r.

(** No semicolon in a path. *)
Definition no_semicolon (x : string) : bool :=
  Py.all_chars (fun c => negb (Ascii.eqb c ";")) x.

(** ** The weighted total of the check digit *)

(** [total] in [ean13_checkdigit], and the same sum with the two weights
    exchanged (what the tail of a digit list contributes). *)
Definition weighted_total (digits : list Z) : Z :=
  Py.sum (Py.every_other digits) + Py.sum (Py.every_other (tl digits)) * 3.

Definition weighted_total_shifted (digits : list Z) : Z :=
  Py.sum (Py.every_other digits) * 3 + Py.sum (Py.every_other (tl digits)).

(** * Properties *)

(** ** Python built-ins *)

Lemma int_decimal_char (c : ascii) :
  Py.isdecimal c = true ->
  Py.int (String c EmptyString) = Some (Standard.digit_value c).
Proof.
  destruct c as [[|] [|] [|] [|] [|] [|] [|] [|]];
    intro H; try discriminate H; reflexivity.
Qed.

Lemma str_one_digit (d : Z) :
  0 <= d <= 9 -> Py.str d = String (Standard.digit_char d) EmptyString.
Proof.
  intros H.
  assert (d = 0 \/ d = 1 \/ d = 2 \/ d = 3 \/ d = 4 \/ d = 5 \/ d = 6
          \/ d = 7 \/ d = 8 \/ d = 9) as Hd by lia.
  repeat (destruct Hd as [-> | Hd]; [reflexivity |]).
  subst d; reflexivity.
Qed.

Lemma digit_value_range (c : ascii) :
  Py.isdecimal c = true -> 0 <= Standard.digit_value c <= 9.
Proof.
  unfold Py.isdecimal, Standard.digit_value.
  generalize (nat_of_ascii c); intros n H.
  apply andb_true_iff in H. destruct H as [H1 H2].
  apply Nat.leb_le in H1. apply Nat.leb_le in H2. lia.
Qed.

(** ** Strings *)

Lemma str_length_app (a b : string) :
  String.length (a ++ b) = (String.length a + String.length b)%nat.
Proof. induction a as [| c a IH]; simpl; [reflexivity | now rewrite IH]. Qed.

Lemma length_replicate (n : nat) (c : ascii) :
  String.length (Py.replicate n c) = n.
Proof. induction n as [| n IH]; simpl; [reflexivity | now rewrite IH]. Qed.

Lemma app_empty_r (s : string) : s ++ "" = s.
Proof. induction s as [| c s IH]; simpl; [reflexivity | now rewrite IH]. Qed.

Lemma app_assoc_s (a b c : string) : (a ++ b) ++ c = a ++ (b ++ c).
Proof. induction a as [| x a IH]; simpl; [reflexivity | now rewrite IH]. Qed.

Lemma all_chars_app (p : ascii -> bool) (a b : string) :
  Py.all_chars p (a ++ b) = Py.all_chars p a && Py.all_chars p b.
Proof.
  induction a as [| c a IH]; simpl; [reflexivity |].
  now rewrite IH, andb_assoc.
Qed.

Lemma all_chars_replicate (p : ascii -> bool) (n : nat) (c : ascii) :
  p c = true -> Py.all_chars p (Py.replicate n c) = true.
Proof. intros H; induction n as [| n IH]; simpl; [reflexivity | now rewrite H]. Qed.

Lemma all_chars_filter (p : ascii -> bool) (s : string) :
  Py.all_chars p (Py.filter p s) = true.
Proof.
  induction s as [| c s IH]; simpl; [reflexivity |].
  destruct (p c) eqn:E; simpl; [now rewrite E |]; exact IH.
Qed.

Lemma all_chars_impl (p q : ascii -> bool) (s : string) :
  (forall c, p c = true -> q c = true) ->
  Py.all_chars p s = true -> Py.all_chars q s = true.
Proof.
  intros Hpq; induction s as [| c s IH]; simpl; [reflexivity |].
  intros H; apply andb_true_iff in H; destruct H as [Hc Hs].
  now rewrite (Hpq c Hc), IH.
Qed.

Lemma str_filter_app (p : ascii -> bool) (a b : string) :
  Py.filter p (a ++ b) = Py.filter p a ++ Py.filter p b.
Proof.
  induction a as [| c a IH]; simpl; [reflexivity |].
  destruct (p c); simpl; now rewrite IH.
Qed.

(** Two predicates that agree on the characters of [s] filter it alike. *)
Lemma filter_ext_on (p q : ascii -> bool) (s : string) :
  Py.all_chars (fun c => Bool.eqb (p c) (q c)) s = true ->
  Py.filter p s = Py.filter q s.
Proof.
  induction s as [| c s IH]; simpl; [reflexivity |].
  intros H; apply andb_true_iff in H; destruct H as [Hc Hs].
  apply eqb_prop in Hc. rewrite Hc, (IH Hs). reflexivity.
Qed.

Lemma substring_all (s : string) : substring 0 (String.length s) s = s.
Proof. induction s as [| c s IH]; simpl; [reflexivity | now rewrite IH]. Qed.

Lemma substring_drop (k : nat) : forall s : string,
  (k <= String.length s)%nat ->
  exists pre, s = pre ++ substring k (String.length s - k) s
              /\ String.length pre = k.
Proof.
  induction k as [| k IH]; intros s Hk.
  - exists "". rewrite Nat.sub_0_r, substring_all. now split.
  - destruct s as [| c s]; simpl in Hk; [lia |].
    destruct (IH s ltac:(lia)) as [pre [E L]].
    exists (String c pre). simpl. rewrite <- E. split; [reflexivity | now rewrite L].
Qed.

(** [s[-n:]] of a string of at least [n] characters: its last [n]
    characters, the ones before them dropped. *)
Lemma last_chars_spec (n : nat) (s : string) :
  (n <= String.length s)%nat ->
  exists dropped, s = dropped ++ Py.last_chars n s
                  /\ String.length (Py.last_chars n s) = n.
Proof.
  intros Hn. unfold Py.last_chars.
  destruct (substring_drop (String.length s - n) s ltac:(lia)) as [pre [E L]].
  replace (String.length s - (String.length s - n))%nat with n in E by lia.
  exists pre. split; [exact E |].
  apply (f_equal String.length) in E. rewrite str_length_app, L in E. lia.
Qed.

Lemma decimal_not_space (c : ascii) :
  Py.isdecimal c = true -> Py.isspace c = false.
Proof.
  destruct c as [[|] [|] [|] [|] [|] [|] [|] [|]];
    intro H; try discriminate H; reflexivity.
Qed.

Lemma decimal_not_sign (c : ascii) :
  Py.isdecimal c = true ->
  (Ascii.eqb c "+" || Ascii.eqb c "-" || Ascii.eqb c "_")%char = false.
Proof.
  destruct c as [[|] [|] [|] [|] [|] [|] [|] [|]];
    intro H; try discriminate H; reflexivity.
Qed.

Lemma decimal_is_digit (c : ascii) :
  Py.isdecimal c = true -> Py.isdigit_char c = true.
Proof. unfold Py.isdigit_char. now intros ->. Qed.

Lemma rstrip_id (s : string) :
  Py.all_chars (fun c => negb (Py.isspace c)) s = true -> Py.rstrip s = s.
Proof.
  induction s as [| c s IH]; simpl; [reflexivity |].
  intros H; apply andb_true_iff in H; destruct H as [Hc Hs].
  rewrite (IH Hs). apply negb_true_iff in Hc. rewrite Hc.
  now destruct s.
Qed.

Lemma strip_id (s : string) :
  Py.all_chars (fun c => negb (Py.isspace c)) s = true -> Py.strip s = s.
Proof.
  intros H. unfold Py.strip.
  assert (Py.lstrip s = s) as ->.
  { destruct s as [| c s]; [reflexivity |]. simpl in *.
    apply andb_true_iff in H. destruct H as [Hc _].
    apply negb_true_iff in Hc. now rewrite Hc. }
  now apply rstrip_id.
Qed.

Lemma strip_decimal (s : string) :
  Py.all_chars Py.isdecimal s = true -> Py.strip s = s.
Proof.
  intros H. apply strip_id. revert H. apply all_chars_impl.
  intros c Hc. now rewrite (decimal_not_space c Hc).
Qed.

Lemma decimal_not_int_space (c : ascii) :
  Py.isdecimal c = true -> Py.int_space c = false.
Proof.
  destruct c as [[|] [|] [|] [|] [|] [|] [|] [|]];
    intro H; try discriminate H; reflexivity.
Qed.

Lemma int_rstrip_id (s : string) :
  Py.all_chars (fun c => negb (Py.int_space c)) s = true -> Py.int_rstrip s = s.
Proof.
  induction s as [| c s IH]; simpl; [reflexivity |].
  intros H; apply andb_true_iff in H; destruct H as [Hc Hs].
  rewrite (IH Hs). apply negb_true_iff in Hc. rewrite Hc.
  now destruct s.
Qed.

Lemma int_strip_id (s : string) :
  Py.all_chars (fun c => negb (Py.int_space c)) s = true -> Py.int_strip s = s.
Proof.
  intros H. unfold Py.int_strip.
  assert (Py.int_lstrip s = s) as ->.
  { destruct s as [| c s]; [reflexivity |]. simpl in *.
    apply andb_true_iff in H. destruct H as [Hc _].
    apply negb_true_iff in Hc. now rewrite Hc. }
  now apply int_rstrip_id.
Qed.

Lemma int_strip_decimal (s : string) :
  Py.all_chars Py.isdecimal s = true -> Py.int_strip s = s.
Proof.
  intros H. apply int_strip_id. revert H. apply all_chars_impl.
  intros c Hc. now rewrite (decimal_not_int_space c Hc).
Qed.

(** [int] skips less than [strip] removes: the separators U+001C to
    U+001F are whitespace for [strip], and [int] raises on them. *)
Example int_separator_raises :
  let s := String (ascii_of_nat 28) "5" in
  Py.strip s = "5" /\ Py.int s = None /\ Py.int " 5 " = Some 5.
Proof. repeat split. Qed.

Lemma isdigit_decimal (s : string) :
  s <> "" -> Py.all_chars Py.isdecimal s = true -> Py.isdigit s = true.
Proof.
  intros Hne H. destruct s as [| c s]; [contradiction |].
  unfold Py.isdigit. revert H. apply all_chars_impl, decimal_is_digit.
Qed.

(** ** [zfill] *)

Lemma zfill_long (w : nat) (s : string) :
  (w <= String.length s)%nat -> Py.zfill w s = s.
Proof.
  intros H. unfold Py.zfill.
  replace (w - String.length s)%nat with 0%nat by lia. simpl.
  destruct s as [| c r]; [reflexivity |].
  now destruct (Ascii.eqb c "+" || Ascii.eqb c "-")%bool.
Qed.

Lemma zfill_length (w : nat) (s : string) :
  (w <= String.length (Py.zfill w s))%nat.
Proof.
  unfold Py.zfill. destruct s as [| c r].
  - rewrite length_replicate. simpl. lia.
  - destruct (Ascii.eqb c "+" || Ascii.eqb c "-")%bool; simpl;
      rewrite str_length_app, length_replicate; simpl; lia.
Qed.

Lemma zfill_idem (w : nat) (s : string) :
  Py.zfill w (Py.zfill w s) = Py.zfill w s.
Proof. apply zfill_long, zfill_length. Qed.

Lemma zfill_unsigned (w : nat) (s : string) :
  s <> "" -> Py.all_chars Py.isdecimal s = true ->
  Py.zfill w s = Py.replicate (w - String.length s) "0" ++ s.
Proof.
  intros Hne H. destruct s as [| c r]; [contradiction |].
  unfold Py.zfill. simpl in H. apply andb_true_iff in H. destruct H as [Hc _].
  pose proof (decimal_not_sign c Hc) as Hs.
  apply orb_false_iff in Hs. destruct Hs as [Hs _]. now rewrite Hs.
Qed.

(** ** [int] reads back what [str] and [zfill] write *)

Lemma string_of_uint_decimal (u : uint) :
  Py.all_chars Py.isdecimal (NilEmpty.string_of_uint u) = true.
Proof. induction u; simpl; auto. Qed.

Lemma string_of_uint_nonempty (u : uint) :
  u <> Nil -> NilEmpty.string_of_uint u <> "".
Proof. destruct u; simpl; congruence. Qed.

Lemma literal_digits_decimal (s : string) :
  Py.all_chars Py.isdecimal s = true ->
  forall b, s <> "" \/ b = true -> Py.literal_digits b s = Some s.
Proof.
  induction s as [| c s IH]; intros H b Hb.
  - destruct Hb as [Hb | ->]; [contradiction | reflexivity].
  - simpl in H. apply andb_true_iff in H. destruct H as [Hc Hs].
    pose proof (decimal_not_sign c Hc) as Hn.
    apply orb_false_iff in Hn. destruct Hn as [_ Hn].
    simpl. rewrite Hn, Hc, (IH Hs true (or_intror eq_refl)). reflexivity.
Qed.

Lemma uint_of_string_zeros (k : nat) (s : string) :
  NilEmpty.uint_of_string (Py.replicate k "0" ++ s)
  = option_map (Nat.iter k D0) (NilEmpty.uint_of_string s).
Proof.
  induction k as [| k IH]; simpl.
  - now destruct (NilEmpty.uint_of_string s).
  - rewrite IH. now destruct (NilEmpty.uint_of_string s).
Qed.

Lemma of_uint_zeros (k : nat) (u : uint) :
  Z.of_uint (Nat.iter k D0 u) = Z.of_uint u.
Proof. induction k as [| k IH]; simpl; [reflexivity | exact IH]. Qed.

Lemma parse_unsigned_padded (k : nat) (u : uint) :
  u <> Nil ->
  Py.parse_unsigned (Py.replicate k "0" ++ NilEmpty.string_of_uint u)
  = Some (Z.of_uint u).
Proof.
  intros Hu. unfold Py.parse_unsigned.
  rewrite literal_digits_decimal.
  - rewrite uint_of_string_zeros, NilEmpty.usu. simpl.
    now rewrite of_uint_zeros.
  - rewrite all_chars_app, string_of_uint_decimal, all_chars_replicate;
      reflexivity.
  - left. intros E. apply (f_equal String.length) in E.
    rewrite str_length_app in E. simpl in E.
    pose proof (string_of_uint_nonempty u Hu) as Hne.
    destruct (NilEmpty.string_of_uint u); [contradiction | simpl in E; lia].
Qed.

(** [str n] is an optional minus sign followed by the decimal digits of
    the absolute value. *)
Lemma str_shape (n : Z) :
  exists u, u <> Nil /\ Z.of_uint u = Z.abs n
            /\ Py.str n = (if n <? 0 then "-" else "")
                          ++ NilEmpty.string_of_uint u.
Proof.
  pose proof (DecimalZ.of_to n) as Hn. unfold Py.str.
  destruct n as [| p | p]; simpl in *.
  - exists (D0 Nil). repeat split; congruence.
  - exists (Pos.to_uint p). pose proof (Unsigned.to_uint_nonnil p) as Hp.
    repeat split; [exact Hp | exact Hn |].
    destruct (Pos.to_uint p); [contradiction | reflexivity ..].
  - exists (Pos.to_uint p). pose proof (Unsigned.to_uint_nonnil p) as Hp.
    repeat split; [exact Hp | lia |].
    destruct (Pos.to_uint p); [contradiction | reflexivity ..].
Qed.

Lemma int_unsigned (s : string) :
  s <> "" -> Py.all_chars Py.isdecimal s = true ->
  Py.int s = Py.parse_unsigned s.
Proof.
  intros Hne H. unfold Py.int. rewrite (int_strip_decimal s H).
  destruct s as [| c r]; [contradiction |].
  simpl in H. apply andb_true_iff in H. destruct H as [Hc _].
  destruct c as [[|] [|] [|] [|] [|] [|] [|] [|]];
    try discriminate Hc; reflexivity.
Qed.

(** On a non-negative number [zfill] and [str] write decimal digits only. *)
Lemma zfill_str_nonneg (w : nat) (n : Z) :
  0 <= n ->
  Py.zfill w (Py.str n) <> ""
  /\ Py.all_chars Py.isdecimal (Py.zfill w (Py.str n)) = true
  /\ Py.int (Py.zfill w (Py.str n)) = Some n.
Proof.
  intros Hn. destruct (str_shape n) as [u [Hu [Hv Hs]]].
  assert ((n <? 0) = false) as Hneg by (apply Z.ltb_ge; lia).
  rewrite Hneg in Hs. simpl in Hs.
  pose proof (string_of_uint_nonempty u Hu) as Hne.
  pose proof (string_of_uint_decimal u) as Hdec.
  rewrite Hs, (zfill_unsigned w _ Hne Hdec).
  assert (Py.replicate (w - String.length (NilEmpty.string_of_uint u)) "0"
          ++ NilEmpty.string_of_uint u <> "") as Hne'.
  { intros E. apply (f_equal String.length) in E. rewrite str_length_app in E.
    destruct (NilEmpty.string_of_uint u); [contradiction | simpl in E; lia]. }
  assert (Py.all_chars Py.isdecimal
            (Py.replicate (w - String.length (NilEmpty.string_of_uint u)) "0"
             ++ NilEmpty.string_of_uint u) = true) as Hdec'.
  { rewrite all_chars_app, Hdec, all_chars_replicate; reflexivity. }
  repeat split; [exact Hne' | exact Hdec' |].
  rewrite (int_unsigned _ Hne' Hdec'), (parse_unsigned_padded _ u Hu).
  f_equal. lia.
Qed.

(** [int(str(n).zfill(w))] is [n], for every integer and width. *)
Lemma int_zfill_str (w : nat) (n : Z) : Py.int (Py.zfill w (Py.str n)) = Some n.
Proof.
  destruct (Z_lt_le_dec n 0) as [Hneg | Hpos];
    [| now apply zfill_str_nonneg].
  destruct (str_shape n) as [u [Hu [Hv Hs]]].
  apply Z.ltb_lt in Hneg as Hb. rewrite Hb in Hs. simpl in Hs.
  rewrite Hs. unfold Py.zfill. simpl.
  set (body := Py.replicate _ "0" ++ NilEmpty.string_of_uint u).
  assert (Py.all_chars Py.isdecimal body = true) as Hdec.
  { subst body.
    rewrite all_chars_app, string_of_uint_decimal, all_chars_replicate;
      reflexivity. }
  unfold Py.int.
  rewrite int_strip_id.
  - subst body. rewrite (parse_unsigned_padded _ u Hu). simpl. f_equal. lia.
  - simpl. revert Hdec. apply all_chars_impl.
    intros c Hc. now rewrite (decimal_not_int_space c Hc).
Qed.

(** [int], [str], [zfill] and [strip] on a few literals. *)
Example int_literals :
  map Py.int ["7"; " 12 "; "-5"; "+5"; "007"; "1_0"; "1__0"; "_1"; "1_";
              ""; "- 5"; "12a"]
  = [Some 7; Some 12; Some (-5); Some 5; Some 7; Some 10; None; None; None;
     None; None; None].
Proof. reflexivity. Qed.

Example zfill_literals :
  map (Py.zfill 3) ["5"; "-5"; "+5"; ""; "1000"; " 5"]
  = ["005"; "-05"; "+05"; "000"; "1000"; "0 5"].
Proof. reflexivity. Qed.

Example str_literals : map Py.str [0; 7; 1000; -42] = ["0"; "7"; "1000"; "-42"].
Proof. reflexivity. Qed.

(** ** The check digit of twelve decimal digits *)

Lemma checkdigit_of_twelve_digits (base12 : string) :
  String.length base12 = 12%nat ->
  Py.all_chars Py.isdecimal base12 = true ->
  0 <= Standard.check_digit base12 <= 9 /\
  ean13_checkdigit base12
  = Some (String (Standard.digit_char (Standard.check_digit base12)) EmptyString).
Proof.
  intros Hlen Hdig.
  assert (0 <= Standard.check_digit base12 <= 9) as Hd.
  { unfold Standard.check_digit.
    pose proof (Z.mod_pos_bound
      (10 - (Standard.odd_position_sum base12
             + 3 * Standard.even_position_sum base12) mod 10) 10).
    lia. }
  split; [exact Hd |].
  rewrite <- (str_one_digit _ Hd).
  do 12 (destruct base12 as [| ? base12]; [discriminate Hlen |]).
  destruct base12; [| discriminate Hlen].
  cbn [Py.all_chars] in Hdig.
  repeat match type of Hdig with
         | (_ && _)%bool = true =>
             apply andb_true_iff in Hdig;
             let H := fresh "Hc" in destruct Hdig as [H Hdig]
         end.
  unfold ean13_checkdigit.
  cbn [chars map_opt].
  rewrite !int_decimal_char by assumption.
  unfold Standard.check_digit, Standard.odd_position_sum,
    Standard.even_position_sum, Standard.digit_at.
  cbn [map String.get Py.sum Py.every_other tl].
  do 2 f_equal.
  match goal with
  | |- (10 - ?a mod 10) mod 10 = (10 - ?b mod 10) mod 10 =>
      replace a with b by lia
  end.
  reflexivity.
Qed.

(** ** C1: the check digit *)

(** C1. On every string of twelve decimal digits [ean13_checkdigit]
    returns a one-character string holding a digit between 0 and 9, and
    that digit is the one the EAN-13 standard prescribes: ten minus
    (sum of the odd-position digits plus three times the sum of the
    even-position digits) modulo ten, modulo ten. *)
Theorem ean13_checkdigit_standard (base12 : string) :
  String.length base12 = 12%nat ->
  Py.all_chars Py.isdecimal base12 = true ->
  let d := Standard.check_digit base12 in
  0 <= d <= 9 /\
  ean13_checkdigit base12 = Some (String (Standard.digit_char d) EmptyString).
Proof.
  intros Hlen Hdig d. subst d. now apply checkdigit_of_twelve_digits.
Qed.

Lemma ean13_checkdigit_standard_witness :
  0 <= 1 <= 9 /\ ean13_checkdigit "400638133393" = Some "1".
Proof.
  exact (ean13_checkdigit_standard "400638133393" eq_refl eq_refl).
Defined.

(** Known barcodes: 4006381333931, 9780306406157, 5901234123457. *)
Example ean13_checkdigit_known :
  map ean13_checkdigit ["400638133393"; "978030640615"; "590123412345"]
  = [Some "1"; Some "7"; Some "7"].
Proof. reflexivity. Qed.

Example build_ean13_defaults :
  build_ean13 "893" "12345" "0" "001" = Some "8931234500016".
Proof. reflexivity. Qed.

(** A short base is padded on the left. *)
Example build_ean13_short :
  build_ean13 "89" "1234" "2" "7" = Some "0089123420070".
Proof. reflexivity. Qed.

(** ** C2: the EAN-13 builder *)

Lemma zfill_str_plain (w : nat) (n : Z) :
  plain_digits (Py.zfill w (Py.str n)) = true.
Proof.
  assert (forall s, Py.all_chars Py.isdecimal s = true -> plain_digits s = true)
    as Hdec.
  { intros s. apply all_chars_impl. intros c Hc.
    now rewrite (decimal_is_digit c Hc), Hc. }
  destruct (Z_lt_le_dec n 0) as [Hneg | Hpos].
  - destruct (str_shape n) as [u [Hu [Hv Hs]]].
    apply Z.ltb_lt in Hneg as Hb. rewrite Hb in Hs. simpl in Hs.
    rewrite Hs. unfold Py.zfill. simpl. unfold plain_digits. simpl.
    apply Hdec.
    rewrite all_chars_app, string_of_uint_decimal, all_chars_replicate;
      reflexivity.
  - apply Hdec. now apply zfill_str_nonneg.
Qed.

Lemma build_ean13_shape
  (country_prefix company_prefix brand_id seq : string) (n : Z) :
  Py.int seq = Some n ->
  plain_digits (country_prefix ++ company_prefix ++ brand_id) = true ->
  let base :=
    Py.filter Py.isdigit_char
      (country_prefix ++ company_prefix ++ brand_id
       ++ Py.zfill 3 (Py.str n)) in
  exists base12 : string,
    String.length base12 = 12%nat
    /\ Py.all_chars Py.isdecimal base12 = true
    /\ ((String.length base < 12)%nat
          /\ base12 = Py.replicate (12 - String.length base) "0" ++ base
        \/ (12 <= String.length base)%nat
           /\ exists dropped, base = dropped ++ base12)
    /\ 0 <= Standard.check_digit base12 <= 9
    /\ build_ean13 country_prefix company_prefix brand_id seq
       = Some (base12
               ++ String (Standard.digit_char (Standard.check_digit base12))
                         EmptyString)
    /\ String.length
         (base12 ++ String (Standard.digit_char (Standard.check_digit base12))
                           EmptyString) = 13%nat.
Proof.
  intros Hn Hplain base.
  assert (Py.all_chars Py.isdecimal base = true) as Hbase.
  { subst base. rewrite (filter_ext_on Py.isdigit_char Py.isdecimal).
    - apply all_chars_filter.
    - rewrite <- !app_assoc_s, all_chars_app.
      rewrite !app_assoc_s. unfold plain_digits in Hplain. rewrite Hplain.
      apply zfill_str_plain. }
  unfold build_ean13. rewrite Hn. fold base.
  destruct (String.length base <? 12)%nat eqn:Hlen.
  - apply Nat.ltb_lt in Hlen.
    set (base12 := Py.rjust 12 "0" base).
    assert (String.length base12 = 12%nat) as L.
    { subst base12. unfold Py.rjust. rewrite str_length_app, length_replicate. lia. }
    assert (Py.all_chars Py.isdecimal base12 = true) as D.
    { subst base12. unfold Py.rjust.
      rewrite all_chars_app, Hbase, all_chars_replicate; reflexivity. }
    destruct (checkdigit_of_twelve_digits base12 L D) as [R E].
    exists base12. rewrite E. cbn [option_map].
    repeat split; try assumption; try apply R.
    + left. split; [exact Hlen | reflexivity].
    + rewrite str_length_app, L. reflexivity.
  - apply Nat.ltb_ge in Hlen.
    destruct (last_chars_spec 12 base Hlen) as [dropped [Eb L]].
    set (base12 := Py.last_chars 12 base) in *.
    assert (Py.all_chars Py.isdecimal base12 = true) as D.
    { rewrite Eb, all_chars_app in Hbase.
      apply andb_true_iff in Hbase. tauto. }
    destruct (checkdigit_of_twelve_digits base12 L D) as [R E].
    exists base12. rewrite E. cbn [option_map].
    repeat split; try assumption; try apply R.
    + right. split; [exact Hlen | now exists dropped].
    + rewrite str_length_app, L. reflexivity.
Qed.

(** C2, as the code has it. For prefixes and a brand id whose digit
    characters are all decimal and a sequence that [int] reads as [n],
    [build_ean13] keeps the digits of the concatenation, pads them with
    zeros on the left when there are fewer than twelve and keeps the last
    twelve (dropping the leading ones) when there are more, and returns
    these twelve digits followed by their check digit: thirteen digits. *)
Theorem build_ean13_last_twelve
  (country_prefix company_prefix brand_id seq : string) (n : Z) :
  Py.int seq = Some n ->
  plain_digits (country_prefix ++ company_prefix ++ brand_id) = true ->
  let base :=
    Py.filter Py.isdigit_char
      (country_prefix ++ company_prefix ++ brand_id
       ++ Py.zfill 3 (Py.str n)) in
  exists base12 : string,
    String.length base12 = 12%nat
    /\ Py.all_chars Py.isdecimal base12 = true
    /\ ((String.length base < 12)%nat
          /\ base12 = Py.replicate (12 - String.length base) "0" ++ base
        \/ (12 <= String.length base)%nat
           /\ exists dropped, base = dropped ++ base12)
    /\ 0 <= Standard.check_digit base12 <= 9
    /\ build_ean13 country_prefix company_prefix brand_id seq
       = Some (base12
               ++ String (Standard.digit_char (Standard.check_digit base12))
                         EmptyString)
    /\ String.length
         (base12 ++ String (Standard.digit_char (Standard.check_digit base12))
                           EmptyString) = 13%nat.
Proof.
  intros Hn Hplain base. now apply build_ean13_shape.
Qed.

Lemma build_ean13_last_twelve_witness :
  exists base12 : string,
    String.length base12 = 12%nat
    /\ Py.all_chars Py.isdecimal base12 = true
    /\ ((String.length "8931234567890001" < 12)%nat
          /\ base12 = Py.replicate (12 - 16) "0" ++ "8931234567890001"
        \/ (12 <= String.length "8931234567890001")%nat
           /\ exists dropped, "8931234567890001" = dropped ++ base12)
    /\ 0 <= Standard.check_digit base12 <= 9
    /\ build_ean13 "893" "123456789" "0" "1"
       = Some (base12
               ++ String (Standard.digit_char (Standard.check_digit base12))
                         EmptyString)
    /\ String.length
         (base12 ++ String (Standard.digit_char (Standard.check_digit base12))
                           EmptyString) = 13%nat.
Proof.
  exact (build_ean13_last_twelve "893" "123456789" "0" "1" 1 eq_refl eq_refl).
Defined.

(** C2 as worded (cut on the right) fails: with sixteen digits the code
    drops the first four, not the last four. *)
Lemma build_ean13_not_right_truncated :
  build_ean13 "893" "123456789" "0" "1" = Some "2345678900015"
  /\ Claimed.build_ean13 "893" "123456789" "0" "1" = Some "8931234567897"
  /\ build_ean13 "893" "123456789" "0" "1"
     <> Claimed.build_ean13 "893" "123456789" "0" "1".
Proof.
  split; [reflexivity |]. split; [reflexivity |]. discriminate.
Qed.

(** A digit character that [int] does not read makes [build_ean13] raise. *)
Lemma build_ean13_superscript_raises :
  Py.isdigit (String (ascii_of_nat 178) "93") = true
  /\ build_ean13 (String (ascii_of_nat 178) "93") "12345" "0" "1" = None.
Proof. split; reflexivity. Qed.

(** ** Storage *)

Lemma active_ensured (st : storage) : active (ensured st) = active st.
Proof. unfold ensured, active. simpl. now destruct (data_file st). Qed.

Lemma deleted_ensured (st : storage) : deleted (ensured st) = deleted st.
Proof. unfold ensured, deleted. simpl. now destruct (deleted_data_file st). Qed.

Lemma loaded_ensured (st : storage) : loaded (ensured st) = loaded st.
Proof. unfold loaded. now rewrite active_ensured. Qed.

Lemma ensured_present (st : storage) :
  data_file st <> None -> deleted_data_file st <> None -> ensured st = st.
Proof.
  destruct st as [[a |] [d |]]; unfold ensured; simpl; intros Ha Hd;
    congruence.
Qed.

Lemma ensured_idem (st : storage) : ensured (ensured st) = ensured st.
Proof.
  apply ensured_present; unfold ensured; simpl.
  - destruct (data_file st); discriminate.
  - destruct (deleted_data_file st); discriminate.
Qed.

Lemma load_df_run (st : storage) : load_df st = (Some (loaded st), ensured st).
Proof.
  unfold load_df, bind, ret, read_data_file.
  change (ensure_storage st) with (Some tt, ensured st).
  cbv beta iota. unfold loaded. now rewrite active_ensured.
Qed.

Lemma load_deleted_df_run (st : storage) :
  load_deleted_df st = (Some (deleted st), ensured st).
Proof.
  unfold load_deleted_df, bind, read_deleted_data_file.
  change (ensure_storage st) with (Some tt, ensured st).
  cbv beta iota. now rewrite deleted_ensured.
Qed.

Lemma next_spcode_for_run (b s : string) (st : storage) :
  next_spcode_for b s st = (Some (next_spcode_in (loaded st) b s), ensured st).
Proof. unfold next_spcode_for, bind. now rewrite load_df_run. Qed.

(** ** What [load_df] does to the sequence column *)

Lemma load_spcode_idem (c : cell) : load_spcode (load_spcode c) = load_spcode c.
Proof.
  unfold load_spcode.
  destruct (Pd.fillna "" c) as [x |] eqn:E; [| now destruct c].
  destruct (Py.isdigit (Py.strip x)) eqn:D; simpl.
  - destruct (Py.isdigit (Py.strip (Py.zfill 3 x))); [| reflexivity].
    now rewrite zfill_idem.
  - now rewrite D.
Qed.

Lemma load_row_idem (r : row) : load_row (load_row r) = load_row r.
Proof.
  unfold load_row, set_SPCode. simpl. now rewrite load_spcode_idem.
Qed.

Lemma load_row_SKU (r : row) : SKU (load_row r) = SKU r.
Proof. reflexivity. Qed.

Lemma map_load_row_loaded (st : storage) :
  map load_row (loaded st) = loaded st.
Proof.
  unfold loaded. rewrite map_map. apply map_ext. apply load_row_idem.
Qed.

Lemma filter_map_comm {A} (g : A -> A) (p : A -> bool) (l : list A) :
  (forall x, p (g x) = p x) ->
  List.filter p (map g l) = map g (List.filter p l).
Proof.
  intros H. induction l as [| x l IH]; simpl; [reflexivity |].
  rewrite H. destruct (p x); simpl; now rewrite IH.
Qed.

(** Rows picked out of a loaded snapshot by their key are already in
    the form [load_df] gives them. *)
Lemma load_filter_loaded (p : row -> bool) (st : storage) :
  (forall r, p (load_row r) = p r) ->
  map load_row (List.filter p (loaded st)) = List.filter p (loaded st).
Proof.
  intros H. rewrite <- (filter_map_comm load_row p _ H).
  now rewrite map_load_row_loaded.
Qed.

(** ** C8: allocation reads, it does not write *)

(** C8. For every storage and (brand, size) pair, calling the allocator
    twice in a row returns the same value both times; neither call
    changes the rows of the active or the deleted table, and once both
    files exist the storage stays exactly as it was. *)
Theorem next_spcode_for_twice (b s : string) (st : storage) :
  let first := next_spcode_for b s st in
  let second := next_spcode_for b s (snd first) in
  fst first = Some (next_spcode_in (loaded st) b s)
  /\ fst second = fst first
  /\ active (snd first) = active st
  /\ deleted (snd first) = deleted st
  /\ snd second = snd first
  /\ (data_file st <> None -> deleted_data_file st <> None -> snd first = st).
Proof.
  intros first second. subst first second.
  rewrite !next_spcode_for_run. simpl.
  rewrite loaded_ensured, active_ensured, deleted_ensured, ensured_idem.
  repeat split; auto using ensured_present.
Qed.

(** ** The allocator on a snapshot *)

Lemma max_list_ge_init (l : list Z) (x : Z) : x <= max_list x l.
Proof.
  unfold max_list. revert x. induction l as [| y l IH]; intros x; simpl.
  - lia.
  - specialize (IH (Z.max x y)). lia.
Qed.

Lemma max_list_ge (l : list Z) (x m : Z) : In m (x :: l) -> m <= max_list x l.
Proof.
  unfold max_list. revert x. induction l as [| y l IH]; intros x H; simpl.
  - destruct H as [-> | []]. lia.
  - destruct H as [-> | [-> | H]].
    + pose proof (max_list_ge_init l (Z.max m y)). unfold max_list in *. lia.
    + pose proof (max_list_ge_init l (Z.max x m)). unfold max_list in *. lia.
    + apply IH. now right.
Qed.

Lemma map_opt_total {A B} (f : A -> option B) (g : A -> B) (l : list A) :
  (forall x, In x l -> f x = Some (g x)) -> map_opt f l = Some (map g l).
Proof.
  induction l as [| x l IH]; intros H; simpl; [reflexivity |].
  rewrite (H x (or_introl eq_refl)), IH; [reflexivity |].
  intros y Hy. apply H. now right.
Qed.

Lemma spcode_num_value (x : cell) :
  spcode_num x <> None -> spcode_num x = Some (Claimed.spcode_value x).
Proof.
  unfold spcode_num, Claimed.spcode_value.
  destruct (Py.isdigit (Py.strip (Pd.astype_str x))); [| reflexivity].
  destruct (Py.int (Py.strip (Pd.astype_str x))); [reflexivity | congruence].
Qed.

(** When every matching sequence field that [isdigit] accepts is one
    [int] can read, the allocator returns the maximum plus one, at least
    one, zero-padded to three digits, and "001" when nothing matches. *)
Lemma next_spcode_in_readable (df : table) (b s : string) :
  (forall r, In r (rows_of_pair b s df) -> spcode_num (SPCode r) <> None) ->
  next_spcode_in df b s = Claimed.next_spcode df b s.
Proof.
  intros H. unfold next_spcode_in, Claimed.next_spcode.
  destruct df as [| r0 df0]; [reflexivity |].
  set (df := r0 :: df0) in *.
  destruct (rows_of_pair b s df) as [| r sel] eqn:Esel; [reflexivity |].
  rewrite (map_opt_total spcode_num Claimed.spcode_value).
  - simpl.
    set (m := max_list _ _ + 1).
    destruct (m <? 1) eqn:E.
    + apply Z.ltb_lt in E. now rewrite Z.max_l by lia.
    + apply Z.ltb_ge in E. now rewrite Z.max_r by lia.
  - intros x Hx. apply in_map_iff in Hx. destruct Hx as [r' [<- Hr']].
    apply spcode_num_value, H. exact Hr'.
Qed.

Lemma next_spcode_no_match (df : table) (b s : string) :
  rows_of_pair b s df = [] -> next_spcode_in df b s = "001".
Proof.
  intros H. unfold next_spcode_in. rewrite H. now destruct df.
Qed.

(** ** Deleting a product: what the storage holds afterwards *)

Lemma delete_product_run (sku : string) (st : storage) (r : row) (rest : table) :
  rows_with_sku sku (loaded st) = r :: rest ->
  delete_product sku st
  = (Some Deleted,
     mkStorage (Some (List.filter (fun x => Pd.ne (SKU x) sku) (loaded st)))
               (Some (deleted st ++ [r])%list)).
Proof.
  intros H. unfold delete_product, bind.
  rewrite load_df_run, H, load_deleted_df_run, deleted_ensured.
  reflexivity.
Qed.

Lemma delete_product_not_found (sku : string) (st : storage) :
  rows_with_sku sku (loaded st) = [] ->
  delete_product sku st = (Some NotFound, ensured st).
Proof.
  intros H. unfold delete_product, bind. now rewrite load_df_run, H.
Qed.

Lemma loaded_after_delete (sku : string) (st : storage) (r : row) (rest : table) :
  rows_with_sku sku (loaded st) = r :: rest ->
  loaded (snd (delete_product sku st))
  = List.filter (fun x => Pd.ne (SKU x) sku) (loaded st).
Proof.
  intros H. rewrite (delete_product_run sku st r rest H).
  unfold loaded at 1, active. simpl.
  apply load_filter_loaded. reflexivity.
Qed.

(** ** C3: the allocator and digit characters [int] cannot read *)

(** C3, at the failing input. The table holds two products of the pair
    (VE, 6060): one with sequence "005", one whose sequence cell is the
    superscript two. [isdigit] accepts that cell, [int] raises on it,
    the handler of the allocator answers "001"; maximum plus one is
    "006". *)
Theorem next_spcode_for_superscript :
  let sup := String (ascii_of_nat 178) EmptyString in
  let st := storage_of [sample_row "VE" "6060" "0" "005" "";
                        sample_row "VE" "6060" "1" sup ""] in
  Py.isdigit sup = true
  /\ Py.int sup = None
  /\ next_spcode_for "VE" "6060" st = (Some "001", st)
  /\ Claimed.next_spcode (loaded st) "VE" "6060" = "006".
Proof. repeat split. Qed.

(** ** C4: deleted products and their sequence numbers *)

(** C4 as worded fails: delete the only product of a pair and the
    allocator hands out its number again. *)
Lemma deleted_slot_reused :
  ~ Claimed.slot_not_reused
      (storage_of [sample_row "VE" "6060" "0" "001" ""]) "VE60600001".
Proof.
  intros H.
  apply (H (sample_row "VE" "6060" "0" "001" "") []
           (mkStorage (Some [])
                      (Some [sample_row "VE" "6060" "0" "001" ""]))).
  - reflexivity.
  - reflexivity.
  - reflexivity.
Qed.

Lemma spcode_num_of_padded (k : Z) (x : cell) :
  0 <= k -> Pd.astype_str x = Py.zfill 3 (Py.str k) -> spcode_num x = Some k.
Proof.
  intros Hk E. unfold spcode_num. rewrite E.
  destruct (zfill_str_nonneg 3 k Hk) as [Hne [Hdec Hint]].
  rewrite (strip_decimal _ Hdec), (isdigit_decimal _ Hne Hdec). exact Hint.
Qed.

(** ** Deleting a product: one row or several *)

Lemma filter_singleton {A} (p : A -> bool) (l : list A) (r : A) :
  List.filter p l = [r] ->
  exists before after,
    l = (before ++ r :: after)%list
    /\ p r = true
    /\ (forall x, In x (before ++ after)%list -> p x = false).
Proof.
  induction l as [| y l IH]; simpl; [discriminate |].
  destruct (p y) eqn:Py.
  - intros E. injection E as -> El.
    exists [], l. repeat split; [exact Py |].
    intros x Hx. simpl in Hx.
    destruct (p x) eqn:Px; [| reflexivity].
    assert (In x (List.filter p l)) as Hin by (apply filter_In; now split).
    rewrite El in Hin. destruct Hin.
  - intros E. destruct (IH E) as [before [after [-> [Pr Hrest]]]].
    exists (y :: before), after. repeat split; [exact Pr |].
    intros x [<- | Hx]; [exact Py | now apply Hrest].
Qed.

Lemma filter_all {A} (p : A -> bool) (l : list A) :
  (forall x, In x l -> p x = true) -> List.filter p l = l.
Proof.
  induction l as [| y l IH]; intros H; simpl; [reflexivity |].
  rewrite (H y (or_introl eq_refl)), IH; [reflexivity |].
  intros x Hx. apply H. now right.
Qed.

Lemma ne_of_other_sku (x : row) (sku : string) :
  String.eqb (Pd.astype_str (SKU x)) sku = false -> Pd.ne (SKU x) sku = true.
Proof.
  unfold Pd.ne, Pd.eq. destruct (SKU x) as [t |]; simpl; [| reflexivity].
  now intros ->.
Qed.

(** On a table that holds a SKU twice, both rows leave the active table
    and only the first reaches the deleted table. *)
Lemma delete_product_duplicate_sku :
  ~ Claimed.delete_moves_one_row
      (storage_of [sample_row "VE" "6060" "0" "001" "first";
                   sample_row "VE" "6060" "0" "001" "second"])
      "VE60600001".
Proof.
  intros H.
  destruct (H (sample_row "VE" "6060" "0" "001" "first")
              (or_introl eq_refl) eq_refl)
    as [st' [before [after [Hd [Hl [Ha _]]]]]].
  vm_compute in Hd. injection Hd as <-.
  vm_compute in Ha. symmetry in Ha.
  apply app_eq_nil in Ha. destruct Ha as [-> ->].
  apply (f_equal (@List.length row)) in Hl. discriminate Hl.
Qed.

(** When exactly one row of the loaded table carries the SKU, as text,
    deleting the product appends that very row to the deleted table and
    leaves the active table with the rows before and after it. *)
Lemma delete_product_unique_sku (st : storage) (sku : string) (r : row) :
  rows_with_sku sku (loaded st) = [r] ->
  SKU r = Str sku ->
  exists before after,
    loaded st = (before ++ r :: after)%list
    /\ delete_product sku st
       = (Some Deleted,
          mkStorage (Some (before ++ after)%list)
                    (Some (deleted st ++ [r])%list))
    /\ loaded (snd (delete_product sku st)) = (before ++ after)%list.
Proof.
  intros Hr Hsku.
  destruct (filter_singleton _ _ _ Hr) as [before [after [El [_ Hrest]]]].
  assert (List.filter (fun x => Pd.ne (SKU x) sku) (loaded st)
          = (before ++ after)%list) as Hf.
  { rewrite El, List.filter_app. simpl.
    assert (Pd.ne (SKU r) sku = false) as ->.
    { rewrite Hsku. unfold Pd.ne, Pd.eq. now rewrite String.eqb_refl. }
    rewrite <- List.filter_app. apply filter_all.
    intros x Hx. now apply ne_of_other_sku, Hrest. }
  exists before, after. split; [exact El |].
  rewrite (loaded_after_delete sku st r [] Hr).
  rewrite (delete_product_run sku st r [] Hr), Hf. now split.
Qed.

(** ** Deleting an image from a product *)

Lemma delete_image_from_product_run (sku img_path : string) (st : storage) :
  delete_image_from_product sku img_path st
  = match rows_with_sku sku (loaded st) with
    | [] => (Some false, ensured st)
    | r :: _ =>
        if mem img_path (images_of r)
        then (Some true,
              mkStorage
                (Some (assign_ImagePaths sku
                         (Py.join ";" (remove_first img_path (images_of r)))
                         (loaded st)))
                (deleted_data_file (ensured st)))
        else (Some false, ensured st)
    end.
Proof.
  unfold delete_image_from_product, bind. rewrite load_df_run.
  destruct (rows_with_sku sku (loaded st)) as [| r rest]; [reflexivity |].
  now destruct (mem img_path (images_of r)).
Qed.


(** When the first row that carries the SKU carries it as text and lists
    the path, the answer is True and that row is rewritten with the path
    taken out of its list once. *)
Lemma delete_image_from_product_true
  (sku img_path : string) (st : storage) (r : row) (rest : table) :
  rows_with_sku sku (loaded st) = r :: rest ->
  SKU r = Str sku ->
  mem img_path (images_of r) = true ->
  let images := remove_first img_path (images_of r) in
  fst (delete_image_from_product sku img_path st) = Some true
  /\ active (snd (delete_image_from_product sku img_path st))
     = assign_ImagePaths sku (Py.join ";" images) (loaded st)
  /\ In (set_ImagePaths (Str (Py.join ";" images)) r)
        (active (snd (delete_image_from_product sku img_path st))).
Proof.
  intros Hr Hsku Hmem images.
  rewrite delete_image_from_product_run, Hr, Hmem. simpl.
  repeat split.
  unfold active; simpl. unfold assign_ImagePaths.
  apply in_map_iff. exists r. split.
  - rewrite Hsku. unfold Pd.eq. now rewrite String.eqb_refl.
  - assert (In r (rows_with_sku sku (loaded st))) as Hin
      by (rewrite Hr; now left).
    unfold rows_with_sku in Hin. apply filter_In in Hin. tauto.
Qed.

(** The text "nan" also selects a row whose SKU cell is empty: the row
    is found, the answer is True, but the assignment, which compares the
    cell itself, selects no row and the list stays as it was. *)
Example delete_image_from_product_missing_sku :
  let path := "images/x/001_face01_01.png" in
  let st := storage_of [orphan_row] in
  rows_with_sku "nan" (loaded st) = [orphan_row]
  /\ images_of orphan_row = [path]
  /\ delete_image_from_product "nan" path st = (Some true, st)
  /\ active st = [orphan_row].
Proof. repeat split. Qed.

(** ** C5: saving a product *)

Ltac split_validation H :=
  repeat match type of H with
         | context [match ?x with _ => _ end] =>
             destruct x eqn:?; try discriminate H
         | context [if ?x then _ else _] =>
             destruct x eqn:?; try discriminate H
         end.

(** What validation guarantees about the data it lets through. *)
Lemma validated_data (f : form) (d : data) :
  validate_inputs f = Some (inl d) ->
  (exists n, 1 <= n <= 999 /\ spcode d = Py.zfill 3 (Py.str n))
  /\ In (brand_id d) ["0"; "1"; "2"; "3"].
Proof.
  unfold validate_inputs. intros H.
  split_validation H.
  injection H as <-. simpl. split.
  - match goal with
    | Hr : negb ((1 <=? ?z) && (?z <=? 999)) = false |- _ =>
        exists z; apply negb_false_iff, andb_true_iff in Hr;
        destruct Hr as [H1 H2]; apply Z.leb_le in H1, H2
    end.
    now split.
  - match goal with
    | Hl : lookup _ BRAND_LIST = Some _ |- _ =>
        unfold lookup, BRAND_LIST in Hl;
        repeat match type of Hl with
               | context [if ?x then _ else _] => destruct x
               end;
        try discriminate Hl; injection Hl as <- <-
    end; simpl; tauto.
Qed.

Lemma build_sku_validated (f : form) (d : data) :
  validate_inputs f = Some (inl d) ->
  build_sku (brand_code d) (size_code d) (matt_polished d) (spcode d)
  = Some (brand_code d ++ size_code d ++ matt_polished d ++ spcode d).
Proof.
  intros H. destruct (validated_data f d H) as [[n [_ E]] _].
  unfold build_sku. rewrite E, int_zfill_str. reflexivity.
Qed.

Lemma mem_In (x : string) (l : list string) : In x l -> mem x l = true.
Proof.
  intros H. unfold mem. apply existsb_exists. exists x.
  split; [exact H | apply String.eqb_refl].
Qed.

Lemma save_product_invalid (e : env) (f : form) (err : string) (st : storage) :
  validate_inputs f = Some (inr err) ->
  save_product e f st = (Some (Invalid err), st).
Proof. intros H. unfold save_product, bind, lift. now rewrite H. Qed.

Lemma save_product_valid (e : env) (f : form) (d : data) (st : storage) :
  validate_inputs f = Some (inl d) ->
  let sku := brand_code d ++ size_code d ++ matt_polished d ++ spcode d in
  save_product e f st
  = match build_ean13 (country d) (company d) (brand_id d) (spcode d) with
    | None => (None, ensured st)
    | Some ean13 =>
        if mem sku (map (fun r => Pd.astype_str (SKU r)) (loaded st))
        then (Some (Duplicate sku), ensured st)
        else (Some (Saved sku ean13),
              mkStorage (Some (loaded st ++ [new_row e d sku ean13])%list)
                        (deleted_data_file (ensured st)))
    end.
Proof.
  intros H sku. unfold save_product, bind, lift.
  rewrite H, load_df_run, (build_sku_validated f d H). fold sku.
  destruct (build_ean13 (country d) (company d) (brand_id d) (spcode d));
    [| reflexivity].
  now destruct (mem sku (map (fun r => Pd.astype_str (SKU r)) (loaded st))).
Qed.

(** Whatever stops a save (a validation message, a duplicate, a raised
    conversion) leaves the rows of both tables as they were. *)
Lemma save_product_unsaved (e : env) (f : form) (st : storage) :
  (forall sku ean13, fst (save_product e f st) <> Some (Saved sku ean13)) ->
  active (snd (save_product e f st)) = active st
  /\ deleted (snd (save_product e f st)) = deleted st.
Proof.
  destruct (validate_inputs f) as [[d | err] |] eqn:V.
  - rewrite (save_product_valid e f d st V).
    destruct (build_ean13 _ _ _ _) as [ean13 |];
      [| intros _; simpl; now rewrite active_ensured, deleted_ensured].
    destruct (mem _ _);
      [intros _; simpl; now rewrite active_ensured, deleted_ensured |].
    intros H. exfalso. eapply H. reflexivity.
  - rewrite (save_product_invalid e f err st V). now split.
  - intros _. unfold save_product, bind, lift. rewrite V. now split.
Qed.

Lemma brand_id_plain (b : string) :
  In b ["0"; "1"; "2"; "3"] -> plain_digits b = true.
Proof. intros [<- | [<- | [<- | [<- | []]]]]; reflexivity. Qed.

(** C5. When the active table already holds a product with the brand,
    size, finish and sequence of the form (and so, its SKU cell being the
    one these build, the same SKU), the save is turned down: the result
    is the duplicate message, or a raised conversion when a prefix holds
    a digit character [int] cannot read, never a saved product, and the
    rows of both tables are what they were. A validation message leaves
    the storage exactly as it was. *)
Theorem save_product_duplicate_rejected
  (e : env) (f : form) (d : data) (st : storage) (r : row) :
  validate_inputs f = Some (inl d) ->
  In r (loaded st) ->
  BrandCode r = Str (brand_code d) ->
  SizeCode r = Str (size_code d) ->
  MattPolished r = Str (matt_polished d) ->
  SPCode r = Str (spcode d) ->
  row_sku_consistent r ->
  let sku := brand_code d ++ size_code d ++ matt_polished d ++ spcode d in
  let out := save_product e f st in
  Pd.astype_str (SKU r) = sku
  /\ (fst out = Some (Duplicate sku) \/ fst out = None)
  /\ (plain_digits (country d ++ company d) = true ->
      fst out = Some (Duplicate sku))
  /\ active (snd out) = active st
  /\ deleted (snd out) = deleted st
  /\ (forall f' err, validate_inputs f' = Some (inr err) ->
                     save_product e f' st = (Some (Invalid err), st)).
Proof.
  intros V Hin Hb Hs Hm Hq Hc sku out.
  assert (Pd.astype_str (SKU r) = sku) as Hsku.
  { unfold row_sku_consistent in Hc. rewrite Hb, Hs, Hm, Hq in Hc. simpl in Hc.
    rewrite (build_sku_validated f d V) in Hc. now injection Hc as <-. }
  assert (mem sku (map (fun r => Pd.astype_str (SKU r)) (loaded st)) = true)
    as Hmem.
  { apply mem_In. rewrite <- Hsku.
    apply (in_map (fun r => Pd.astype_str (SKU r))). exact Hin. }
  pose proof (save_product_valid e f d st V) as Hrun.
  cbv zeta in Hrun. fold sku in Hrun. rewrite Hmem in Hrun. fold out in Hrun.
  split; [exact Hsku |].
  split; [| split; [| split; [| split]]].
  - rewrite Hrun. destruct (build_ean13 _ _ _ _); [now left | now right].
  - intros Hplain. rewrite Hrun.
    destruct (validated_data f d V) as [[n [_ E]] Hbid].
    destruct (build_ean13_shape (country d) (company d) (brand_id d)
                (spcode d) n) as [base12 [_ [_ [_ [_ [Eb _]]]]]].
    + rewrite E. apply int_zfill_str.
    + unfold plain_digits in *.
      rewrite <- app_assoc_s, all_chars_app, Hplain. simpl.
      apply (brand_id_plain _ Hbid).
    + now rewrite Eb.
  - rewrite Hrun. destruct (build_ean13 _ _ _ _); simpl; apply active_ensured.
  - rewrite Hrun. destruct (build_ean13 _ _ _ _); simpl; apply deleted_ensured.
  - intros f' err. apply save_product_invalid.
Qed.

Lemma save_product_duplicate_rejected_witness :
  let st := storage_of [sample_row "VE" "6060" "0" "001" ""] in
  let out := save_product sample_env sample_form st in
  Pd.astype_str (SKU (sample_row "VE" "6060" "0" "001" "")) = "VE60600001"
  /\ (fst out = Some (Duplicate "VE60600001") \/ fst out = None)
  /\ (plain_digits "89312345" = true -> fst out = Some (Duplicate "VE60600001"))
  /\ active (snd out) = active st
  /\ deleted (snd out) = deleted st
  /\ (forall f' err, validate_inputs f' = Some (inr err) ->
                     save_product sample_env f' st = (Some (Invalid err), st)).
Proof.
  apply (save_product_duplicate_rejected sample_env sample_form sample_data
           (storage_of [sample_row "VE" "6060" "0" "001" ""])
           (sample_row "VE" "6060" "0" "001" ""));
    try reflexivity.
  left. reflexivity.
Defined.

(** ** C9: the two SKU formatters *)

(** The row [save_product] writes comes back from [load_df] unchanged. *)
Lemma load_row_new_row (e : env) (f : form) (d : data) (sku ean13 : string) :
  validate_inputs f = Some (inl d) ->
  load_row (new_row e d sku ean13) = new_row e d sku ean13.
Proof.
  intros V. destruct (validated_data f d V) as [[n [_ E]] _].
  unfold load_row, new_row, set_SPCode, load_spcode. simpl.
  rewrite E.
  destruct (Py.isdigit (Py.strip (Py.zfill 3 (Py.str n))));
    now rewrite ?zfill_idem.
Qed.

(** C9. For every brand code, size code, finish flag and sequence that
    [int] reads as the number [n], [build_sku] and [build_full_spcode]
    return the same string: brand, size and finish followed by [n]
    zero-padded to three digits. And for every row written by
    [save_product], the full SPCode the viewer builds from the reloaded
    row is the SKU stored in it. *)
Theorem build_full_spcode_is_build_sku
  (brand size finish seq : string) (n : Z) :
  Py.int seq = Some n ->
  build_sku brand size finish seq
  = Some (brand ++ size ++ finish ++ Py.zfill 3 (Py.str n))
  /\ build_full_spcode brand size finish seq = build_sku brand size finish seq
  /\ (forall e f d st sku ean13,
        validate_inputs f = Some (inl d) ->
        fst (save_product e f st) = Some (Saved sku ean13) ->
        let r := load_row (new_row e d sku ean13) in
        In r (loaded (snd (save_product e f st)))
        /\ build_full_spcode
             (Pd.astype_str (BrandCode r)) (Pd.astype_str (SizeCode r))
             (Pd.astype_str (MattPolished r)) (Pd.astype_str (SPCode r))
           = Some (Pd.astype_str (SKU r))).
Proof.
  intros Hn. split; [| split].
  - unfold build_sku. now rewrite Hn.
  - reflexivity.
  - intros e f d st sku ean13 V Hs r. subst r.
    rewrite (load_row_new_row e f d sku ean13 V).
    rewrite (save_product_valid e f d st V) in *.
    destruct (build_ean13 _ _ _ _) as [c |]; [| discriminate Hs].
    destruct (mem _ _); [discriminate Hs |].
    simpl in Hs. injection Hs as <- <-. split.
    + unfold loaded at 1, active. simpl.
      rewrite map_app, map_load_row_loaded. simpl.
      rewrite (load_row_new_row e f d _ c V).
      apply in_or_app. right. now left.
    + simpl. apply (build_sku_validated f d V).
Qed.

Lemma build_full_spcode_is_build_sku_witness :
  build_sku "VE" "6060" "0" " 7 " = Some "VE60600007"
  /\ build_full_spcode "VE" "6060" "0" " 7 " = build_sku "VE" "6060" "0" " 7 "
  /\ (forall e f d st sku ean13,
        validate_inputs f = Some (inl d) ->
        fst (save_product e f st) = Some (Saved sku ean13) ->
        let r := load_row (new_row e d sku ean13) in
        In r (loaded (snd (save_product e f st)))
        /\ build_full_spcode
             (Pd.astype_str (BrandCode r)) (Pd.astype_str (SizeCode r))
             (Pd.astype_str (MattPolished r)) (Pd.astype_str (SPCode r))
           = Some (Pd.astype_str (SKU r))).
Proof.
  exact (build_full_spcode_is_build_sku "VE" "6060" "0" " 7 " 7 eq_refl).
Defined.

(** A save goes through on the sample form and the row can be shown. *)
Example save_then_show :
  let out := save_product sample_env sample_form (storage_of []) in
  fst out = Some (Saved "VE60600001" "8931234500016")
  /\ active (snd out)
     = [new_row sample_env sample_data "VE60600001" "8931234500016"].
Proof. split; reflexivity. Qed.

(** * Further properties of the code *)

(** ** Barcodes that [build_ean13] returns *)

Lemma base12_length (base : string) :
  String.length (if (String.length base <? 12)%nat
                 then Py.rjust 12 "0" base
                 else Py.last_chars 12 base) = 12%nat.
Proof.
  destruct (String.length base <? 12)%nat eqn:E.
  - apply Nat.ltb_lt in E. unfold Py.rjust.
    rewrite str_length_app, length_replicate. lia.
  - apply Nat.ltb_ge in E.
    destruct (last_chars_spec 12 base E) as [_ [_ L]]. exact L.
Qed.

Lemma digit_char_value (d : Z) :
  0 <= d <= 9 ->
  Standard.digit_value (Standard.digit_char d) = d
  /\ Py.isdecimal (Standard.digit_char d) = true.
Proof.
  intros H.
  assert (d = 0 \/ d = 1 \/ d = 2 \/ d = 3 \/ d = 4 \/ d = 5 \/ d = 6
          \/ d = 7 \/ d = 8 \/ d = 9) as Hd by lia.
  repeat (destruct Hd as [-> | Hd]; [now split |]).
  subst d; now split.
Qed.

Lemma check_digit_completes (a : Z) : (a + (10 - a mod 10) mod 10) mod 10 = 0.
Proof. Z.to_euclidean_division_equations. lia. Qed.

Lemma valid_of_base12 (base12 : string) :
  String.length base12 = 12%nat ->
  Py.all_chars Py.isdecimal base12 = true ->
  let code :=
    base12 ++ String (Standard.digit_char (Standard.check_digit base12))
                     EmptyString in
  valid_ean13 code /\ barcode_accepts code = true.
Proof.
  intros L D code.
  destruct (checkdigit_of_twelve_digits base12 L D) as [R _].
  destruct (digit_char_value _ R) as [V Dc].
  assert (Py.all_chars Py.isdecimal code = true) as Dall.
  { subst code. rewrite all_chars_app, D. cbn [Py.all_chars andb].
    now rewrite Dc. }
  assert (String.length code = 13%nat) as Lall.
  { subst code. rewrite str_length_app, L. reflexivity. }
  split; [split; [exact Lall | split; [exact Dall |]] |].
  - subst code. clear Dall Lall D. revert V R.
    unfold Standard.check_digit, Standard.odd_position_sum,
      Standard.even_position_sum.
    do 12 (destruct base12 as [| ? base12]; [discriminate L |]).
    destruct base12; [| discriminate L].
    unfold Standard.digit_at.
    cbn [map String.get Py.sum String.append].
    intros V _. rewrite V.
    match goal with
    | |- context [(10 - ?a mod 10) mod 10] =>
        pose proof (check_digit_completes a) as Hc;
        set (chk := (10 - a mod 10) mod 10) in *
    end.
    match goal with
    | |- ?lhs mod 10 = 0 =>
        match type of Hc with
        | ?rhs mod 10 = 0 => replace lhs with rhs by lia
        end
    end.
    exact Hc.
  - unfold barcode_accepts. rewrite Lall. simpl Nat.eqb.
    apply isdigit_decimal; [| exact Dall].
    intros E0. rewrite E0 in Lall. discriminate Lall.
Qed.

Lemma build_ean13_plain_valid
  (country_prefix company_prefix brand_id seq : string) (n : Z) :
  Py.int seq = Some n ->
  plain_digits (country_prefix ++ company_prefix ++ brand_id) = true ->
  exists code,
    build_ean13 country_prefix company_prefix brand_id seq = Some code
    /\ valid_ean13 code /\ barcode_accepts code = true.
Proof.
  intros Hn Hp.
  destruct (build_ean13_shape country_prefix company_prefix brand_id seq n
              Hn Hp) as [base12 [L [D [_ [_ [E _]]]]]].
  eexists. split; [exact E |]. exact (valid_of_base12 base12 L D).
Qed.

(** X1. When every character of the prefixes and the brand id that
    [isdigit] accepts is a decimal digit 0-9 and [int] reads the
    sequence, what [build_ean13] returns is a valid EAN-13 number
    (thirteen decimal digits with a weighted sum that is a multiple of
    ten) and passes the test [generate_barcode_qr] makes before drawing
    it. *)
Theorem build_ean13_valid
  (country_prefix company_prefix brand_id seq : string) (n : Z) :
  Py.int seq = Some n ->
  plain_digits (country_prefix ++ company_prefix ++ brand_id) = true ->
  exists code,
    build_ean13 country_prefix company_prefix brand_id seq = Some code
    /\ valid_ean13 code /\ barcode_accepts code = true.
Proof. apply build_ean13_plain_valid. Qed.

Lemma build_ean13_valid_witness :
  exists code,
    build_ean13 "893" "12345" "0" "001" = Some code
    /\ valid_ean13 code /\ barcode_accepts code = true.
Proof.
  exact (build_ean13_valid "893" "12345" "0" "001" 1 eq_refl eq_refl).
Defined.

(** ** The check digit catches a wrong digit *)

Lemma chars_digits (s : string) :
  Py.all_chars Py.isdecimal s = true ->
  map_opt Py.int (chars s)
  = Some (map Standard.digit_value (list_ascii_of_string s)).
Proof.
  induction s as [| c s IH]; intros H; [reflexivity |].
  simpl in H. apply andb_true_iff in H. destruct H as [Hc Hs].
  cbn [chars map_opt list_ascii_of_string map].
  now rewrite (int_decimal_char c Hc), (IH Hs).
Qed.

Lemma list_ascii_app (a b : string) :
  list_ascii_of_string (a ++ b)
  = (list_ascii_of_string a ++ list_ascii_of_string b)%list.
Proof. induction a as [| c a IH]; simpl; [reflexivity | now rewrite IH]. Qed.

Lemma every_other_cons {A} (a : A) (l : list A) :
  Py.every_other (a :: l) = a :: Py.every_other (tl l).
Proof. now destruct l. Qed.

Lemma weighted_total_cons (a : Z) (l : list Z) :
  weighted_total (a :: l) = a + weighted_total_shifted l
  /\ weighted_total_shifted (a :: l) = 3 * a + weighted_total l.
Proof.
  unfold weighted_total, weighted_total_shifted.
  rewrite every_other_cons. cbn [tl Py.sum]. lia.
Qed.

(** Replacing one digit moves the total by the weight of its position
    times the difference. *)
Lemma weighted_total_replace (p s : list Z) (x y : Z) :
  weighted_total (p ++ x :: s) - weighted_total (p ++ y :: s)
  = (if Nat.even (List.length p) then 1 else 3) * (x - y)
  /\ weighted_total_shifted (p ++ x :: s) - weighted_total_shifted (p ++ y :: s)
     = (if Nat.even (List.length p) then 3 else 1) * (x - y).
Proof.
  induction p as [| a p [IH1 IH2]].
  - change (([] ++ x :: s)%list) with (x :: s).
    change (([] ++ y :: s)%list) with (y :: s).
    change (Nat.even (List.length (@nil Z))) with true. cbv iota.
    destruct (weighted_total_cons x s) as [Ex Ex'].
    destruct (weighted_total_cons y s) as [Ey Ey']. lia.
  - change (((a :: p) ++ x :: s)%list) with (a :: (p ++ x :: s))%list.
    change (((a :: p) ++ y :: s)%list) with (a :: (p ++ y :: s))%list.
    change (List.length (a :: p)) with (S (List.length p)).
    destruct (weighted_total_cons a (p ++ x :: s)) as [Ex Ex'].
    destruct (weighted_total_cons a (p ++ y :: s)) as [Ey Ey'].
    rewrite Nat.even_succ, <- Nat.negb_even.
    destruct (Nat.even (List.length p)); cbn [negb]; lia.
Qed.

Lemma str_inj (a b : Z) : Py.str a = Py.str b -> a = b.
Proof.
  intros H.
  pose proof (int_zfill_str 0 a) as Ha. pose proof (int_zfill_str 0 b) as Hb.
  rewrite (zfill_long 0 (Py.str a)) in Ha by lia.
  rewrite (zfill_long 0 (Py.str b)) in Hb by lia.
  rewrite H in Ha. congruence.
Qed.

Lemma digit_value_inj (c c' : ascii) :
  Standard.digit_value c = Standard.digit_value c' -> c = c'.
Proof.
  unfold Standard.digit_value. intros H.
  assert (nat_of_ascii c = nat_of_ascii c') as E by lia.
  rewrite <- (ascii_nat_embedding c), <- (ascii_nat_embedding c'). now rewrite E.
Qed.

Lemma ean13_checkdigit_total (s : string) :
  Py.all_chars Py.isdecimal s = true ->
  ean13_checkdigit s
  = Some (Py.str ((10 - weighted_total
                          (map Standard.digit_value (list_ascii_of_string s))
                        mod 10) mod 10)).
Proof.
  intros H. unfold ean13_checkdigit. now rewrite (chars_digits s H).
Qed.

(** X2. Replacing any one digit of a base by a different digit changes the
    check digit, whatever the position and the length of the base. *)
Theorem ean13_checkdigit_single_error
  (before after : string) (c c' : ascii) :
  Py.all_chars Py.isdecimal (before ++ String c after) = true ->
  Py.isdecimal c' = true ->
  c <> c' ->
  ean13_checkdigit (before ++ String c after)
  <> ean13_checkdigit (before ++ String c' after).
Proof.
  intros H Hc' Hne.
  assert (Py.all_chars Py.isdecimal (before ++ String c' after) = true) as H'.
  { rewrite all_chars_app in *. simpl in *.
    apply andb_true_iff in H. destruct H as [Hb H].
    apply andb_true_iff in H. destruct H as [_ Ha].
    now rewrite Hb, Hc', Ha. }
  assert (Py.isdecimal c = true) as Hc.
  { rewrite all_chars_app in H. simpl in H.
    apply andb_true_iff in H. destruct H as [_ H].
    apply andb_true_iff in H. tauto. }
  rewrite (ean13_checkdigit_total _ H), (ean13_checkdigit_total _ H').
  rewrite !list_ascii_app. cbn [list_ascii_of_string]. rewrite !map_app.
  cbn [map].
  set (p := map Standard.digit_value (list_ascii_of_string before)).
  set (q := map Standard.digit_value (list_ascii_of_string after)).
  match goal with
  | |- Some (Py.str ?a) <> Some (Py.str ?b) =>
      intros E0; assert (a = b) as E by (apply str_inj; congruence); clear E0
  end.
  destruct (weighted_total_replace p q (Standard.digit_value c)
              (Standard.digit_value c')) as [D _].
  pose proof (digit_value_range c Hc) as Rc.
  pose proof (digit_value_range c' Hc') as Rc'.
  assert (Standard.digit_value c <> Standard.digit_value c') as Hv
    by (intros Ev; apply Hne, digit_value_inj, Ev).
  revert E D Rc Rc' Hv.
  generalize (weighted_total (p ++ Standard.digit_value c :: q)).
  generalize (weighted_total (p ++ Standard.digit_value c' :: q)).
  generalize (Standard.digit_value c), (Standard.digit_value c').
  intros x y A B E D Rx Ry Hv.
  assert (B mod 10 = A mod 10) as Em
    by (Z.to_euclidean_division_equations; lia).
  assert (exists k, B - A = 10 * k) as [k Ek].
  { exists (B / 10 - A / 10).
    rewrite (Z.div_mod B 10) at 1 by lia.
    rewrite (Z.div_mod A 10) at 1 by lia. lia. }
  destruct (Nat.even (List.length p)); lia.
Qed.

Lemma ean13_checkdigit_single_error_witness :
  ean13_checkdigit "400638133393" <> ean13_checkdigit "400638183393".
Proof.
  exact (ean13_checkdigit_single_error "4006381" "3393" "3" "8"
           eq_refl eq_refl ltac:(discriminate)).
Defined.

(** ** Barcodes whose digits fit *)

Lemma filter_id (p : ascii -> bool) (s : string) :
  Py.all_chars p s = true -> Py.filter p s = s.
Proof.
  induction s as [| c s IH]; simpl; [reflexivity |].
  intros H. apply andb_true_iff in H. destruct H as [Hc Hs].
  now rewrite Hc, (IH Hs).
Qed.

Lemma zfill3_length (n : Z) :
  0 <= n <= 999 -> String.length (Py.zfill 3 (Py.str n)) = 3%nat.
Proof.
  intros H.
  assert (forallb (fun k => (String.length (Py.zfill 3 (Py.str (Z.of_nat k)))
                             =? 3)%nat) (seq 0 1000) = true) as All
    by (vm_compute; reflexivity).
  rewrite forallb_forall in All.
  specialize (All (Z.to_nat n)).
  rewrite Z2Nat.id in All by lia.
  apply Nat.eqb_eq, All, in_seq. lia.
Qed.

(** X3. When the digits of the prefixes, the brand id and the three-digit
    sequence number are twelve or fewer, the barcode is these digits, in
    order and all of them, behind the zeros that fill the base up to
    twelve, followed by the check digit. *)
Theorem build_ean13_keeps_all_digits
  (country_prefix company_prefix brand_id seq : string) (n : Z) :
  Py.int seq = Some n ->
  0 <= n <= 999 ->
  Py.all_chars Py.isdecimal (country_prefix ++ company_prefix ++ brand_id)
  = true ->
  (String.length (country_prefix ++ company_prefix ++ brand_id) <= 9)%nat ->
  let base12 :=
    Py.replicate
      (9 - String.length (country_prefix ++ company_prefix ++ brand_id)) "0"
    ++ country_prefix ++ company_prefix ++ brand_id
    ++ Py.zfill 3 (Py.str n) in
  build_ean13 country_prefix company_prefix brand_id seq
  = Some (base12
          ++ String (Standard.digit_char (Standard.check_digit base12))
                    EmptyString).
Proof.
  intros Hn Hr Hdec Hlen base12.
  destruct (zfill_str_nonneg 3 n ltac:(lia)) as [_ [Hz _]].
  pose proof (zfill3_length n Hr) as Lz.
  assert (country_prefix ++ company_prefix ++ brand_id ++ Py.zfill 3 (Py.str n)
          = (country_prefix ++ company_prefix ++ brand_id)
            ++ Py.zfill 3 (Py.str n)) as Eassoc
    by now rewrite !app_assoc_s.
  set (pre := country_prefix ++ company_prefix ++ brand_id) in *.
  assert (Py.all_chars Py.isdecimal (pre ++ Py.zfill 3 (Py.str n)) = true)
    as Hall by now rewrite all_chars_app, Hdec, Hz.
  assert (Py.filter Py.isdigit_char (pre ++ Py.zfill 3 (Py.str n))
          = pre ++ Py.zfill 3 (Py.str n)) as Hf.
  { apply filter_id. revert Hall. apply all_chars_impl, decimal_is_digit. }
  assert (String.length (pre ++ Py.zfill 3 (Py.str n))
          = (String.length pre + 3)%nat) as Lb
    by now rewrite str_length_app, Lz.
  assert ((if (String.length (pre ++ Py.zfill 3 (Py.str n)) <? 12)%nat
           then Py.rjust 12 "0" (pre ++ Py.zfill 3 (Py.str n))
           else Py.last_chars 12 (pre ++ Py.zfill 3 (Py.str n)))
          = base12) as Hb.
  { subst base12. rewrite Eassoc.
    destruct (String.length (pre ++ Py.zfill 3 (Py.str n)) <? 12)%nat eqn:E.
    - unfold Py.rjust. rewrite Lb. f_equal. f_equal. lia.
    - apply Nat.ltb_ge in E.
      replace (9 - String.length pre)%nat with 0%nat by lia.
      unfold Py.last_chars. rewrite Lb.
      replace (String.length pre + 3 - 12)%nat with 0%nat by lia.
      replace 12%nat with (String.length (pre ++ Py.zfill 3 (Py.str n)))
        by lia.
      now rewrite substring_all. }
  unfold build_ean13. rewrite Hn, Eassoc, Hf, Hb.
  assert (String.length base12 = 12%nat) as L12.
  { rewrite <- Hb. apply base12_length. }
  assert (Py.all_chars Py.isdecimal base12 = true) as D12.
  { subst base12. rewrite all_chars_app, Eassoc, Hall.
    now rewrite all_chars_replicate. }
  destruct (checkdigit_of_twelve_digits base12 L12 D12) as [_ ->].
  reflexivity.
Qed.

Lemma build_ean13_keeps_all_digits_witness :
  build_ean13 "89" "1234" "2" "7" = Some "0089123420070".
Proof.
  exact (build_ean13_keeps_all_digits "89" "1234" "2" "7" 7
           eq_refl ltac:(lia) eq_refl ltac:(simpl; lia)).
Defined.

(** ** Loading and writing back *)

(** X4. Writing back the table [load_df] returned and loading again gives
    the same table, and from then on loading leaves the storage alone:
    the rewriting of the sequence column settles after one pass. *)
Theorem load_df_settles (st : storage) :
  let df := loaded st in
  let st' := snd (save_df df (snd (load_df st))) in
  fst (load_df st) = Some df
  /\ load_df st' = (Some df, st')
  /\ active st' = df
  /\ deleted st' = deleted st.
Proof.
  intros df st'. subst df st'. rewrite load_df_run. simpl fst. simpl snd.
  unfold save_df. simpl snd.
  rewrite load_df_run. split; [reflexivity |]. split; [| split].
  - f_equal.
    + f_equal. unfold loaded at 1, active. simpl. apply map_load_row_loaded.
    + apply ensured_present; simpl; [discriminate |].
      unfold ensured. simpl. destruct (deleted_data_file st); discriminate.
  - reflexivity.
  - unfold deleted. simpl. apply deleted_ensured.
Qed.

Lemma uint_of_string_decimal (s : string) :
  Py.all_chars Py.isdecimal s = true ->
  exists u, NilEmpty.uint_of_string s = Some u.
Proof.
  induction s as [| c s IH]; intros H; [now exists Nil |].
  simpl in H. apply andb_true_iff in H. destruct H as [Hc Hs].
  destruct (IH Hs) as [u Eu]. simpl. rewrite Eu.
  destruct c as [[|] [|] [|] [|] [|] [|] [|] [|]];
    try discriminate Hc; eexists; reflexivity.
Qed.

Lemma int_decimal_padded (k : nat) (x : string) :
  x <> "" -> Py.all_chars Py.isdecimal x = true ->
  exists n, 0 <= n /\ Py.int x = Some n
            /\ Py.int (Py.replicate k "0" ++ x) = Some n.
Proof.
  intros Hne H. destruct (uint_of_string_decimal x H) as [u Eu].
  exists (Z.of_uint u).
  assert (Py.all_chars Py.isdecimal (Py.replicate k "0" ++ x) = true) as Hp
    by now rewrite all_chars_app, H, all_chars_replicate.
  assert (Py.replicate k "0" ++ x <> "") as Hpne.
  { intros E. apply (f_equal String.length) in E.
    rewrite str_length_app in E.
    destruct x; [contradiction | simpl in E; lia]. }
  split; [unfold Z.of_uint; lia |]. split.
  - rewrite (int_unsigned x Hne H). unfold Py.parse_unsigned.
    rewrite (literal_digits_decimal x H false (or_introl Hne)), Eu.
    reflexivity.
  - rewrite (int_unsigned _ Hpne Hp). unfold Py.parse_unsigned.
    rewrite (literal_digits_decimal _ Hp false (or_introl Hpne)).
    rewrite uint_of_string_zeros, Eu. simpl. now rewrite of_uint_zeros.
Qed.

(** X5. A sequence cell made of decimal digits keeps its number when
    [load_df] pads it: the allocator reads the same value before and
    after, and the padded text has at least three characters. *)
Theorem load_spcode_keeps_number (x : string) :
  x <> "" ->
  Py.all_chars Py.isdecimal x = true ->
  exists n,
    0 <= n
    /\ spcode_num (Str x) = Some n
    /\ load_spcode (Str x) = Str (Py.zfill 3 x)
    /\ spcode_num (load_spcode (Str x)) = Some n
    /\ (3 <= String.length (Py.zfill 3 x))%nat.
Proof.
  intros Hne H.
  destruct (int_decimal_padded (3 - String.length x) x Hne H)
    as [n [Hn [Hi Hp]]].
  exists n.
  assert (spcode_num (Str x) = Some n) as S1.
  { unfold spcode_num. cbv zeta. cbn [Pd.astype_str].
    now rewrite (strip_decimal x H), (isdigit_decimal x Hne H). }
  assert (load_spcode (Str x) = Str (Py.zfill 3 x)) as L.
  { unfold load_spcode. cbn [Pd.fillna].
    now rewrite (strip_decimal x H), (isdigit_decimal x Hne H). }
  repeat split; try assumption.
  - rewrite L. unfold spcode_num. cbv zeta. cbn [Pd.astype_str].
    rewrite (zfill_unsigned 3 x Hne H).
    set (y := Py.replicate (3 - String.length x) "0" ++ x) in *.
    assert (Py.all_chars Py.isdecimal y = true) as Hy
      by (subst y; now rewrite all_chars_app, H, all_chars_replicate).
    assert (y <> "") as Hyne.
    { subst y. intros E. apply (f_equal String.length) in E.
      rewrite str_length_app in E.
      destruct x; [contradiction | simpl in E; lia]. }
    now rewrite (strip_decimal y Hy), (isdigit_decimal y Hyne Hy).
  - apply zfill_length.
Qed.

Lemma load_spcode_keeps_number_witness :
  exists n,
    0 <= n
    /\ spcode_num (Str "7") = Some n
    /\ load_spcode (Str "7") = Str (Py.zfill 3 "7")
    /\ spcode_num (load_spcode (Str "7")) = Some n
    /\ (3 <= String.length (Py.zfill 3 "7"))%nat.
Proof.
  exact (load_spcode_keeps_number "7" ltac:(discriminate) eq_refl).
Defined.

(** ** What the allocator returns *)

Lemma next_spcode_in_number (df : table) (b s : string) :
  exists k, 1 <= k /\ next_spcode_in df b s = Py.zfill 3 (Py.str k).
Proof.
  unfold next_spcode_in.
  destruct df as [| r0 df0]; [now exists 1 |].
  destruct (rows_of_pair b s (r0 :: df0)) as [| r sel]; [now exists 1 |].
  destruct (map_opt spcode_num (map SPCode (r :: sel))) as [[| n nums] |];
    try (now exists 1).
  destruct (max_list n nums + 1 <? 1) eqn:E.
  - now exists 1.
  - apply Z.ltb_ge in E. exists (max_list n nums + 1). now split.
Qed.

(** X6. Whatever the table holds, the allocator returns at least three
    decimal digits that read as a number of at least one: a text the
    SPCode field of the form accepts whenever that number is at most
    999. *)
Theorem next_spcode_in_digits (df : table) (b s : string) :
  exists k,
    1 <= k
    /\ Py.int (next_spcode_in df b s) = Some k
    /\ Py.all_chars Py.isdecimal (next_spcode_in df b s) = true
    /\ (3 <= String.length (next_spcode_in df b s))%nat
    /\ Py.isdigit (Py.strip (next_spcode_in df b s)) = true.
Proof.
  destruct (next_spcode_in_number df b s) as [k [Hk E]].
  destruct (zfill_str_nonneg 3 k ltac:(lia)) as [Hne [Hdec Hint]].
  exists k. rewrite E. repeat split; try assumption.
  - apply zfill_length.
  - rewrite (strip_decimal _ Hdec). now apply isdigit_decimal.
Qed.

Lemma next_spcode_in_exceeds (df : table) (b s : string) (r : row) (m : Z) :
  (forall x, In x (rows_of_pair b s df) -> spcode_num (SPCode x) <> None) ->
  In r (rows_of_pair b s df) ->
  spcode_num (SPCode r) = Some m ->
  exists k, m < k /\ 1 <= k /\ next_spcode_in df b s = Py.zfill 3 (Py.str k).
Proof.
  intros Hread Hr Hm.
  rewrite (next_spcode_in_readable df b s Hread). unfold Claimed.next_spcode.
  destruct (map Claimed.spcode_value (map SPCode (rows_of_pair b s df)))
    as [| v vs] eqn:Ev.
  - apply (f_equal (@List.length Z)) in Ev. rewrite !length_map in Ev.
    destruct (rows_of_pair b s df); [contradiction | discriminate].
  - assert (In m (v :: vs)) as Hin.
    { rewrite <- Ev. apply in_map_iff. exists (SPCode r). split.
      - pose proof (spcode_num_value (SPCode r)) as Hv.
        rewrite Hm in Hv. specialize (Hv ltac:(discriminate)). congruence.
      - now apply in_map. }
    pose proof (max_list_ge vs v m Hin) as Hmax.
    exists (Z.max 1 (max_list v vs + 1)). repeat split; lia.
Qed.

(** X7. When every sequence cell of the pair is one the allocator can read,
    the number it returns is greater than each of them: it is not in use
    by an active product of the pair. *)
Theorem next_spcode_in_fresh (df : table) (b s : string) (r : row) (m : Z) :
  (forall x, In x (rows_of_pair b s df) -> spcode_num (SPCode x) <> None) ->
  In r (rows_of_pair b s df) ->
  spcode_num (SPCode r) = Some m ->
  exists k, m < k /\ Py.int (next_spcode_in df b s) = Some k
            /\ next_spcode_in df b s <> Pd.astype_str (SPCode r).
Proof.
  intros Hread Hr Hm.
  destruct (next_spcode_in_exceeds df b s r m Hread Hr Hm) as [k [Hk [H1 E]]].
  exists k. rewrite E. split; [exact Hk |]. split.
  - apply int_zfill_str.
  - intros Eq. symmetry in Eq. apply spcode_num_of_padded in Eq; [| lia].
    rewrite Hm in Eq. injection Eq as Eq. lia.
Qed.

Lemma next_spcode_in_fresh_witness :
  exists k, 2 < k
            /\ Py.int (next_spcode_in [sample_row "VE" "6060" "0" "001" "";
                                       sample_row "VE" "6060" "1" "002" ""]
                                      "VE" "6060") = Some k
            /\ next_spcode_in [sample_row "VE" "6060" "0" "001" "";
                               sample_row "VE" "6060" "1" "002" ""]
                              "VE" "6060"
               <> Pd.astype_str (SPCode (sample_row "VE" "6060" "1" "002" "")).
Proof.
  apply (next_spcode_in_fresh
           [sample_row "VE" "6060" "0" "001" "";
            sample_row "VE" "6060" "1" "002" ""]
           "VE" "6060" (sample_row "VE" "6060" "1" "002" "") 2).
  - intros x Hx. cbv [rows_of_pair List.filter] in Hx. simpl in Hx.
    destruct Hx as [<- | [<- | []]]; discriminate.
  - right. left. reflexivity.
  - reflexivity.
Defined.

(** ** Deleting twice *)

Lemma rows_with_sku_gone (sku : string) (df : table) :
  sku <> "nan" ->
  rows_with_sku sku (List.filter (fun x => Pd.ne (SKU x) sku) df) = [].
Proof.
  intros Hnan. unfold rows_with_sku.
  induction df as [| r df IH]; [reflexivity |].
  cbn [List.filter]. destruct (Pd.ne (SKU r) sku) eqn:E; [| exact IH].
  cbn [List.filter]. rewrite IH.
  destruct (String.eqb_spec (Pd.astype_str (SKU r)) sku) as [Es |];
    [| reflexivity].
  exfalso. unfold Pd.ne, Pd.eq in E. destruct (SKU r) as [t |]; simpl in Es.
  - subst t. now rewrite String.eqb_refl in E.
  - now apply Hnan.
Qed.

(** X9. After a deletion no active row carries the SKU any more, and asking
    for the same deletion again reports that the product is not found and
    changes nothing. (The text "nan" is set apart: it also selects rows
    whose SKU cell is empty, which a deletion leaves in place.) *)
Theorem delete_product_twice (sku : string) (st : storage) :
  sku <> "nan" ->
  let st1 := snd (delete_product sku st) in
  rows_with_sku sku (loaded st1) = []
  /\ delete_product sku st1 = (Some NotFound, st1).
Proof.
  intros Hnan st1.
  assert (rows_with_sku sku (loaded st1) = [] /\ ensured st1 = st1) as [H1 H2].
  { subst st1.
    destruct (rows_with_sku sku (loaded st)) as [| r rest] eqn:E.
    - rewrite (delete_product_not_found sku st E). simpl snd.
      now rewrite loaded_ensured, ensured_idem.
    - rewrite (loaded_after_delete sku st r rest E).
      rewrite (delete_product_run sku st r rest E). simpl snd.
      split; [now apply rows_with_sku_gone |].
      apply ensured_present; discriminate. }
  split; [exact H1 |].
  rewrite (delete_product_not_found sku st1 H1). now rewrite H2.
Qed.

Lemma delete_product_twice_witness :
  let st1 := snd (delete_product "VE60600001"
                   (storage_of [sample_row "VE" "6060" "0" "001" ""])) in
  rows_with_sku "VE60600001" (loaded st1) = []
  /\ delete_product "VE60600001" st1 = (Some NotFound, st1).
Proof.
  exact (delete_product_twice "VE60600001"
           (storage_of [sample_row "VE" "6060" "0" "001" ""])
           ltac:(discriminate)).
Defined.

(** ** The handlers and the SKU column *)

Lemma add_notes_run (sku : string) (typed : option string) (st : storage) :
  add_notes sku typed st
  = match rows_with_sku sku (loaded st) with
    | [] => (Some NotesNotFound, ensured st)
    | r :: _ =>
        match match typed with
              | Some t => notes_on_ok (Notes r) t
              | None => None
              end with
        | None => (Some NotesUnchanged, ensured st)
        | Some v =>
            (Some NotesAdded,
             mkStorage (Some (assign_Notes sku v (loaded st)))
                       (deleted_data_file (ensured st)))
        end
    end.
Proof.
  unfold add_notes, bind. rewrite load_df_run.
  destruct (rows_with_sku sku (loaded st)) as [| r rest]; [reflexivity |].
  destruct typed as [t |]; [| reflexivity].
  now destruct (notes_on_ok (Notes r) t).
Qed.

Lemma sku_column_map (g : row -> row) (t : table) :
  (forall r, SKU (g r) = SKU r) ->
  map (fun r => Pd.astype_str (SKU r)) (map g t)
  = map (fun r => Pd.astype_str (SKU r)) t.
Proof.
  intros H. rewrite map_map. apply map_ext. intros r. now rewrite H.
Qed.

Lemma sku_unique_map (g : row -> row) (t : table) :
  (forall r, SKU (g r) = SKU r) -> sku_unique t -> sku_unique (map g t).
Proof. intros H. unfold sku_unique. now rewrite (sku_column_map g t H). Qed.

Lemma sku_unique_filter (p : row -> bool) (t : table) :
  sku_unique t -> sku_unique (List.filter p t).
Proof.
  unfold sku_unique. induction t as [| r t IH]; intros H; [constructor |].
  simpl in H. inversion H as [| x l Hnin Hnd]; subst.
  simpl. destruct (p r); [| now apply IH].
  simpl. constructor; [| now apply IH].
  intros Hin. apply Hnin. apply in_map_iff in Hin.
  destruct Hin as [r' [E Hr']]. apply filter_In in Hr'.
  apply in_map_iff. exists r'. tauto.
Qed.

Lemma mem_false_not_In (x : string) (l : list string) :
  mem x l = false -> ~ In x l.
Proof. intros H Hin. now rewrite (mem_In x l Hin) in H. Qed.

Lemma assign_ImagePaths_SKU (sku v : string) (r : row) :
  SKU (if Pd.eq (SKU r) sku then set_ImagePaths (Str v) r else r) = SKU r.
Proof. now destruct (Pd.eq (SKU r) sku). Qed.

Lemma assign_Notes_SKU (sku v : string) (r : row) :
  SKU (if Pd.eq (SKU r) sku then set_Notes (Str v) r else r) = SKU r.
Proof. now destruct (Pd.eq (SKU r) sku). Qed.

Lemma sku_unique_loaded_of (t : table) (d : option table) :
  sku_unique t -> sku_unique (loaded (mkStorage (Some t) d)).
Proof. unfold loaded, active. simpl. now apply sku_unique_map. Qed.

(** X11. No handler that writes the active table puts a SKU in it twice: if
    the SKU column of the loaded table has no duplicates, it has none
    after [save_product], [delete_product], [delete_image_from_product]
    or [add_notes], whatever their arguments and outcome. *)
Theorem handlers_keep_sku_unique (st : storage) :
  sku_unique (loaded st) ->
  (forall e f, sku_unique (loaded (snd (save_product e f st))))
  /\ (forall sku, sku_unique (loaded (snd (delete_product sku st))))
  /\ (forall sku p,
        sku_unique (loaded (snd (delete_image_from_product sku p st))))
  /\ (forall sku typed, sku_unique (loaded (snd (add_notes sku typed st)))).
Proof.
  intros U.
  assert (sku_unique (loaded (ensured st))) as Ue
    by now rewrite loaded_ensured.
  split; [| split; [| split]].
  - intros e f.
    destruct (validate_inputs f) as [[d | err] |] eqn:V.
    + rewrite (save_product_valid e f d st V).
      destruct (build_ean13 _ _ _ _) as [ean13 |]; [| exact Ue].
      destruct (mem _ _) eqn:M; [exact Ue |].
      simpl snd. apply sku_unique_loaded_of.
      unfold sku_unique. rewrite map_app. simpl.
      apply NoDup_app; [exact U | repeat constructor; intros [] |].
      intros x Hx [<- | []]. exact (mem_false_not_In _ _ M Hx).
    + now rewrite (save_product_invalid e f err st V).
    + unfold save_product, bind, lift. now rewrite V.
  - intros sku.
    destruct (rows_with_sku sku (loaded st)) as [| r rest] eqn:E.
    + now rewrite (delete_product_not_found sku st E).
    + rewrite (loaded_after_delete sku st r rest E).
      now apply sku_unique_filter.
  - intros sku p. rewrite delete_image_from_product_run.
    destruct (rows_with_sku sku (loaded st)) as [| r rest]; [exact Ue |].
    destruct (mem p (images_of r)); [| exact Ue].
    simpl snd. apply sku_unique_loaded_of.
    apply sku_unique_map; [| exact U].
    intros x. apply assign_ImagePaths_SKU.
  - intros sku typed. rewrite add_notes_run.
    destruct (rows_with_sku sku (loaded st)) as [| r rest]; [exact Ue |].
    destruct (match typed with Some t => notes_on_ok (Notes r) t | None => None end);
      [| exact Ue].
    simpl snd. apply sku_unique_loaded_of.
    apply sku_unique_map; [| exact U].
    intros x. apply assign_Notes_SKU.
Qed.

Lemma handlers_keep_sku_unique_witness :
  let st := storage_of [sample_row "VE" "6060" "0" "001" "";
                        sample_row "VE" "6060" "1" "002" ""] in
  (forall e f, sku_unique (loaded (snd (save_product e f st))))
  /\ (forall sku, sku_unique (loaded (snd (delete_product sku st))))
  /\ (forall sku p,
        sku_unique (loaded (snd (delete_image_from_product sku p st))))
  /\ (forall sku typed, sku_unique (loaded (snd (add_notes sku typed st)))).
Proof.
  apply (handlers_keep_sku_unique
           (storage_of [sample_row "VE" "6060" "0" "001" "";
                        sample_row "VE" "6060" "1" "002" ""])).
  unfold sku_unique. simpl.
  repeat constructor; simpl; intuition discriminate.
Defined.

(** ** Image lists: what is written is what is read *)

Lemma split_nonempty (sep : ascii) (s : string) : split sep s <> [].
Proof.
  destruct s as [| c s]; simpl; [discriminate |].
  destruct (Ascii.eqb c sep); [discriminate |].
  destruct (split sep s); discriminate.
Qed.

Lemma split_no_sep (x : string) : no_semicolon x = true -> split ";" x = [x].
Proof.
  unfold no_semicolon. induction x as [| c x IH]; intros H; [reflexivity |].
  simpl in H. apply andb_true_iff in H. destruct H as [Hc Hx].
  apply negb_true_iff in Hc. simpl. now rewrite Hc, (IH Hx).
Qed.

Lemma split_app_sep (x rest : string) :
  no_semicolon x = true ->
  split ";" (x ++ String ";" rest) = x :: split ";" rest.
Proof.
  unfold no_semicolon. induction x as [| c x IH]; intros H; [reflexivity |].
  simpl in H. apply andb_true_iff in H. destruct H as [Hc Hx].
  apply negb_true_iff in Hc.
  cbn [String.append split]. now rewrite Hc, (IH Hx).
Qed.

Lemma join_cons_char (sep : string) (c : ascii) (y : string) (ys : list string) :
  Py.join sep (String c y :: ys) = String c (Py.join sep (y :: ys)).
Proof. now destruct ys. Qed.

(** Joining what [split] returned gives the text back. *)
Lemma join_split (s : string) : Py.join ";" (split ";" s) = s.
Proof.
  induction s as [| c s IH]; [reflexivity |].
  cbn [split]. destruct (Ascii.eqb_spec c ";") as [-> | Hc].
  - destruct (split ";" s) as [| y ys] eqn:E;
      [now destruct (split_nonempty ";" s) |].
    cbn [Py.join]. now rewrite <- IH.
  - destruct (split ";" s) as [| y ys] eqn:E;
      [now destruct (split_nonempty ";" s) |].
    rewrite join_cons_char. now rewrite IH.
Qed.

Lemma split_join (l : list string) :
  l <> [] ->
  Forall (fun x => no_semicolon x = true) l ->
  split ";" (Py.join ";" l) = l.
Proof.
  induction l as [| x l IH]; intros Hne H; [contradiction |].
  inversion H as [| ? ? Hx Hl]; subst.
  destruct l as [| y l].
  - apply split_no_sep, Hx.
  - change (Py.join ";" (x :: y :: l))
      with (x ++ String ";" (Py.join ";" (y :: l))).
    rewrite (split_app_sep x _ Hx), IH; [reflexivity | discriminate | exact Hl].
Qed.

Lemma join_nonempty (l : list string) :
  l <> [] -> Forall (fun x => x <> "") l -> Py.join ";" l <> "".
Proof.
  destruct l as [| x l]; intros Hne H; [contradiction |].
  inversion H as [| ? ? Hx _]; subst.
  destruct x as [| c x]; [contradiction |].
  destruct l; simpl; discriminate.
Qed.

Lemma images_of_join (r : row) (l : list string) :
  Forall (fun x => x <> "") l ->
  Forall (fun x => no_semicolon x = true) l ->
  images_of (set_ImagePaths (Str (Py.join ";" l)) r) = l.
Proof.
  intros Hne Hsemi. unfold images_of. cbn [ImagePaths set_ImagePaths].
  destruct l as [| x l]; [reflexivity |].
  pose proof (join_nonempty (x :: l) ltac:(discriminate) Hne) as Hj.
  cbn [Pd.truthy Pd.astype_str].
  destruct (Py.join ";" (x :: l)) eqn:E; [contradiction |].
  rewrite <- E. apply split_join; [discriminate | exact Hsemi].
Qed.

(** X13. A row whose ImagePaths cell holds the join with ";" of a
    non-empty list of paths, none of them empty or holding a semicolon,
    is read by every reader of the cell as exactly that list, in order;
    and joining with ";" the list read from any text cell gives the cell
    text back. *)
Theorem image_paths_round_trip (r : row) (l : list string) :
  l <> [] ->
  Forall (fun x => x <> "") l ->
  Forall (fun x => no_semicolon x = true) l ->
  ImagePaths r = Str (Py.join ";" l) ->
  images_of r = l
  /\ (forall r' x, ImagePaths r' = Str x ->
                   Py.join ";" (images_of r') = x).
Proof.
  intros Hl Hne Hsemi E. split.
  - rewrite <- (images_of_join r l Hne Hsemi).
    unfold images_of. cbn [ImagePaths set_ImagePaths]. now rewrite E.
  - intros r' x Ex. unfold images_of. rewrite Ex.
    destruct x as [| c x]; [reflexivity |].
    cbn [Pd.truthy Pd.astype_str]. apply join_split.
Qed.

Lemma image_paths_round_trip_witness :
  let r := set_ImagePaths
             (Str "images/VE60600001/001_face01_01.png;images/VE60600001/001_barcode.png")
             (sample_row "VE" "6060" "0" "001" "") in
  images_of r = ["images/VE60600001/001_face01_01.png";
                 "images/VE60600001/001_barcode.png"]
  /\ (forall r' x, ImagePaths r' = Str x ->
                   Py.join ";" (images_of r') = x).
Proof.
  apply (image_paths_round_trip
           (set_ImagePaths
              (Str "images/VE60600001/001_face01_01.png;images/VE60600001/001_barcode.png")
              (sample_row "VE" "6060" "0" "001" ""))
           ["images/VE60600001/001_face01_01.png";
            "images/VE60600001/001_barcode.png"]).
  - discriminate.
  - repeat constructor; discriminate.
  - repeat constructor.
  - reflexivity.
Defined.

(** ** Editing one column *)

Lemma same_but_ImagePaths_refl (r : row) : same_but_ImagePaths r r.
Proof. now destruct r. Qed.

Lemma same_but_Notes_refl (r : row) : same_but_Notes r r.
Proof. now destruct r. Qed.

Lemma Forall2_map_r {A} (P : A -> A -> Prop) (g : A -> A) (l : list A) :
  (forall x, P x (g x)) -> Forall2 P l (map g l).
Proof. intros H. induction l; simpl; constructor; auto. Qed.

Lemma loaded_of_edit (g : row -> row) (st : storage) (d : option table) :
  (forall r, load_row (g r) = g (load_row r)) ->
  loaded (mkStorage (Some (map g (loaded st))) d) = map g (loaded st).
Proof.
  intros H. unfold loaded at 1, active. simpl.
  rewrite map_map. unfold loaded. rewrite !map_map.
  apply map_ext. intros r. now rewrite H, load_row_idem.
Qed.


(** X14. [delete_image_from_product] touches nothing but the ImagePaths
    column of the rows that carry the SKU as text: the loaded table keeps
    its rows in number and order, every other cell of every row, and the
    rows of other SKUs entirely; the deleted table is left alone. *)
Theorem delete_image_from_product_frame
  (sku img_path : string) (st : storage) :
  let st' := snd (delete_image_from_product sku img_path st) in
  Forall2 (fun r r' => same_but_ImagePaths r r'
                       /\ (SKU r <> Str sku -> r' = r))
          (loaded st) (loaded st')
  /\ deleted st' = deleted st.
Proof.
  intros st'. subst st'. rewrite delete_image_from_product_run.
  assert (Forall2 (fun r r' => same_but_ImagePaths r r'
                               /\ (SKU r <> Str sku -> r' = r))
                  (loaded st) (loaded (ensured st))
          /\ deleted (ensured st) = deleted st) as Same.
  { rewrite loaded_ensured, deleted_ensured. split; [| reflexivity].
    rewrite <- (map_id (loaded st)) at 2.
    apply Forall2_map_r. intros r. split; [| reflexivity].
    apply same_but_ImagePaths_refl. }
  destruct (rows_with_sku sku (loaded st)) as [| r rest]; [exact Same |].
  destruct (mem img_path (images_of r)); [| exact Same].
  simpl snd. split.
  - unfold assign_ImagePaths. rewrite loaded_of_edit.
    + apply Forall2_map_r. intros x.
      unfold Pd.eq. destruct (SKU x) as [t |] eqn:Ex.
      * destruct (String.eqb_spec t sku) as [-> | Hn].
        -- split; [now destruct x | intros Hc; now destruct Hc].
        -- split; [apply same_but_ImagePaths_refl | reflexivity].
      * split; [apply same_but_ImagePaths_refl | reflexivity].
    + intros x. change (SKU (load_row x)) with (SKU x).
      now destruct (Pd.eq (SKU x) sku).
  - unfold deleted. simpl. apply deleted_ensured.
Qed.

(** X16. [add_notes] touches nothing but the Notes column of the rows that
    carry the SKU as text, and a blank or cancelled note changes no row
    at all. *)
Theorem add_notes_frame (sku : string) (typed : option string) (st : storage) :
  let st' := snd (add_notes sku typed st) in
  Forall2 (fun r r' => same_but_Notes r r' /\ (SKU r <> Str sku -> r' = r))
          (loaded st) (loaded st')
  /\ deleted st' = deleted st
  /\ (fst (add_notes sku typed st) <> Some NotesAdded ->
      loaded st' = loaded st /\ active st' = active st).
Proof.
  intros st'. subst st'. rewrite add_notes_run.
  assert (Forall2 (fun r r' => same_but_Notes r r'
                               /\ (SKU r <> Str sku -> r' = r))
                  (loaded st) (loaded (ensured st))
          /\ deleted (ensured st) = deleted st
          /\ (loaded (ensured st) = loaded st
              /\ active (ensured st) = active st)) as Same.
  { rewrite loaded_ensured, deleted_ensured, active_ensured.
    split; [| now repeat split].
    rewrite <- (map_id (loaded st)) at 2.
    apply Forall2_map_r. intros r. split; [| reflexivity].
    apply same_but_Notes_refl. }
  destruct (rows_with_sku sku (loaded st)) as [| r rest];
    [simpl; tauto |].
  destruct (match typed with Some t => notes_on_ok (Notes r) t | None => None end);
    [| simpl; tauto].
  simpl fst. simpl snd. split; [| split].
  - unfold assign_Notes. rewrite loaded_of_edit.
    + apply Forall2_map_r. intros x.
      unfold Pd.eq. destruct (SKU x) as [t |] eqn:Ex.
      * destruct (String.eqb_spec t sku) as [-> | Hn].
        -- split; [now destruct x | intros Hc; now destruct Hc].
        -- split; [apply same_but_Notes_refl | reflexivity].
      * split; [apply same_but_Notes_refl | reflexivity].
    + intros x. change (SKU (load_row x)) with (SKU x).
      now destruct (Pd.eq (SKU x) sku).
  - unfold deleted. simpl. apply deleted_ensured.
  - intros H. now destruct H.
Qed.

(** No entry of a list read from a cell holds a semicolon, and removing
    an entry keeps what holds of every entry. *)
Lemma split_no_semicolon (s : string) :
  Forall (fun x => no_semicolon x = true) (split ";" s).
Proof.
  induction s as [| c s IH]; [repeat constructor |].
  cbn [split]. destruct (Ascii.eqb c ";") eqn:Hc.
  - constructor; [reflexivity | exact IH].
  - destruct (split ";" s) as [| y ys]; [repeat constructor |].
    + unfold no_semicolon. simpl. now rewrite Hc.
    + inversion IH as [| ? ? Hy Hys]; subst. constructor; [| exact Hys].
      unfold no_semicolon in *. simpl. now rewrite Hc, Hy.
Qed.

Lemma images_of_no_semicolon (r : row) :
  Forall (fun x => no_semicolon x = true) (images_of r).
Proof.
  unfold images_of. destruct (Pd.truthy (ImagePaths r)); [| constructor].
  apply split_no_semicolon.
Qed.

Lemma Forall_remove_first (P : string -> Prop) (x : string) (l : list string) :
  Forall P l -> Forall P (remove_first x l).
Proof.
  induction l as [| y l IH]; intros H; [constructor |].
  inversion H; subst. simpl. destruct (String.eqb y x); [assumption |].
  constructor; auto.
Qed.

(** ** What validation lets through *)

Lemma lookup_size_width (k v : string) :
  lookup k SIZES = Some v -> String.length v = 4%nat.
Proof.
  unfold lookup, SIZES.
  repeat match goal with
         | |- context [if ?x then _ else _] => destruct x
         end; intros [= <-]; reflexivity.
Qed.

Lemma lookup_brand_width (k : string) (v : string * string) :
  lookup k BRAND_LIST = Some v -> String.length k = 2%nat.
Proof.
  unfold lookup, BRAND_LIST.
  repeat match goal with
         | |- context [if String.eqb ?a k then _ else _] =>
             destruct (String.eqb_spec a k) as [<- |]; [reflexivity |]
         end.
  discriminate.
Qed.

Lemma validated_widths (f : form) (d : data) :
  validate_inputs f = Some (inl d) ->
  String.length (brand_code d) = 2%nat
  /\ String.length (size_code d) = 4%nat
  /\ String.length (matt_polished d) = 1%nat
  /\ String.length (spcode d) = 3%nat
  /\ Py.all_chars Py.isdecimal (spcode d) = true.
Proof.
  intros V. destruct (validated_data f d V) as [[n [Hn E]] _].
  revert V. unfold validate_inputs. intros H.
  split_validation H.
  injection H as <-.
  cbn [brand_code size_code matt_polished spcode] in *.
  repeat split.
  - match goal with
    | Hl : lookup _ BRAND_LIST = Some _ |- _ =>
        exact (lookup_brand_width _ _ Hl)
    end.
  - match goal with
    | Hl : lookup _ SIZES = Some _ |- _ => exact (lookup_size_width _ _ Hl)
    end.
  - match goal with
    | Hm : negb (mem ?m _) = false |- _ =>
        apply negb_false_iff in Hm; unfold mem in Hm; simpl in Hm;
        destruct (String.eqb_spec m "0") as [-> |]; [reflexivity |];
        destruct (String.eqb_spec m "1") as [-> |]; [reflexivity |];
        discriminate Hm
    end.
  - rewrite E. apply zfill3_length. lia.
  - rewrite E. apply zfill_str_nonneg. lia.
Qed.

Lemma str_app_inj (a a' b b' : string) :
  String.length a = String.length a' ->
  a ++ b = a' ++ b' -> a = a' /\ b = b'.
Proof.
  revert a'. induction a as [| c a IH]; intros [| c' a'] L E;
    try discriminate L.
  - now split.
  - simpl in L, E. injection E as -> E. injection L as L.
    destruct (IH a' L E) as [-> ->]. now split.
Qed.

(** X17. Validated data has codes of fixed width (two characters of brand,
    four of size, one of finish, three digits of sequence), so its SKU
    has ten characters and can be read back: two validated forms that
    build the same SKU agree on brand, size, finish and sequence. *)
Theorem validated_sku_injective (f1 f2 : form) (d1 d2 : data) :
  validate_inputs f1 = Some (inl d1) ->
  validate_inputs f2 = Some (inl d2) ->
  build_sku (brand_code d1) (size_code d1) (matt_polished d1) (spcode d1)
  = build_sku (brand_code d2) (size_code d2) (matt_polished d2) (spcode d2) ->
  brand_code d1 = brand_code d2
  /\ size_code d1 = size_code d2
  /\ matt_polished d1 = matt_polished d2
  /\ spcode d1 = spcode d2
  /\ exists sku,
       build_sku (brand_code d1) (size_code d1) (matt_polished d1) (spcode d1)
       = Some sku
       /\ String.length sku = 10%nat.
Proof.
  intros V1 V2 E.
  rewrite (build_sku_validated f1 d1 V1), (build_sku_validated f2 d2 V2) in E.
  injection E as E.
  destruct (validated_widths f1 d1 V1) as [B1 [S1 [M1 [Q1 _]]]].
  destruct (validated_widths f2 d2 V2) as [B2 [S2 [M2 [Q2 _]]]].
  destruct (str_app_inj _ _ _ _ (eq_trans B1 (eq_sym B2)) E) as [Eb E1].
  destruct (str_app_inj _ _ _ _ (eq_trans S1 (eq_sym S2)) E1) as [Es E2].
  destruct (str_app_inj _ _ _ _ (eq_trans M1 (eq_sym M2)) E2) as [Em Eq].
  repeat split; try assumption.
  eexists. split; [apply (build_sku_validated f1 d1 V1) |].
  rewrite !str_length_app, B1, S1, M1, Q1. reflexivity.
Qed.

Lemma validated_sku_injective_witness :
  let d1 := sample_data in
  let d2 := mkData "VE" "Vesta" "0" "60x60" "6060"
                   "White Body, Deep Color" "WD" "0" "001"
                   "Nobilis Grey Slate" 4 "LOT26007" "89" "4006381"
                   "second entry" in
  d1 <> d2
  /\ brand_code d1 = brand_code d2
  /\ size_code d1 = size_code d2
  /\ matt_polished d1 = matt_polished d2
  /\ spcode d1 = spcode d2
  /\ exists sku,
       build_sku (brand_code d1) (size_code d1) (matt_polished d1) (spcode d1)
       = Some sku
       /\ String.length sku = 10%nat.
Proof.
  split; [discriminate |].
  exact (validated_sku_injective
           sample_form
           (mkForm "VE" "60x60"
                   (fun l => String.eqb l "White Body"
                             || String.eqb l "Deep Color")
                   "0" " 001 " "4" "LOT26007" "89" "4006381"
                   "Nobilis Grey Slate" "second entry")
           sample_data
           (mkData "VE" "Vesta" "0" "60x60" "6060"
                   "White Body, Deep Color" "WD" "0" "001"
                   "Nobilis Grey Slate" 4 "LOT26007" "89" "4006381"
                   "second entry")
           eq_refl eq_refl eq_refl).
Defined.

(** ** The batch code *)

(** X19. The batch test of [validate_inputs] accepts exactly the eight
    character codes made of LOT, two digit characters and three digit
    characters; validation lets a form through only with an empty batch
    or such a code. *)
Theorem batch_ok_iff (b : string) :
  (batch_ok b = true <->
   exists y n, b = "LOT" ++ y ++ n
               /\ String.length y = 2%nat /\ String.length n = 3%nat
               /\ Py.isdigit y = true /\ Py.isdigit n = true)
  /\ (forall f d, validate_inputs f = Some (inl d) ->
                  batch d = "" \/ batch_ok (batch d) = true).
Proof.
  split; [split |].
  - unfold batch_ok, startswith. intros H.
    apply andb_true_iff in H. destruct H as [H Hn].
    apply andb_true_iff in H. destruct H as [H Hy].
    apply andb_true_iff in H. destruct H as [Hp Hl].
    apply Nat.eqb_eq in Hl.
    do 8 (destruct b as [| ? b]; [discriminate Hl |]).
    destruct b; [| discriminate Hl].
    apply prefix_correct in Hp. simpl in Hp. injection Hp as -> -> ->.
    eexists (String _ (String _ EmptyString)).
    eexists (String _ (String _ (String _ EmptyString))).
    repeat split; assumption.
  - intros [y [n [-> [Ly [Ln [Hy Hn]]]]]].
    do 2 (destruct y as [| ? y]; [discriminate Ly |]).
    destruct y; [| discriminate Ly].
    do 3 (destruct n as [| ? n]; [discriminate Ln |]).
    destruct n; [| discriminate Ln].
    unfold batch_ok, startswith.
    change (substring 3 2 ("LOT" ++ String a (String a0 "")
                           ++ String a1 (String a2 (String a3 ""))))
      with (String a (String a0 "")).
    change (substring 5 3 ("LOT" ++ String a (String a0 "")
                           ++ String a1 (String a2 (String a3 ""))))
      with (String a1 (String a2 (String a3 ""))).
    rewrite Hy, Hn. reflexivity.
  - intros f d V. revert V. unfold validate_inputs. intros H.
    split_validation H. injection H as <-. cbn [batch].
    match goal with
    | Hb : negb (String.eqb ?x "") && negb (batch_ok ?x) = false |- _ =>
        apply andb_false_iff in Hb; destruct Hb as [Hb | Hb];
        apply negb_false_iff in Hb;
        [left; now apply String.eqb_eq | now right]
    end.
Qed.

(** The example the batch message gives is not a code the test accepts. *)
Example batch_message_example : batch_ok "LOT2026001" = false
                                /\ batch_ok "LOT26001" = true.
Proof. split; reflexivity. Qed.

(** ** Saving, then allocating *)

Lemma validated_spcode_var (f : form) (d : data) :
  validate_inputs f = Some (inl d) ->
  exists n, 1 <= n <= 999
            /\ Py.int (Py.strip (spcode_var f)) = Some n
            /\ spcode d = Py.zfill 3 (Py.str n)
            /\ brand_code d = brand_var f.
Proof.
  unfold validate_inputs. intros H.
  split_validation H. injection H as <-. cbn [spcode brand_code].
  match goal with
  | Hr : negb ((1 <=? ?z) && (?z <=? 999)) = false |- _ =>
      exists z; apply negb_false_iff, andb_true_iff in Hr;
      destruct Hr as [H1 H2]; apply Z.leb_le in H1, H2;
      repeat split; assumption
  end.
Qed.

Lemma loaded_after_save (e : env) (f : form) (d : data) (st : storage)
  (sku ean13 : string) :
  validate_inputs f = Some (inl d) ->
  fst (save_product e f st) = Some (Saved sku ean13) ->
  sku = brand_code d ++ size_code d ++ matt_polished d ++ spcode d
  /\ loaded (snd (save_product e f st))
     = (loaded st ++ [new_row e d sku ean13])%list.
Proof.
  intros V Hs. rewrite (save_product_valid e f d st V) in *.
  destruct (build_ean13 _ _ _ _) as [c |]; [| discriminate Hs].
  destruct (mem _ _); [discriminate Hs |].
  simpl in Hs. injection Hs as <- <-. split; [reflexivity |].
  simpl snd. unfold loaded at 1, active. simpl.
  rewrite map_app, map_load_row_loaded. simpl.
  now rewrite (load_row_new_row e f d _ c V).
Qed.

(** X20. Once a product is saved, the allocator for its pair moves past its
    sequence number (as long as it can read the sequence cells of the
    pair): the number just stored is not handed out again. *)
Theorem save_product_then_allocate
  (e : env) (f : form) (d : data) (st : storage) (sku ean13 : string) :
  validate_inputs f = Some (inl d) ->
  fst (save_product e f st) = Some (Saved sku ean13) ->
  let st' := snd (save_product e f st) in
  (forall x, In x (rows_of_pair (brand_code d) (size_code d) (loaded st')) ->
             spcode_num (SPCode x) <> None) ->
  exists n k,
    Py.int (spcode d) = Some n
    /\ n < k
    /\ next_spcode_for (brand_code d) (size_code d) st'
       = (Some (Py.zfill 3 (Py.str k)), st')
    /\ Py.zfill 3 (Py.str k) <> spcode d.
Proof.
  intros V Hs st' Hread.
  destruct (validated_data f d V) as [[n [Hn E]] _].
  destruct (loaded_after_save e f d st sku ean13 V Hs) as [Hsku Hl].
  fold st' in Hl.
  assert (In (new_row e d sku ean13)
             (rows_of_pair (brand_code d) (size_code d) (loaded st'))) as Hin.
  { unfold rows_of_pair. apply filter_In. split.
    - rewrite Hl. apply in_or_app. right. now left.
    - cbn [BrandCode SizeCode new_row]. unfold Pd.eq.
      now rewrite !String.eqb_refl. }
  assert (spcode_num (SPCode (new_row e d sku ean13)) = Some n) as Hnum.
  { apply spcode_num_of_padded; [lia |]. exact E. }
  destruct (next_spcode_in_exceeds _ _ _ _ n Hread Hin Hnum)
    as [k [Hk [_ Ek]]].
  exists n, k. split; [rewrite E; apply int_zfill_str |].
  split; [exact Hk |]. split.
  - rewrite next_spcode_for_run, Ek. f_equal.
    subst st'. rewrite (save_product_valid e f d st V) in *.
    destruct (build_ean13 _ _ _ _); [| discriminate Hs].
    destruct (mem _ _); [discriminate Hs |].
    apply ensured_present; simpl; [discriminate |].
    unfold ensured. simpl. destruct (deleted_data_file st); discriminate.
  - rewrite E. intros Eq.
    pose proof (int_zfill_str 3 k) as Ik. rewrite Eq, int_zfill_str in Ik.
    injection Ik as Ik. lia.
Qed.

Lemma save_product_then_allocate_witness :
  let st' := snd (save_product sample_env sample_form (storage_of [])) in
  exists n k,
    Py.int (spcode sample_data) = Some n
    /\ n < k
    /\ next_spcode_for (brand_code sample_data) (size_code sample_data) st'
       = (Some (Py.zfill 3 (Py.str k)), st')
    /\ Py.zfill 3 (Py.str k) <> spcode sample_data.
Proof.
  apply (save_product_then_allocate sample_env sample_form sample_data
           (storage_of []) "VE60600001" "8931234500016").
  - reflexivity.
  - reflexivity.
  - intros x Hx. vm_compute in Hx. destruct Hx as [<- | []].
    vm_compute. discriminate.
Defined.

(** ** Tables of well-formed rows *)

Lemma well_formed_readable (r : row) :
  row_well_formed r ->
  exists n, 0 <= n /\ SPCode r = Str (Py.zfill 3 (Py.str n))
            /\ spcode_num (SPCode r) = Some n.
Proof.
  intros [b [s [m [n [_ [_ [_ [_ [_ [_ [Hn [Hq _]]]]]]]]]]]].
  exists n. repeat split; try assumption.
  apply spcode_num_of_padded; [exact Hn | now rewrite Hq].
Qed.

Lemma load_row_well_formed (r : row) : row_well_formed r -> load_row r = r.
Proof.
  intros [b [s [m [n [_ [_ [_ [_ [_ [_ [Hn [Hq _]]]]]]]]]]]].
  assert (load_spcode (SPCode r) = SPCode r) as E.
  { rewrite Hq. unfold load_spcode. cbn [Pd.fillna].
    destruct (Py.isdigit (Py.strip (Py.zfill 3 (Py.str n))));
      now rewrite ?zfill_idem. }
  unfold load_row. rewrite E. now destruct r.
Qed.

Lemma well_formed_loaded_of (t : table) (d : option table) :
  Forall row_well_formed t -> loaded (mkStorage (Some t) d) = t.
Proof.
  intros H. unfold loaded, active. simpl.
  rewrite <- (map_id t) at 2. apply map_ext_in.
  intros r Hr. apply load_row_well_formed.
  rewrite Forall_forall in H. now apply H.
Qed.

Lemma new_row_well_formed (e : env) (f : form) (d : data) (ean13 : string) :
  validate_inputs f = Some (inl d) ->
  row_well_formed
    (new_row e d (brand_code d ++ size_code d ++ matt_polished d ++ spcode d)
             ean13).
Proof.
  intros V. destruct (validated_data f d V) as [[n [Hn E]] _].
  destruct (validated_widths f d V) as [B [S [M _]]].
  exists (brand_code d), (size_code d), (matt_polished d), n.
  cbn [BrandCode SizeCode MattPolished SPCode SKU new_row].
  rewrite E. repeat split; try assumption. lia.
Qed.

Lemma well_formed_edit (g : row -> row) (t : table) :
  (forall r, row_well_formed r -> row_well_formed (g r)) ->
  Forall row_well_formed t -> Forall row_well_formed (map g t).
Proof.
  intros H Ht. rewrite Forall_forall in *. intros x Hx.
  apply in_map_iff in Hx. destruct Hx as [r [<- Hr]]. auto.
Qed.

Lemma set_ImagePaths_well_formed (c : cell) (r : row) :
  row_well_formed r -> row_well_formed (set_ImagePaths c r).
Proof. intros [b [s [m [n H]]]]. now exists b, s, m, n. Qed.

Lemma set_Notes_well_formed (c : cell) (r : row) :
  row_well_formed r -> row_well_formed (set_Notes c r).
Proof. intros [b [s [m [n H]]]]. now exists b, s, m, n. Qed.

Lemma Forall_filter {A} (P : A -> Prop) (p : A -> bool) (l : list A) :
  Forall P l -> Forall P (List.filter p l).
Proof.
  rewrite !Forall_forall. intros H x Hx. apply filter_In in Hx. now apply H.
Qed.

(** X12. Starting from a table whose rows all have the fixed-width codes and
    the SKU these build, every handler leaves such a table: the row
    [save_product] appends is well formed, and deletions and edits keep
    the code columns of the rows that stay. *)
Theorem handlers_keep_rows_well_formed (st : storage) :
  Forall row_well_formed (loaded st) ->
  (forall e f, Forall row_well_formed (loaded (snd (save_product e f st))))
  /\ (forall sku, Forall row_well_formed (loaded (snd (delete_product sku st))))
  /\ (forall sku p,
        Forall row_well_formed
               (loaded (snd (delete_image_from_product sku p st))))
  /\ (forall sku typed,
        Forall row_well_formed (loaded (snd (add_notes sku typed st)))).
Proof.
  intros W.
  assert (Forall row_well_formed (loaded (ensured st))) as We
    by now rewrite loaded_ensured.
  split; [| split; [| split]].
  - intros e f.
    destruct (validate_inputs f) as [[d | err] |] eqn:V.
    + destruct (fst (save_product e f st)) as [[err | sku | sku ean13] |] eqn:R.
      1,2,4: rewrite (save_product_valid e f d st V) in *;
        destruct (build_ean13 _ _ _ _); [| exact We];
        destruct (mem _ _); [exact We | discriminate R].
      destruct (loaded_after_save e f d st sku ean13 V R) as [-> ->].
      apply Forall_app. split; [exact W |].
      constructor; [| constructor]. exact (new_row_well_formed e f d ean13 V).
    + now rewrite (save_product_invalid e f err st V).
    + unfold save_product, bind, lift. now rewrite V.
  - intros sku.
    destruct (rows_with_sku sku (loaded st)) as [| r rest] eqn:E.
    + now rewrite (delete_product_not_found sku st E).
    + rewrite (loaded_after_delete sku st r rest E). now apply Forall_filter.
  - intros sku p. rewrite delete_image_from_product_run.
    destruct (rows_with_sku sku (loaded st)) as [| r rest]; [exact We |].
    destruct (mem p (images_of r)); [| exact We].
    simpl snd.
    assert (Forall row_well_formed (assign_ImagePaths sku
              (Py.join ";" (remove_first p (images_of r))) (loaded st))) as Wa.
    { apply well_formed_edit; [| exact W]. intros x Hx.
      destruct (Pd.eq (SKU x) sku); [| exact Hx].
      now apply set_ImagePaths_well_formed. }
    now rewrite (well_formed_loaded_of _ _ Wa).
  - intros sku typed. rewrite add_notes_run.
    destruct (rows_with_sku sku (loaded st)) as [| r rest]; [exact We |].
    destruct (match typed with Some t => notes_on_ok (Notes r) t | None => None end)
      as [v |]; [| exact We].
    simpl snd.
    assert (Forall row_well_formed (assign_Notes sku v (loaded st))) as Wa.
    { apply well_formed_edit; [| exact W]. intros x Hx.
      destruct (Pd.eq (SKU x) sku); [| exact Hx].
      now apply set_Notes_well_formed. }
    now rewrite (well_formed_loaded_of _ _ Wa).
Qed.

Lemma sample_row_well_formed :
  row_well_formed (sample_row "VE" "6060" "0" "001" "").
Proof. exists "VE", "6060", "0", 1. repeat split. lia. Qed.

Lemma handlers_keep_rows_well_formed_witness :
  let st := storage_of [sample_row "VE" "6060" "0" "001" ""] in
  (forall e f, Forall row_well_formed (loaded (snd (save_product e f st))))
  /\ (forall sku, Forall row_well_formed (loaded (snd (delete_product sku st))))
  /\ (forall sku p,
        Forall row_well_formed
               (loaded (snd (delete_image_from_product sku p st))))
  /\ (forall sku typed,
        Forall row_well_formed (loaded (snd (add_notes sku typed st)))).
Proof.
  apply (handlers_keep_rows_well_formed
           (storage_of [sample_row "VE" "6060" "0" "001" ""])).
  constructor; [| constructor]. exact sample_row_well_formed.
Defined.

(** ** Generate, then save *)

(** X21. On a table of well-formed rows, a form that holds the SPCode the
    allocator generated for its brand and size is never turned down as a
    duplicate: the SKU it builds is carried by no active row. *)
Theorem generated_spcode_not_duplicate
  (e : env) (f : form) (d : data) (st : storage) :
  Forall row_well_formed (loaded st) ->
  validate_inputs f = Some (inl d) ->
  spcode_var f = next_spcode_in (loaded st) (brand_code d) (size_code d) ->
  (forall sku, fst (save_product e f st) <> Some (Duplicate sku))
  /\ ~ In (brand_code d ++ size_code d ++ matt_polished d ++ spcode d)
          (map (fun r => Pd.astype_str (SKU r)) (loaded st)).
Proof.
  intros W V G.
  assert (~ In (brand_code d ++ size_code d ++ matt_polished d ++ spcode d)
               (map (fun r => Pd.astype_str (SKU r)) (loaded st))) as Hnew.
  { intros Hin. apply in_map_iff in Hin. destruct Hin as [r [Esku Hr]].
    rewrite Forall_forall in W. pose proof (W r Hr) as Wr.
    destruct Wr as [b [s [m [n [Hb [Hs [Hm [Lb [Ls [Lm [Hn [Hq Hk]]]]]]]]]]]].
    destruct (validated_widths f d V) as [B [S [M _]]].
    rewrite Hk in Esku. cbn [Pd.astype_str] in Esku.
    destruct (str_app_inj _ _ _ _ (eq_trans Lb (eq_sym B)) Esku) as [Eb E1].
    destruct (str_app_inj _ _ _ _ (eq_trans Ls (eq_sym S)) E1) as [Es E2].
    destruct (str_app_inj _ _ _ _ (eq_trans Lm (eq_sym M)) E2) as [_ Eq].
    subst b s.
    assert (In r (rows_of_pair (brand_code d) (size_code d) (loaded st)))
      as Hpair.
    { unfold rows_of_pair. apply filter_In. split; [exact Hr |].
      rewrite Hb, Hs. unfold Pd.eq. now rewrite !String.eqb_refl. }
    assert (spcode_num (SPCode r) = Some n) as Hnum
      by (apply spcode_num_of_padded; [exact Hn | now rewrite Hq]).
    assert (forall x, In x (rows_of_pair (brand_code d) (size_code d)
                                         (loaded st)) ->
                      spcode_num (SPCode x) <> None) as Hread.
    { intros x Hx. unfold rows_of_pair in Hx. apply filter_In in Hx.
      destruct (well_formed_readable x (W x (proj1 Hx))) as [k [_ [_ Ek]]].
      now rewrite Ek. }
    destruct (next_spcode_in_exceeds _ _ _ r n Hread Hpair Hnum)
      as [k [Hk' [Hk1 Ek]]].
    destruct (validated_spcode_var f d V) as [j [_ [Hj [Ej _]]]].
    rewrite G, Ek in Hj.
    destruct (zfill_str_nonneg 3 k ltac:(lia)) as [_ [Dk Ik]].
    rewrite (strip_decimal _ Dk), Ik in Hj. injection Hj as <-.
    rewrite Ej in Eq.
    pose proof (int_zfill_str 3 n) as In'. rewrite Eq, Ik in In'.
    injection In' as In'. lia. }
  split; [| exact Hnew].
  intros sku Hd. rewrite (save_product_valid e f d st V) in Hd.
  destruct (build_ean13 _ _ _ _); [| discriminate Hd].
  destruct (mem _ _) eqn:M; [| discriminate Hd].
  apply Hnew. unfold mem in M. apply existsb_exists in M.
  destruct M as [y [Hy Ey]]. apply String.eqb_eq in Ey. now subst y.
Qed.

Lemma generated_spcode_not_duplicate_witness :
  let f := mkForm "VE" "60x60" (fun l => String.eqb l "White Body") "0"
                  "002" "1" "" "893" "12345" "Lux White Marble" "" in
  let st := storage_of [sample_row "VE" "6060" "0" "001" ""] in
  (forall sku, fst (save_product sample_env f st) <> Some (Duplicate sku))
  /\ ~ In "VE60600002" (map (fun r => Pd.astype_str (SKU r)) (loaded st)).
Proof.
  apply (generated_spcode_not_duplicate sample_env
           (mkForm "VE" "60x60" (fun l => String.eqb l "White Body") "0"
                   "002" "1" "" "893" "12345" "Lux White Marble" "")
           (mkData "VE" "Vesta" "0" "60x60" "6060" "White Body" "W" "0" "002"
                   "Lux White Marble" 1 "" "893" "12345" "")
           (storage_of [sample_row "VE" "6060" "0" "001" ""])).
  - constructor; [| constructor]. exact sample_row_well_formed.
  - reflexivity.
  - reflexivity.
Defined.

(** ** The allocator on readable tables *)

(** X8. When every sequence cell of the pair that is made of digit
    characters is one [int] reads, [next_spcode_for] returns the highest
    sequence number of the pair plus one, at least one, zero-padded to
    three digits, cells that are not digits counting as zero; when no row
    of the table belongs to the pair it returns "001". *)
Theorem next_spcode_for_readable (b s : string) (st : storage) :
  (forall r, In r (rows_of_pair b s (loaded st)) ->
             spcode_num (SPCode r) <> None) ->
  next_spcode_for b s st
  = (Some (Claimed.next_spcode (loaded st) b s), ensured st)
  /\ (rows_of_pair b s (loaded st) = [] ->
      fst (next_spcode_for b s st) = Some "001").
Proof.
  intros H. rewrite next_spcode_for_run.
  rewrite (next_spcode_in_readable (loaded st) b s H). split; [reflexivity |].
  intros E. simpl. unfold Claimed.next_spcode. now rewrite E.
Qed.

Lemma next_spcode_for_readable_witness :
  let st := storage_of [sample_row "VE" "6060" "0" "001" "";
                        sample_row "VE" "6060" "1" "x" "";
                        sample_row "OM" "6060" "1" "009" ""] in
  next_spcode_for "VE" "6060" st = (Some "002", ensured st)
  /\ (rows_of_pair "VE" "6060" (loaded st) = [] ->
      fst (next_spcode_for "VE" "6060" st) = Some "001").
Proof.
  apply (next_spcode_for_readable "VE" "6060"
           (storage_of [sample_row "VE" "6060" "0" "001" "";
                        sample_row "VE" "6060" "1" "x" "";
                        sample_row "OM" "6060" "1" "009" ""])).
  intros r Hr. vm_compute in Hr.
  destruct Hr as [<- | [<- | []]]; vm_compute; discriminate.
Defined.

(** ** The deleted table only grows *)

Lemma filter_ne_not_found (sku : string) (df : table) :
  rows_with_sku sku df = [] ->
  List.filter (fun x => Pd.ne (SKU x) sku) df = df.
Proof.
  intros H. apply filter_all. intros x Hx.
  apply ne_of_other_sku.
  destruct (String.eqb (Pd.astype_str (SKU x)) sku) eqn:E; [| reflexivity].
  assert (In x (rows_with_sku sku df)) as Hin
    by (unfold rows_with_sku; apply filter_In; now split).
  rewrite H in Hin. destruct Hin.
Qed.

(** X10. No handler removes or rewrites a row of the deleted table: saving,
    allocating, deleting an image and adding notes leave it as it is, and
    [delete_product] appends the first row that carries the SKU, or
    nothing when there is none. After [delete_product] the loaded active
    table is the one before without the rows that carry the SKU as
    text. *)
Theorem deleted_table_only_grows (st : storage) :
  (forall e f, deleted (snd (save_product e f st)) = deleted st)
  /\ (forall b s, deleted (snd (next_spcode_for b s st)) = deleted st)
  /\ (forall sku p,
        deleted (snd (delete_image_from_product sku p st)) = deleted st)
  /\ (forall sku typed, deleted (snd (add_notes sku typed st)) = deleted st)
  /\ (forall sku,
        deleted (snd (delete_product sku st))
        = (deleted st ++ firstn 1 (rows_with_sku sku (loaded st)))%list
        /\ loaded (snd (delete_product sku st))
           = List.filter (fun x => Pd.ne (SKU x) sku) (loaded st)).
Proof.
  assert (forall d, deleted (mkStorage d (deleted_data_file (ensured st)))
                    = deleted st) as Hd.
  { intros d. unfold deleted. simpl. apply deleted_ensured. }
  split; [| split; [| split; [| split]]].
  - intros e f. destruct (validate_inputs f) as [[d | err] |] eqn:V.
    + rewrite (save_product_valid e f d st V).
      destruct (build_ean13 _ _ _ _); [| apply deleted_ensured].
      destruct (mem _ _); [apply deleted_ensured | apply Hd].
    + now rewrite (save_product_invalid e f err st V).
    + unfold save_product, bind, lift. now rewrite V.
  - intros b s. rewrite next_spcode_for_run. apply deleted_ensured.
  - intros sku p. rewrite delete_image_from_product_run.
    destruct (rows_with_sku sku (loaded st)); [apply deleted_ensured |].
    destruct (mem p (images_of r)); [apply Hd | apply deleted_ensured].
  - intros sku typed. rewrite add_notes_run.
    destruct (rows_with_sku sku (loaded st)); [apply deleted_ensured |].
    destruct (match typed with Some t => notes_on_ok (Notes r) t | None => None end);
      [apply Hd | apply deleted_ensured].
  - intros sku.
    destruct (rows_with_sku sku (loaded st)) as [| r rest] eqn:E.
    + rewrite (delete_product_not_found sku st E). simpl snd.
      rewrite deleted_ensured, loaded_ensured, app_nil_r.
      now rewrite (filter_ne_not_found sku _ E).
    + rewrite (loaded_after_delete sku st r rest E).
      now rewrite (delete_product_run sku st r rest E).
Qed.

(** ** What validation guarantees *)

(** X18. A form that passes validation yields data within the ranges the
    messages name: a known brand with its id, a finish of 0 or 1, a
    sequence of three decimal digits that reads as a number from 1 to
    999, at least one face, a country prefix of two or three digit
    characters, a company prefix of four to nine, and a name that is not
    empty. *)
Theorem validate_inputs_ranges (f : form) (d : data) :
  validate_inputs f = Some (inl d) ->
  lookup (brand_code d) BRAND_LIST = Some (brand_name d, brand_id d)
  /\ lookup (size_label d) SIZES = Some (size_code d)
  /\ (matt_polished d = "0" \/ matt_polished d = "1")
  /\ (exists n, 1 <= n <= 999 /\ Py.int (spcode d) = Some n
                /\ String.length (spcode d) = 3%nat
                /\ Py.all_chars Py.isdecimal (spcode d) = true)
  /\ 1 <= faces d
  /\ (Py.isdigit (country d) = true
      /\ (2 <= String.length (country d) <= 3)%nat)
  /\ (Py.isdigit (company d) = true
      /\ (4 <= String.length (company d) <= 9)%nat)
  /\ commercial_name d <> "".
Proof.
  intros V.
  destruct (validated_data f d V) as [[n [Hn E]] _].
  destruct (validated_widths f d V) as [_ [_ [_ [Lq Dq]]]].
  assert (exists n, 1 <= n <= 999 /\ Py.int (spcode d) = Some n
                    /\ String.length (spcode d) = 3%nat
                    /\ Py.all_chars Py.isdecimal (spcode d) = true) as Hseq.
  { exists n. repeat split; try assumption; try lia.
    rewrite E. apply int_zfill_str. }
  revert V Hseq. clear. unfold validate_inputs. intros H Hseq.
  split_validation H. injection H as <-.
  cbn [brand_code brand_name brand_id size_label size_code matt_polished
       spcode faces country company commercial_name] in *.
  repeat match goal with
         | Hx : negb _ = false |- _ => apply negb_false_iff in Hx
         | Hx : (_ || _)%bool = false |- _ =>
             apply orb_false_iff in Hx; destruct Hx
         | Hx : (_ && _)%bool = true |- _ =>
             apply andb_true_iff in Hx; destruct Hx
         end.
  split; [congruence |]. split; [assumption |].
  split.
  { match goal with
    | Hm : mem ?m _ = true |- _ =>
        unfold mem in Hm; simpl in Hm;
        destruct (String.eqb_spec m "0") as [-> |]; [now left |];
        destruct (String.eqb_spec m "1") as [-> |]; [now right |];
        discriminate Hm
    end. }
  split; [exact Hseq |].
  split.
  { match goal with
    | Hx : (?z <? 1) = false |- 1 <= ?z => apply Z.ltb_ge in Hx; exact Hx
    end. }
  split.
  { split; [assumption |].
    match goal with
    | Hx : ((String.length ?c =? 2)%nat || (String.length ?c =? 3)%nat)%bool
           = true |- (2 <= String.length ?c <= 3)%nat =>
        apply orb_true_iff in Hx; destruct Hx as [Hx | Hx];
        apply Nat.eqb_eq in Hx; lia
    end. }
  split.
  { split; [assumption |].
    match goal with
    | H1 : (4 <=? String.length ?c)%nat = true,
      H2 : (String.length ?c <=? 9)%nat = true |- _ =>
        apply Nat.leb_le in H1, H2; lia
    end. }
  match goal with
  | Hx : String.eqb ?c "" = false |- ?c <> "" => now apply String.eqb_neq
  end.
Qed.

Lemma validate_inputs_ranges_witness :
  lookup "VE" BRAND_LIST = Some ("Vesta", "0")
  /\ lookup "60x60" SIZES = Some "6060"
  /\ ("0" = "0" \/ "0" = "1")
  /\ (exists n, 1 <= n <= 999 /\ Py.int "001" = Some n
                /\ String.length "001" = 3%nat
                /\ Py.all_chars Py.isdecimal "001" = true)
  /\ 1 <= 1
  /\ (Py.isdigit "893" = true /\ (2 <= String.length "893" <= 3)%nat)
  /\ (Py.isdigit "12345" = true /\ (4 <= String.length "12345" <= 9)%nat)
  /\ "Lux White Marble" <> "".
Proof.
  exact (validate_inputs_ranges sample_form sample_data eq_refl).
Defined.

(** ** The row a save stores *)

(** X22. When [save_product] saves a form whose country and company
    prefixes are decimal digits 0-9, the table it writes is the loaded
    table with exactly one row appended, the row of the form; the deleted
    table is untouched; the SKU has ten characters and the EAN13 written
    is a valid EAN-13 number, one that [generate_barcode_qr] accepts for
    drawing. *)
Theorem save_product_stores_row
  (e : env) (f : form) (d : data) (st : storage) (sku ean13 : string) :
  validate_inputs f = Some (inl d) ->
  Py.all_chars Py.isdecimal (country d ++ company d) = true ->
  fst (save_product e f st) = Some (Saved sku ean13) ->
  let st' := snd (save_product e f st) in
  active st' = (loaded st ++ [new_row e d sku ean13])%list
  /\ deleted st' = deleted st
  /\ sku = brand_code d ++ size_code d ++ matt_polished d ++ spcode d
  /\ String.length sku = 10%nat
  /\ build_ean13 (country d) (company d) (brand_id d) (spcode d) = Some ean13
  /\ valid_ean13 ean13
  /\ barcode_accepts ean13 = true.
Proof.
  intros V Hdec Hs st'.
  destruct (validated_widths f d V) as [B [S [M [Q _]]]].
  destruct (validated_data f d V) as [[n [_ E]] Hbid].
  assert (build_ean13 (country d) (company d) (brand_id d) (spcode d)
          = Some ean13
          /\ sku = brand_code d ++ size_code d ++ matt_polished d ++ spcode d
          /\ active st' = (loaded st ++ [new_row e d sku ean13])%list
          /\ deleted st' = deleted st) as [He [Hsku [Ha Hd]]].
  { subst st'. rewrite (save_product_valid e f d st V) in *.
    destruct (build_ean13 _ _ _ _) as [c |]; [| discriminate Hs].
    destruct (mem _ _); [discriminate Hs |].
    simpl in Hs. injection Hs as <- <-. repeat split.
    unfold deleted. simpl. apply deleted_ensured. }
  destruct (build_ean13_plain_valid (country d) (company d) (brand_id d)
              (spcode d) n) as [code [Ec [Hv Hacc]]].
  { rewrite E. apply int_zfill_str. }
  { unfold plain_digits. rewrite <- app_assoc_s, all_chars_app.
    apply andb_true_iff. split; [| apply (brand_id_plain _ Hbid)].
    revert Hdec. apply all_chars_impl. intros c Hc.
    now rewrite (decimal_is_digit c Hc), Hc. }
  rewrite He in Ec. injection Ec as <-.
  refine (conj Ha (conj Hd (conj Hsku (conj _ (conj He (conj Hv Hacc)))))).
  rewrite Hsku, !str_length_app, B, S, M, Q. reflexivity.
Qed.

Lemma save_product_stores_row_witness :
  let st' := snd (save_product sample_env sample_form (storage_of [])) in
  active st'
  = (loaded (storage_of [])
     ++ [new_row sample_env sample_data "VE60600001" "8931234500016"])%list
  /\ deleted st' = deleted (storage_of [])
  /\ "VE60600001" = "VE" ++ "6060" ++ "0" ++ "001"
  /\ String.length "VE60600001" = 10%nat
  /\ build_ean13 "893" "12345" "0" "001" = Some "8931234500016"
  /\ valid_ean13 "8931234500016"
  /\ barcode_accepts "8931234500016" = true.
Proof.
  exact (save_product_stores_row sample_env sample_form sample_data
           (storage_of []) "VE60600001" "8931234500016"
           eq_refl eq_refl eq_refl).
Defined.

(** * Deleting, allocating and image lists, on the lemmas above *)

(** ** C4: deleted products and their sequence numbers *)

(** C4, as the code has it. After a deletion the allocation for a
    (brand, size) pair is scoped to the products still active: the
    allocator computes on the loaded table without the deleted rows. When
    the sequence cells of the pair's remaining active products are ones
    it can read, it returns their maximum sequence number plus one, so it
    does not return the deleted product's sequence number as long as an
    active product of the pair with a sequence number at least as high
    remains. When no active product of the pair remains it returns "001":
    a deleted product does free its slot. *)
Theorem deleted_slot_kept_below_top
  (st : storage) (sku : string) (r : row) (rest : table) (b s : string) :
  rows_with_sku sku (loaded st) = r :: rest ->
  let st' := snd (delete_product sku st) in
  fst (delete_product sku st) = Some Deleted
  /\ loaded st' = List.filter (fun x => Pd.ne (SKU x) sku) (loaded st)
  /\ next_spcode_for b s st' = (Some (next_spcode_in (loaded st') b s), st')
  /\ ((forall x, In x (rows_of_pair b s (loaded st')) ->
                 spcode_num (SPCode x) <> None) ->
      next_spcode_in (loaded st') b s = Claimed.next_spcode (loaded st') b s
      /\ forall r' n m,
           In r' (rows_of_pair b s (loaded st')) ->
           spcode_num (SPCode r) = Some n ->
           spcode_num (SPCode r') = Some m ->
           n <= m ->
           next_spcode_in (loaded st') b s <> Pd.astype_str (SPCode r))
  /\ (rows_of_pair b s (loaded st') = [] ->
      next_spcode_in (loaded st') b s = "001").
Proof.
  intros Hr st'.
  pose proof (loaded_after_delete sku st r rest Hr) as Hl. fold st' in Hl.
  split; [now rewrite (delete_product_run sku st r rest Hr) |].
  split; [exact Hl |].
  split; [| split].
  - rewrite next_spcode_for_run. f_equal.
    subst st'. rewrite (delete_product_run sku st r rest Hr). reflexivity.
  - intros Hread. split; [now apply next_spcode_in_readable |].
    intros r' n m Hr' Hn Hm Hle.
    destruct (next_spcode_in_exceeds _ b s r' m Hread Hr' Hm)
      as [k [Hk [H1 E]]].
    rewrite E. intros Eq. symmetry in Eq.
    apply spcode_num_of_padded in Eq; [| lia].
    rewrite Hn in Eq. injection Eq as Eq. lia.
  - apply next_spcode_no_match.
Qed.

Lemma deleted_slot_kept_below_top_witness :
  let st := storage_of [sample_row "VE" "6060" "0" "001" "";
                        sample_row "VE" "6060" "1" "002" ""] in
  let r := sample_row "VE" "6060" "0" "001" "" in
  let st' := snd (delete_product "VE60600001" st) in
  fst (delete_product "VE60600001" st) = Some Deleted
  /\ loaded st'
     = List.filter (fun x => Pd.ne (SKU x) "VE60600001") (loaded st)
  /\ next_spcode_for "VE" "6060" st'
     = (Some (next_spcode_in (loaded st') "VE" "6060"), st')
  /\ ((forall x, In x (rows_of_pair "VE" "6060" (loaded st')) ->
                 spcode_num (SPCode x) <> None) ->
      next_spcode_in (loaded st') "VE" "6060"
      = Claimed.next_spcode (loaded st') "VE" "6060"
      /\ forall r' n m,
           In r' (rows_of_pair "VE" "6060" (loaded st')) ->
           spcode_num (SPCode r) = Some n ->
           spcode_num (SPCode r') = Some m ->
           n <= m ->
           next_spcode_in (loaded st') "VE" "6060"
           <> Pd.astype_str (SPCode r))
  /\ (rows_of_pair "VE" "6060" (loaded st') = [] ->
      next_spcode_in (loaded st') "VE" "6060" = "001").
Proof.
  exact (deleted_slot_kept_below_top
           (storage_of [sample_row "VE" "6060" "0" "001" "";
                        sample_row "VE" "6060" "1" "002" ""])
           "VE60600001" (sample_row "VE" "6060" "0" "001" "")
           [] "VE" "6060" eq_refl).
Defined.

(** With products 001 and 002 of a pair, deleting 001 leaves 003 as the
    next number; deleting 002 makes 002 the next number again. *)
Example deleted_slot_examples :
  let st := storage_of [sample_row "VE" "6060" "0" "001" "";
                        sample_row "VE" "6060" "1" "002" ""] in
  fst (next_spcode_for "VE" "6060" (snd (delete_product "VE60600001" st)))
  = Some "003"
  /\ fst (next_spcode_for "VE" "6060" (snd (delete_product "VE60601002" st)))
     = Some "002".
Proof. split; reflexivity. Qed.

(** ** C7: deleting a product *)

Lemma text_sku_of_selected (r : row) (sku : string) :
  sku <> "nan" -> Pd.astype_str (SKU r) = sku -> SKU r = Str sku.
Proof.
  intros Hnan E. destruct (SKU r) as [t |]; simpl in E.
  - now subst t.
  - now destruct Hnan.
Qed.

Lemma unique_row_selected (sku : string) (t : table) (r : row) :
  sku_unique t -> In r t -> Pd.astype_str (SKU r) = sku ->
  rows_with_sku sku t = [r].
Proof.
  unfold sku_unique, rows_with_sku.
  induction t as [| x t IH]; intros U Hin E; [destruct Hin |].
  simpl in U. inversion U as [| ? ? Hnin Hnd]; subst.
  cbn [List.filter]. destruct Hin as [-> | Hin].
  - rewrite String.eqb_refl. f_equal.
    destruct (List.filter
                (fun y => String.eqb (Pd.astype_str (SKU y))
                                     (Pd.astype_str (SKU r))) t)
      as [| y l] eqn:F; [reflexivity |].
    exfalso. apply Hnin.
    assert (In y (List.filter
                    (fun y => String.eqb (Pd.astype_str (SKU y))
                                         (Pd.astype_str (SKU r))) t))
      as Hy by (rewrite F; now left).
    apply filter_In in Hy. destruct Hy as [Hy Ey].
    apply String.eqb_eq in Ey. rewrite <- Ey.
    now apply (in_map (fun r => Pd.astype_str (SKU r))).
  - destruct (String.eqb_spec (Pd.astype_str (SKU x)) (Pd.astype_str (SKU r)))
      as [Ex |].
    + exfalso. apply Hnin. rewrite Ex.
      now apply (in_map (fun r => Pd.astype_str (SKU r))).
    + now apply IH.
Qed.

(** C7. For every active table that holds each SKU once (the invariant
    [save_product] keeps) and every SKU, the text "nan" apart, that one
    of its products carries, deleting that product removes its row from
    the active table and appends that very row, all 19 cells, to the
    deleted table, leaving the rows before and after it unchanged and in
    order. *)
Theorem delete_product_moves_one_row (st : storage) (sku : string) :
  sku_unique (loaded st) ->
  sku <> "nan" ->
  Claimed.delete_moves_one_row st sku.
Proof.
  intros U Hnan r Hin E.
  pose proof (unique_row_selected sku (loaded st) r U Hin E) as Hsel.
  pose proof (text_sku_of_selected r sku Hnan E) as Htext.
  destruct (delete_product_unique_sku st sku r Hsel Htext)
    as [before [after [El [Ed _]]]].
  eexists. exists before, after.
  split; [exact Ed |]. now repeat split.
Qed.

Lemma delete_product_moves_one_row_witness :
  Claimed.delete_moves_one_row
    (storage_of [sample_row "VE" "6060" "0" "001" "";
                 sample_row "VE" "6060" "1" "002" "";
                 sample_row "OM" "8080" "0" "001" ""])
    "VE60601002".
Proof.
  apply (delete_product_moves_one_row
           (storage_of [sample_row "VE" "6060" "0" "001" "";
                        sample_row "VE" "6060" "1" "002" "";
                        sample_row "OM" "8080" "0" "001" ""])
           "VE60601002").
  - unfold sku_unique. simpl.
    repeat constructor; simpl; intuition discriminate.
  - discriminate.
Defined.

(** ** C10: deleting an image from a product *)




(** Taking "a.png" out of "a.png;b.png;a.png" writes "b.png;a.png". *)
Example delete_image_from_product_example :
  let r := set_ImagePaths (Str "a.png;b.png;a.png")
                          (sample_row "VE" "6060" "0" "001" "") in
  let out := delete_image_from_product "VE60600001" "a.png" (storage_of [r]) in
  fst out = Some true
  /\ map ImagePaths (active (snd out)) = [Str "b.png;a.png"]
  /\ fst (delete_image_from_product "VE60600001" "c.png" (storage_of [r]))
     = Some false.
Proof. repeat split. Qed.

(** ** C6: image ingestion *)

Lemma copy2_other (src dst : string) (fs : files) (content : list Byte.byte) :
  fs src = Some content -> src <> dst ->
  copy2 src dst fs = Some (write_file dst content fs).
Proof.
  intros Hsrc Hne. unfold copy2.
  apply String.eqb_neq in Hne. now rewrite Hne, Hsrc.
Qed.

Lemma write_file_same (path : string) (content : list Byte.byte) (fs : files) :
  write_file path content fs path = Some content.
Proof. unfold write_file. now rewrite String.eqb_refl. Qed.

Lemma write_file_other (path q : string) (content : list Byte.byte)
  (fs : files) :
  q <> path -> write_file path content fs q = fs q.
Proof.
  intros Hne. unfold write_file. apply String.eqb_neq in Hne. now rewrite Hne.
Qed.

Lemma all_from_spec (p : Z -> bool) (n : nat) (lo x : Z) :
  all_from n lo p = true -> lo <= x < lo + Z.of_nat n -> p x = true.
Proof.
  revert lo. induction n as [| n IH]; intros lo Hall Hx; [lia |].
  cbn [all_from] in Hall. apply andb_true_iff in Hall. destruct Hall as [H0 H1].
  destruct (Z.eq_dec x lo) as [-> | Hne]; [exact H0 |].
  apply (IH (lo + 1) H1). lia.
Qed.

(** C6, where the code departs from it. A picture 4000 wide and 1 high
    exceeds the maximum of 2000, and its scaled size is computed as
    (2000, 0): the height [round(1 * 0.5)] is 0. The imaging library
    refuses that size, the [except] branch runs, and [resize_and_save]
    copies the source file unchanged under its own extension: the file
    at the returned path has the bytes of the source, 4000 wide, neither
    downscaled nor re-encoded. *)
Theorem resize_and_save_thin_image_copied
  (image_size : list Byte.byte -> option (Z * Z))
  (resized_png : list Byte.byte -> Z -> Z -> option (list Byte.byte))
  (ext_of : string -> string)
  (src dst_base : string) (fs : files) (content : list Byte.byte) :
  fs src = Some content ->
  image_size content = Some (4000, 1) ->
  src <> dst_base ++ ext_of src ->
  let out := resize_and_save image_size resized_png ext_of src dst_base fs in
  (MAX_DIM <? Z.max 4000 1) = true
  /\ target_size 4000 1 = Some (2000, 0)
  /\ fst out = Some (dst_base ++ ext_of src)
  /\ snd out = write_file (dst_base ++ ext_of src) content fs
  /\ snd out (dst_base ++ ext_of src) = Some content
  /\ option_map image_size (snd out (dst_base ++ ext_of src))
     = Some (Some (4000, 1)).
Proof.
  intros Hsrc Hsize Hne out.
  assert (target_size 4000 1 = Some (2000, 0)) as Ht
    by (vm_compute; reflexivity).
  assert (out = (Some (dst_base ++ ext_of src),
                 write_file (dst_base ++ ext_of src) content fs)) as ->.
  { subst out. unfold resize_and_save, resize_or_copy.
    rewrite Hsrc, Hsize.
    change (MAX_DIM <? Z.max 4000 1) with true. cbv iota.
    rewrite Ht. cbv iota beta.
    change ((1 <=? 2000) && (1 <=? 0))%bool with false. cbv iota.
    now rewrite (copy2_other src _ fs content Hsrc Hne). }
  cbn [fst snd].
  rewrite write_file_same. cbn [option_map]. rewrite Hsize.
  repeat split; assumption.
Qed.

Lemma resize_and_save_thin_image_copied_witness :
  let image_size := fun _ : list Byte.byte => Some (4000, 1) in
  let resized_png :=
    fun (_ : list Byte.byte) (_ _ : Z) => Some [Byte.x89] in
  let ext_of := fun _ : string => ".jpg" in
  let fs : files :=
    fun q => if String.eqb q "in/thin.jpg" then Some [Byte.xff; Byte.xd8]
             else None in
  let dst := "images/VE60600001/001_face01_01.jpg" in
  let out := resize_and_save image_size resized_png ext_of "in/thin.jpg"
               "images/VE60600001/001_face01_01" fs in
  (MAX_DIM <? Z.max 4000 1) = true
  /\ target_size 4000 1 = Some (2000, 0)
  /\ fst out = Some dst
  /\ snd out = write_file dst [Byte.xff; Byte.xd8] fs
  /\ snd out dst = Some [Byte.xff; Byte.xd8]
  /\ option_map image_size (snd out dst) = Some (Some (4000, 1)).
Proof.
  exact (resize_and_save_thin_image_copied
           (fun _ => Some (4000, 1))
           (fun _ _ _ => Some [Byte.x89])
           (fun _ => ".jpg")
           "in/thin.jpg" "images/VE60600001/001_face01_01"
           (fun q => if String.eqb q "in/thin.jpg"
                     then Some [Byte.xff; Byte.xd8] else None)
           [Byte.xff; Byte.xd8]
           eq_refl eq_refl ltac:(discriminate)).
Defined.

(** ** Image ingestion: the branches of [resize_and_save] *)

(** X15. A picture whose width and height are both at most 2000 is copied
    under the extension of the source: the file at the returned path
    holds the bytes of the source, and no other file changes. *)
Theorem resize_and_save_small_copied
  (image_size : list Byte.byte -> option (Z * Z))
  (resized_png : list Byte.byte -> Z -> Z -> option (list Byte.byte))
  (ext_of : string -> string)
  (src dst_base : string) (fs : files) (content : list Byte.byte) (w h : Z) :
  fs src = Some content ->
  image_size content = Some (w, h) ->
  w <= MAX_DIM -> h <= MAX_DIM ->
  src <> dst_base ++ ext_of src ->
  let out := resize_and_save image_size resized_png ext_of src dst_base fs in
  fst out = Some (dst_base ++ ext_of src)
  /\ snd out (dst_base ++ ext_of src) = Some content
  /\ forall q, q <> dst_base ++ ext_of src -> snd out q = fs q.
Proof.
  intros Hsrc Hsize Hw Hh Hne out.
  assert (out = (Some (dst_base ++ ext_of src),
                 write_file (dst_base ++ ext_of src) content fs)) as ->.
  { subst out. unfold resize_and_save, resize_or_copy.
    rewrite Hsrc, Hsize.
    assert ((MAX_DIM <? Z.max w h) = false) as -> by (apply Z.ltb_ge; lia).
    now rewrite (copy2_other src _ fs content Hsrc Hne). }
  cbn [fst snd]. split; [reflexivity |]. split.
  - apply write_file_same.
  - intros q Hq. now apply write_file_other.
Qed.

Lemma resize_and_save_small_copied_witness :
  let image_size := fun _ : list Byte.byte => Some (2000, 1500) in
  let resized_png :=
    fun (_ : list Byte.byte) (_ _ : Z) => Some [Byte.x89] in
  let ext_of := fun _ : string => ".jpg" in
  let fs : files :=
    fun q => if String.eqb q "in/a.jpg" then Some [Byte.xff; Byte.xd8]
             else None in
  let dst := "images/VE60600001/001_face01_01.jpg" in
  let out := resize_and_save image_size resized_png ext_of "in/a.jpg"
               "images/VE60600001/001_face01_01" fs in
  fst out = Some dst
  /\ snd out dst = Some [Byte.xff; Byte.xd8]
  /\ forall q, q <> dst -> snd out q = fs q.
Proof.
  exact (resize_and_save_small_copied
           (fun _ => Some (2000, 1500))
           (fun _ _ _ => Some [Byte.x89])
           (fun _ => ".jpg")
           "in/a.jpg" "images/VE60600001/001_face01_01"
           (fun q => if String.eqb q "in/a.jpg"
                     then Some [Byte.xff; Byte.xd8] else None)
           [Byte.xff; Byte.xd8] 2000 1500
           eq_refl eq_refl ltac:(discriminate) ltac:(discriminate)
           ltac:(discriminate)).
Defined.

(** X23. A picture with a side above 2000 whose scaled width and height
    are both at least 1, and which the imaging library resamples and
    encodes, is written as PNG at the scaled size under the destination
    name with the extension [.png]; no other file changes. *)
Theorem resize_and_save_large_png
  (image_size : list Byte.byte -> option (Z * Z))
  (resized_png : list Byte.byte -> Z -> Z -> option (list Byte.byte))
  (ext_of : string -> string)
  (src dst_base : string) (fs : files) (content png : list Byte.byte)
  (w h nw nh : Z) :
  fs src = Some content ->
  image_size content = Some (w, h) ->
  MAX_DIM < Z.max w h ->
  target_size w h = Some (nw, nh) ->
  1 <= nw -> 1 <= nh ->
  resized_png content nw nh = Some png ->
  let out := resize_and_save image_size resized_png ext_of src dst_base fs in
  fst out = Some (dst_base ++ ".png")
  /\ snd out (dst_base ++ ".png") = Some png
  /\ forall q, q <> dst_base ++ ".png" -> snd out q = fs q.
Proof.
  intros Hsrc Hsize Hbig Ht Hnw Hnh Hpng out.
  assert (out = (Some (dst_base ++ ".png"),
                 write_file (dst_base ++ ".png") png fs)) as ->.
  { subst out. unfold resize_and_save, resize_or_copy.
    rewrite Hsrc, Hsize.
    assert ((MAX_DIM <? Z.max w h) = true) as -> by (apply Z.ltb_lt; lia).
    rewrite Ht. cbv iota beta.
    assert ((1 <=? nw) = true) as -> by (apply Z.leb_le; lia).
    assert ((1 <=? nh) = true) as -> by (apply Z.leb_le; lia).
    cbn [andb]. now rewrite Hpng. }
  cbn [fst snd]. split; [reflexivity |]. split.
  - apply write_file_same.
  - intros q Hq. now apply write_file_other.
Qed.

Lemma resize_and_save_large_png_witness :
  let image_size := fun _ : list Byte.byte => Some (4000, 3000) in
  let resized_png :=
    fun (_ : list Byte.byte) (nw nh : Z) =>
      if (nw =? 2000) && (nh =? 1500) then Some [Byte.x89] else None in
  let ext_of := fun _ : string => ".jpg" in
  let fs : files :=
    fun q => if String.eqb q "in/a.jpg" then Some [Byte.xff; Byte.xd8]
             else None in
  let dst := "images/VE60600001/001_face01_01.png" in
  let out := resize_and_save image_size resized_png ext_of "in/a.jpg"
               "images/VE60600001/001_face01_01" fs in
  fst out = Some dst
  /\ snd out dst = Some [Byte.x89]
  /\ forall q, q <> dst -> snd out q = fs q.
Proof.
  refine (resize_and_save_large_png
           (fun _ => Some (4000, 3000))
           (fun _ nw nh =>
              if (nw =? 2000) && (nh =? 1500) then Some [Byte.x89] else None)
           (fun _ => ".jpg")
           "in/a.jpg" "images/VE60600001/001_face01_01"
           (fun q => if String.eqb q "in/a.jpg"
                     then Some [Byte.xff; Byte.xd8] else None)
           [Byte.xff; Byte.xd8] [Byte.x89] 4000 3000 2000 1500
           eq_refl eq_refl eq_refl _ _ _ eq_refl).
  - vm_compute. reflexivity.
  - discriminate.
  - discriminate.
Defined.

(** X24. For every longest side from 2001 to 20000 pixels, the scaled
    length of that side, [int(round(side * (2000 / float(side))))] in
    binary64 arithmetic, is exactly 2000. *)
Theorem longest_side_target (side : Z) :
  MAX_DIM < side <= 20000 -> side_target side side = Some MAX_DIM.
Proof.
  intros H. unfold MAX_DIM in H.
  assert (all_from (Z.to_nat 18000) 2001
            (fun l => match side_target l l with
                      | Some t => t =? MAX_DIM
                      | None => false
                      end) = true) as Hall by (vm_compute; reflexivity).
  pose proof (all_from_spec _ _ _ side Hall ltac:(lia)) as Hs.
  cbv beta in Hs.
  destruct (side_target side side) as [t |]; [| discriminate].
  apply Z.eqb_eq in Hs. now subst t.
Qed.

Lemma longest_side_target_witness : side_target 4000 4000 = Some MAX_DIM.
Proof. apply (longest_side_target 4000). unfold MAX_DIM. lia. Defined.

(** X25. A source that the imaging library cannot open is copied under
    its own extension, bytes unchanged. *)
Theorem resize_and_save_unreadable_copied
  (image_size : list Byte.byte -> option (Z * Z))
  (resized_png : list Byte.byte -> Z -> Z -> option (list Byte.byte))
  (ext_of : string -> string)
  (src dst_base : string) (fs : files) (content : list Byte.byte) :
  fs src = Some content ->
  image_size content = None ->
  src <> dst_base ++ ext_of src ->
  let out := resize_and_save image_size resized_png ext_of src dst_base fs in
  fst out = Some (dst_base ++ ext_of src)
  /\ snd out (dst_base ++ ext_of src) = Some content
  /\ forall q, q <> dst_base ++ ext_of src -> snd out q = fs q.
Proof.
  intros Hsrc Hsize Hne out.
  assert (out = (Some (dst_base ++ ext_of src),
                 write_file (dst_base ++ ext_of src) content fs)) as ->.
  { subst out. unfold resize_and_save, resize_or_copy.
    rewrite Hsrc, Hsize.
    now rewrite (copy2_other src _ fs content Hsrc Hne). }
  cbn [fst snd]. split; [reflexivity |]. split.
  - apply write_file_same.
  - intros q Hq. now apply write_file_other.
Qed.

Lemma resize_and_save_unreadable_copied_witness :
  let image_size := fun _ : list Byte.byte => @None (Z * Z) in
  let resized_png :=
    fun (_ : list Byte.byte) (_ _ : Z) => Some [Byte.x89] in
  let ext_of := fun _ : string => ".txt" in
  let fs : files :=
    fun q => if String.eqb q "in/a.txt" then Some [Byte.x61] else None in
  let dst := "images/VE60600001/001_face01_01.txt" in
  let out := resize_and_save image_size resized_png ext_of "in/a.txt"
               "images/VE60600001/001_face01_01" fs in
  fst out = Some dst
  /\ snd out dst = Some [Byte.x61]
  /\ forall q, q <> dst -> snd out q = fs q.
Proof.
  exact (resize_and_save_unreadable_copied
           (fun _ => None)
           (fun _ _ _ => Some [Byte.x89])
           (fun _ => ".txt")
           "in/a.txt" "images/VE60600001/001_face01_01"
           (fun q => if String.eqb q "in/a.txt" then Some [Byte.x61]
                     else None)
           [Byte.x61]
           eq_refl eq_refl ltac:(discriminate)).
Defined.

(** X26. When the source file does not exist, [resize_and_save] returns
    None and writes nothing. *)
Theorem resize_and_save_missing_source
  (image_size : list Byte.byte -> option (Z * Z))
  (resized_png : list Byte.byte -> Z -> Z -> option (list Byte.byte))
  (ext_of : string -> string)
  (src dst_base : string) (fs : files) :
  fs src = None ->
  resize_and_save image_size resized_png ext_of src dst_base fs = (None, fs).
Proof.
  intros Hsrc. unfold resize_and_save, resize_or_copy, copy2.
  rewrite Hsrc. now destruct (String.eqb src (dst_base ++ ext_of src)).
Qed.

Lemma resize_and_save_missing_source_witness :
  resize_and_save (fun _ => Some (10, 10)) (fun _ _ _ => Some [Byte.x89])
    (fun _ => ".jpg") "in/a.jpg" "out/a" (fun _ => None)
  = (None, fun _ => None).
Proof.
  exact (resize_and_save_missing_source
           (fun _ => Some (10, 10)) (fun _ _ _ => Some [Byte.x89])
           (fun _ => ".jpg") "in/a.jpg" "out/a" (fun _ => None) eq_refl).
Defined.
